(** * Economic evaluation and BESS sizing of the photovoltaic backend

    A shallow embedding of [economic_calculator.py] and [bess_calculator.py]
    and the properties of their NPV, IRR, payback, scenario and sizing
    routines.

    Numbers.  The Python code computes on [float] and [int].  In the
    modules [Economic] and [Bess] every number is an exact rational ([Q]):
    the embedding agrees with Python on integers and abstracts the
    rounding, overflow and NaN of binary64.  [float('inf')] and
    [float('-inf')] are explicit constructors.  The properties are stated
    so that they do not lean on the exactness: an equality relates values
    that the code obtains by the same operations in the same order, an
    inequality is one that rounding to nearest preserves, a property that
    needs the normal range of binary64 carries the range as a hypothesis,
    and where [**] can overflow or underflow a property is about the calls
    that return.  The module [Binary64] holds single expressions of the
    source on primitive binary64 numbers, for the inputs on which rounding
    decides a claim.

    Errors.  A Python exception is an explicit [Raise]; every indexing and
    every division that can fail in the source is partial here. *)

From Stdlib Require Import QArith Qpower Qabs Lqa Lia List String Bool ZArith.
From Stdlib Require Import DecimalString.
From Stdlib Require Import PrimFloat.
Import ListNotations.
Local Open Scope Q_scope.

(** ** The fragment of the Python runtime the two modules rely on *)

Module Py.

Inductive exn : Type :=
| TypeError
| AttributeError
| KeyError
| IndexError
| ZeroDivisionError
| UnboundLocalError
| UserError (cls : string).   (* an exception class defined by a program *)

Inductive result (A : Type) : Type :=
| Ok (a : A)
| Raise (e : exn).
Arguments Ok {A} a.
Arguments Raise {A} e.

Definition bind {A B} (m : result A) (k : A -> result B) : result B :=
  match m with
  | Ok a => k a
  | Raise e => Raise e
  end.

(** [try: body / except Exception: handler] *)
Definition try_except {A} (body : result A) (handler : A) : A :=
  match body with
  | Ok a => a
  | Raise _ => handler
  end.

(** A float: a finite number or one of the two infinities. *)
Inductive pyfloat : Type :=
| Fin (q : Q)
| PosInf
| NegInf.

Definition ltb (a b : Q) : bool := negb (Qle_bool b a).
Definition leb (a b : Q) : bool := Qle_bool a b.
Definition gtb (a b : Q) : bool := ltb b a.
Definition geb (a b : Q) : bool := leb b a.

(** [a > b] where [b] may be an infinity and [a] is finite. *)
Definition gtb_float (a : Q) (b : pyfloat) : bool :=
  match b with
  | Fin q => gtb a q
  | PosInf => false
  | NegInf => true
  end.

(** [min(a, b)] and [max(a, b)]: the first argument wins a tie. *)
Definition min2 (a b : Q) : Q := if ltb b a then b else a.
Definition max2 (a b : Q) : Q := if gtb b a then b else a.

(** [a / b] *)
Definition truediv (a b : Q) : result Q :=
  if Qeq_bool b 0 then Raise ZeroDivisionError else Ok (a / b).

(** [b ** n] for an [int] exponent [n >= 0] *)
Definition pow (b : Q) (n : nat) : Q := b ^ Z.of_nat n.

(** [l[i]] for [i >= 0] *)
Definition getitem {A} (l : list A) (i : nat) : result A :=
  match nth_error l i with
  | Some x => Ok x
  | None => Raise IndexError
  end.

(** [sum(l)] *)
Definition sum (l : list Q) : Q := fold_left Qplus l 0.

(** [range(n)] and [range(a, b)] for [int]s *)
Definition range (n : Z) : list nat := seq 0 (Z.to_nat n).
Definition range2 (a : nat) (b : Z) : list nat :=
  seq a (Z.to_nat b - a).

(** [[f(x) for x in l]] where [f] may raise *)
Fixpoint comprehension {A B} (f : A -> result B) (l : list A)
  : result (list B) :=
  match l with
  | [] => Ok []
  | x :: l' =>
      bind (f x) (fun y =>
      bind (comprehension f l') (fun ys => Ok (y :: ys)))
  end.

(** the number of an [int] *)
Definition of_nat (n : nat) : Q := inject_Z (Z.of_nat n).

(** truth value of an [Optional[float]]: [None] and zero are false *)
Definition truthy (x : option Q) : bool :=
  match x with
  | None => false
  | Some q => negb (Qeq_bool q 0)
  end.

(** [x or 0] *)
Definition or_zero (x : option Q) : Q :=
  match x with
  | Some q => if Qeq_bool q 0 then 0 else q
  | None => 0
  end.

End Py.

Import Py.

Declare Scope py_scope.
Delimit Scope py_scope with py.
Notation "x <- m ;; k" := (bind m (fun x => k))
  (at level 61, m at next level, right associativity) : py_scope.
Local Open Scope py_scope.

(** ** economic_calculator.py *)

Module Economic.

Record EconomicParameters : Type := {
  electricity_price_f1 : Q;
  electricity_price_f2 : Q;
  electricity_price_f3 : Q;
  feed_in_tariff : Q;
  pv_capex_per_kwp : Q;
  pv_opex_annual_percent : Q;
  bess_capex_per_kwh : Q;
  bess_opex_annual_percent : Q;
  wacc : Q;
  analysis_years : Z;
  electricity_price_escalation : Q;
  opex_escalation : Q;
  tax_deduction_percent : Q;
  green_certificates : Q
}.

(** [EconomicParameters()] *)
Definition default_parameters : EconomicParameters := {|
  electricity_price_f1 := 0.28;
  electricity_price_f2 := 0.25;
  electricity_price_f3 := 0.22;
  feed_in_tariff := 0.05;
  pv_capex_per_kwp := 1200;
  pv_opex_annual_percent := 0.015;
  bess_capex_per_kwh := 500;
  bess_opex_annual_percent := 0.01;
  wacc := 0.05;
  analysis_years := 20;
  electricity_price_escalation := 0.02;
  opex_escalation := 0.02;
  tax_deduction_percent := 0;
  green_certificates := 0
|}.

(** *** NPV *)

(** the loop [for i, cf in enumerate(cash_flows): npv += cf / (1 + rate) ** i] *)
Fixpoint npv_loop (discount_rate : Q) (i : nat) (cash_flows : list Q)
         (npv : Q) : result Q :=
  match cash_flows with
  | [] => Ok npv
  | cf :: rest =>
      t <- truediv cf (pow (1 + discount_rate) i) ;;
      npv_loop discount_rate (S i) rest (npv + t)
  end.

Definition _calculate_npv (cash_flows : list Q) (discount_rate : Q)
  : result Q :=
  npv_loop discount_rate 0 cash_flows 0.

(** *** IRR *)

(** [sum(-i * cf / (1 + rate) ** (i + 1) for i, cf in enumerate(cash_flows) if i > 0)] *)
Fixpoint irr_derivative (rate : Q) (i : nat) (cash_flows : list Q)
         (acc : Q) : result Q :=
  match cash_flows with
  | [] => Ok acc
  | cf :: rest =>
      if (0 <? i)%nat then
        t <- truediv (- of_nat i * cf) (pow (1 + rate) (i + 1)) ;;
        irr_derivative rate (S i) rest (acc + t)
      else irr_derivative rate (S i) rest acc
  end.

(** the clamp at the end of an iteration *)
Definition irr_clamp (rate : Q) : Q :=
  if ltb rate (-0.99) then -0.99
  else if gtb rate 10 then 10
  else rate.

(** [return rate if -1 < rate < 10 else 0] *)
Definition irr_final (rate : Q) : Q :=
  if ltb (-1) rate && ltb rate 10 then rate else 0.

(** [for _ in range(n)] of the Newton-Raphson iteration, then the final
    return; [n] is the number of iterations left. *)
Fixpoint irr_loop (n : nat) (cash_flows : list Q) (rate : Q) : result Q :=
  match n with
  | O => Ok (irr_final rate)
  | S n' =>
      npv <- npv_loop rate 0 cash_flows 0 ;;
      npv_derivative <- irr_derivative rate 0 cash_flows 0 ;;
      if ltb (Qabs npv) 1e-6 then Ok rate
      else if ltb (Qabs npv_derivative) 1e-10 then Ok (irr_final rate)
      else
        step <- truediv npv npv_derivative ;;
        irr_loop n' cash_flows (irr_clamp (rate - step))
  end.

Definition _calculate_irr (cash_flows : list Q) : Q :=
  try_except (irr_loop 100 cash_flows 0.1) 0.

(** *** Payback *)

Fixpoint payback_loop (initial_investment : Q) (year : nat)
         (cash_flows : list Q) (cumulative_cf : Q) : result pyfloat :=
  match cash_flows with
  | [] => Ok PosInf
  | cf :: rest =>
      let cumulative_cf := cumulative_cf + cf in
      if geb cumulative_cf initial_investment then
        if (year =? 0)%nat then
          if gtb cf 0 then
            q <- truediv cf initial_investment ;; Ok (Fin q)
          else Ok PosInf
        else
          let previous_cumulative := cumulative_cf - cf in
          fraction <- truediv (initial_investment - previous_cumulative) cf ;;
          Ok (Fin (of_nat year + fraction))
      else payback_loop initial_investment (S year) rest cumulative_cf
  end.

Definition _calculate_payback (initial_investment : Q)
           (cash_flows : list Q) : result pyfloat :=
  payback_loop initial_investment 0 cash_flows 0.

(** *** Scenarios *)

(** the dictionary returned by the two scenario builders *)
Record Scenario : Type := {
  npv : Q;
  irr : Q;
  payback : pyfloat;
  capex : Q;
  annual_opex : Q;
  annual_savings : Q;
  cash_flows : list Q;
  annual_self_consumption : Q;
  annual_grid_export : Q;
  annual_grid_import : Q
}.

(** the three lists filled by the monthly loop of the PV-only scenario *)
Record MonthlyFlows : Type := {
  monthly_self_consumption : list Q;
  monthly_grid_export : list Q;
  monthly_grid_import : list Q
}.

(** [for i in range(12): ...] of [_calculate_pv_only_scenario] *)
Fixpoint monthly_loop (months : list nat)
         (pv_production_monthly consumption_monthly : list Q)
         (acc : MonthlyFlows) : result MonthlyFlows :=
  match months with
  | [] => Ok acc
  | i :: months' =>
      production <- getitem pv_production_monthly i ;;
      consumption <- getitem consumption_monthly i ;;
      let self_consumption := min2 production consumption in
      let grid_export := max2 0 (production - consumption) in
      let grid_import := max2 0 (consumption - production) in
      monthly_loop months' pv_production_monthly consumption_monthly
        {| monthly_self_consumption :=
             monthly_self_consumption acc ++ [self_consumption];
           monthly_grid_export := monthly_grid_export acc ++ [grid_export];
           monthly_grid_import := monthly_grid_import acc ++ [grid_import] |}
  end.

Definition monthly_flows (pv_production_monthly consumption_monthly : list Q)
  : result MonthlyFlows :=
  monthly_loop (range 12) pv_production_monthly consumption_monthly
    {| monthly_self_consumption := [];
       monthly_grid_export := [];
       monthly_grid_import := [] |}.

(** the fixed 0.33 / 0.33 / 0.34 blend of the three prices *)
Definition avg_electricity_price (p : EconomicParameters) : Q :=
  electricity_price_f1 p * 0.33 +
  electricity_price_f2 p * 0.33 +
  electricity_price_f3 p * 0.34.

(** the cash-flow loop shared by the two scenario builders *)
Definition build_cash_flows (annual_savings opex_annual : Q)
           (p : EconomicParameters) : list Q :=
  map (fun year =>
         let escalated_savings :=
           annual_savings * pow (1 + electricity_price_escalation p) year in
         let escalated_opex :=
           opex_annual * pow (1 + opex_escalation p) year in
         escalated_savings - escalated_opex)
      (range (analysis_years p)).

Definition _calculate_pv_only_scenario
           (pv_power_kwp pv_production_annual : Q)
           (pv_production_monthly consumption_monthly : list Q)
           (economic_params : EconomicParameters) : result Scenario :=
  let pv_capex := pv_power_kwp * pv_capex_per_kwp economic_params in
  let pv_opex_annual := pv_capex * pv_opex_annual_percent economic_params in
  m <- monthly_flows pv_production_monthly consumption_monthly ;;
  let annual_self_consumption := sum (monthly_self_consumption m) in
  let annual_grid_export := sum (monthly_grid_export m) in
  let annual_grid_import := sum (monthly_grid_import m) in
  let annual_savings :=
    annual_self_consumption * avg_electricity_price economic_params +
    annual_grid_export * feed_in_tariff economic_params in
  let cash_flows :=
    build_cash_flows annual_savings pv_opex_annual economic_params in
  npv <- _calculate_npv ([- pv_capex] ++ cash_flows) (wacc economic_params) ;;
  let irr := _calculate_irr ([- pv_capex] ++ cash_flows) in
  payback <- _calculate_payback pv_capex cash_flows ;;
  Ok {| npv := npv;
        irr := irr;
        payback := payback;
        capex := pv_capex;
        annual_opex := pv_opex_annual;
        annual_savings := annual_savings;
        cash_flows := cash_flows;
        annual_self_consumption := annual_self_consumption;
        annual_grid_export := annual_grid_export;
        annual_grid_import := annual_grid_import |}.

Definition _calculate_pv_bess_scenario
           (pv_power_kwp pv_production_annual : Q)
           (pv_production_monthly consumption_monthly : list Q)
           (bess_capacity_kwh bess_self_consumption_increase : Q)
           (economic_params : EconomicParameters) : result Scenario :=
  let pv_capex := pv_power_kwp * pv_capex_per_kwp economic_params in
  let bess_capex := bess_capacity_kwh * bess_capex_per_kwh economic_params in
  let total_capex := pv_capex + bess_capex in
  let pv_opex_annual := pv_capex * pv_opex_annual_percent economic_params in
  let bess_opex_annual :=
    bess_capex * bess_opex_annual_percent economic_params in
  let total_opex_annual := pv_opex_annual + bess_opex_annual in
  let annual_self_consumption_base :=
    min2 pv_production_annual (sum consumption_monthly) in
  let annual_self_consumption_with_bess :=
    annual_self_consumption_base + bess_self_consumption_increase in
  let annual_grid_export :=
    max2 0 (pv_production_annual - annual_self_consumption_with_bess) in
  let annual_grid_import :=
    max2 0 (sum consumption_monthly - annual_self_consumption_with_bess) in
  let annual_savings :=
    annual_self_consumption_with_bess * avg_electricity_price economic_params +
    annual_grid_export * feed_in_tariff economic_params in
  let cash_flows :=
    build_cash_flows annual_savings total_opex_annual economic_params in
  npv <- _calculate_npv ([- total_capex] ++ cash_flows) (wacc economic_params) ;;
  let irr := _calculate_irr ([- total_capex] ++ cash_flows) in
  payback <- _calculate_payback total_capex cash_flows ;;
  Ok {| npv := npv;
        irr := irr;
        payback := payback;
        capex := total_capex;
        annual_opex := total_opex_annual;
        annual_savings := annual_savings;
        cash_flows := cash_flows;
        annual_self_consumption := annual_self_consumption_with_bess;
        annual_grid_export := annual_grid_export;
        annual_grid_import := annual_grid_import |}.

(** the dictionary with the keys ['npv'], ['irr'], ['payback'] *)
Record Incremental : Type := {
  incremental_npv : Q;
  incremental_irr : Q;
  incremental_payback : pyfloat
}.

Definition _calculate_incremental_bess_economics
           (pv_only_results pv_bess_results : Scenario)
           (bess_capacity_kwh : Q) (economic_params : EconomicParameters)
  : result Incremental :=
  let bess_capex := bess_capacity_kwh * bess_capex_per_kwh economic_params in
  incremental_cash_flows <-
    comprehension
      (fun i =>
         a <- getitem (cash_flows pv_bess_results) i ;;
         b <- getitem (cash_flows pv_only_results) i ;;
         Ok (a - b))
      (seq 0 (List.length (cash_flows pv_only_results))) ;;
  incremental_npv <-
    _calculate_npv ([- bess_capex] ++ incremental_cash_flows)
                   (wacc economic_params) ;;
  let incremental_irr :=
    _calculate_irr ([- bess_capex] ++ incremental_cash_flows) in
  incremental_payback <-
    _calculate_payback bess_capex incremental_cash_flows ;;
  Ok {| incremental_npv := incremental_npv;
        incremental_irr := incremental_irr;
        incremental_payback := incremental_payback |}.

(** *** Sensitivity analysis *)

(** the attributes [setattr] changes in the sensitivity sweep *)
Inductive param_attr : Type :=
| attr_electricity_price_f2
| attr_pv_capex_per_kwp
| attr_bess_capex_per_kwh
| attr_wacc.

Definition getattr (p : EconomicParameters) (a : param_attr) : Q :=
  match a with
  | attr_electricity_price_f2 => electricity_price_f2 p
  | attr_pv_capex_per_kwp => pv_capex_per_kwp p
  | attr_bess_capex_per_kwh => bess_capex_per_kwh p
  | attr_wacc => wacc p
  end.

Definition setattr (p : EconomicParameters) (a : param_attr) (v : Q)
  : EconomicParameters :=
  {| electricity_price_f1 := electricity_price_f1 p;
     electricity_price_f2 :=
       match a with attr_electricity_price_f2 => v
                  | _ => electricity_price_f2 p end;
     electricity_price_f3 := electricity_price_f3 p;
     feed_in_tariff := feed_in_tariff p;
     pv_capex_per_kwp :=
       match a with attr_pv_capex_per_kwp => v | _ => pv_capex_per_kwp p end;
     pv_opex_annual_percent := pv_opex_annual_percent p;
     bess_capex_per_kwh :=
       match a with attr_bess_capex_per_kwh => v
                  | _ => bess_capex_per_kwh p end;
     bess_opex_annual_percent := bess_opex_annual_percent p;
     wacc := match a with attr_wacc => v | _ => wacc p end;
     analysis_years := analysis_years p;
     electricity_price_escalation := electricity_price_escalation p;
     opex_escalation := opex_escalation p;
     tax_deduction_percent := tax_deduction_percent p;
     green_certificates := green_certificates p |}.

Definition variations : list Z := [-20; -10; 0; 10; 20]%Z.

Definition sensitivity_params : list (string * param_attr) :=
  [ ("electricity_price", attr_electricity_price_f2);
    ("pv_capex", attr_pv_capex_per_kwp);
    ("bess_capex", attr_bess_capex_per_kwh);
    ("wacc", attr_wacc) ]%string.

(** the label [f"{variation:+d}%"] *)
Definition variation_label (variation : Z) : string :=
  ((if (variation <? 0)%Z then "" else "+") ++
   NilZero.string_of_int (Z.to_int variation) ++ "%")%string.

(** the body of the inner loop, with its own [try] / [except] *)
Definition sensitivity_npv (pv_power_kwp pv_production_annual : Q)
           (bess_capacity_kwh : Q) (base_params : EconomicParameters)
           (a : param_attr) (variation : Z) : Q :=
  let base_value := getattr base_params a in
  let modified_params :=
    setattr base_params a (base_value * (1 + inject_Z variation / 100)) in
  try_except
    (let pv_capex := pv_power_kwp * pv_capex_per_kwp modified_params in
     let bess_capex :=
       bess_capacity_kwh * bess_capex_per_kwh modified_params in
     let total_capex := pv_capex + bess_capex in
     let annual_savings :=
       pv_production_annual * electricity_price_f2 modified_params * 0.7 in
     let annual_opex := total_capex * 0.015 in
     let cash_flows :=
       repeat (annual_savings - annual_opex)
              (Z.to_nat (analysis_years modified_params)) in
     _calculate_npv ([- total_capex] ++ cash_flows) (wacc modified_params))
    0.

Definition _calculate_sensitivity_analysis
           (pv_power_kwp pv_production_annual consumption_annual : Q)
           (bess_capacity_kwh : Q) (economic_params : EconomicParameters)
  : list (string * list (string * Q)) :=
  map (fun '(param_name, a) =>
         (param_name,
          map (fun variation =>
                 (variation_label variation,
                  sensitivity_npv pv_power_kwp pv_production_annual
                    bess_capacity_kwh economic_params a variation))
              variations))
      sensitivity_params.

(** *** LCOE *)

Definition _calculate_lcoe (capex annual_opex annual_production : Q)
           (economic_params : EconomicParameters) : result Q :=
  let cost_cash_flows :=
    [capex] ++
    map (fun year => annual_opex * pow (1 + opex_escalation economic_params) year)
        (range (analysis_years economic_params)) in
  production_terms <-
    comprehension
      (fun year =>
         truediv annual_production (pow (1 + wacc economic_params) year))
      (range2 1 (analysis_years economic_params + 1)) ;;
  let discounted_production := sum production_terms in
  cost_terms <-
    comprehension
      (fun '(year, cost) =>
         truediv cost (pow (1 + wacc economic_params) year))
      (combine (seq 0 (List.length cost_cash_flows)) cost_cash_flows) ;;
  let discounted_costs := sum cost_terms in
  if gtb discounted_production 0
  then truediv discounted_costs discounted_production
  else Ok 0.

(** *** The complete analysis *)

Record EconomicResults : Type := {
  pv_only_npv : Q;
  pv_only_irr : Q;
  pv_only_payback : pyfloat;
  pv_only_capex : Q;
  pv_only_annual_savings : Q;
  pv_bess_npv : Q;
  pv_bess_irr : Q;
  pv_bess_payback : pyfloat;
  pv_bess_capex : Q;
  pv_bess_annual_savings : Q;
  bess_incremental_npv : Q;
  bess_incremental_irr : Q;
  bess_incremental_payback : pyfloat;
  annual_cash_flows_pv : list Q;
  annual_cash_flows_pv_bess : list Q;
  sensitivity_analysis : list (string * list (string * Q));
  total_investment : Q;
  total_annual_production : Q;
  total_annual_savings : Q;
  lcoe : Q
}.

Definition calculate_complete_economic_analysis
           (pv_power_kwp pv_production_annual : Q)
           (pv_production_monthly : list Q)
           (consumption_annual : Q)
           (consumption_monthly : list Q)
           (bess_capacity_kwh bess_annual_throughput
              bess_self_consumption_increase : option Q)
           (economic_params : option EconomicParameters)
  : result EconomicResults :=
  let economic_params :=
    match economic_params with
    | None => default_parameters
    | Some p => p
    end in
  pv_only_results <-
    _calculate_pv_only_scenario pv_power_kwp pv_production_annual
      pv_production_monthly consumption_monthly economic_params ;;
  scenarios <-
    (if truthy bess_capacity_kwh && truthy bess_self_consumption_increase
     then
       match bess_capacity_kwh, bess_self_consumption_increase with
       | Some capacity, Some increase =>
           pv_bess_results <-
             _calculate_pv_bess_scenario pv_power_kwp pv_production_annual
               pv_production_monthly consumption_monthly capacity increase
               economic_params ;;
           incremental_results <-
             _calculate_incremental_bess_economics pv_only_results
               pv_bess_results capacity economic_params ;;
           Ok (pv_bess_results, incremental_results)
       | _, _ => Raise TypeError   (* no such case: [None] is not true *)
       end
     else
       (* [pv_only_results.copy()] and the literal dictionary *)
       Ok (pv_only_results,
           {| incremental_npv := 0;
              incremental_irr := 0;
              incremental_payback := PosInf |})) ;;
  let '(pv_bess_results, incremental_results) := scenarios in
  let sensitivity_results :=
    _calculate_sensitivity_analysis pv_power_kwp pv_production_annual
      consumption_annual (or_zero bess_capacity_kwh) economic_params in
  lcoe <-
    _calculate_lcoe (capex pv_only_results) (annual_opex pv_only_results)
      pv_production_annual economic_params ;;
  Ok {| pv_only_npv := npv pv_only_results;
        pv_only_irr := irr pv_only_results;
        pv_only_payback := payback pv_only_results;
        pv_only_capex := capex pv_only_results;
        pv_only_annual_savings := annual_savings pv_only_results;
        pv_bess_npv := npv pv_bess_results;
        pv_bess_irr := irr pv_bess_results;
        pv_bess_payback := payback pv_bess_results;
        pv_bess_capex := capex pv_bess_results;
        pv_bess_annual_savings := annual_savings pv_bess_results;
        bess_incremental_npv := incremental_npv incremental_results;
        bess_incremental_irr := incremental_irr incremental_results;
        bess_incremental_payback := incremental_payback incremental_results;
        annual_cash_flows_pv := cash_flows pv_only_results;
        annual_cash_flows_pv_bess := cash_flows pv_bess_results;
        sensitivity_analysis := sensitivity_results;
        total_investment := capex pv_bess_results;
        total_annual_production := pv_production_annual;
        total_annual_savings := annual_savings pv_bess_results;
        lcoe := lcoe |}.

End Economic.

(** ** bess_calculator.py *)

Module Bess.

Record BESSParameters : Type := {
  dod : Q;
  c_rate : Q;
  efficiency : Q;
  cycle_life : Z;
  capex_per_kwh : Q;
  opex_annual_percent : Q;
  degradation_annual : Q
}.

(** [BESSParameters()] *)
Definition default_parameters : BESSParameters := {|
  dod := 0.8;
  c_rate := 0.5;
  efficiency := 0.95;
  cycle_life := 6000;
  capex_per_kwh := 500;
  opex_annual_percent := 1;
  degradation_annual := 0.02
|}.

Record ConsumptionProfile : Type := {
  monthly_kwh : list Q;
  f1_percent : Q;
  f2_percent : Q;
  f3_percent : Q;
  granularity : string
}.

Record BESSResults : Type := {
  optimal_capacity_kwh : Q;
  optimal_power_kw : Q;
  annual_self_consumption_increase : Q;
  annual_grid_reduction : Q;
  annual_grid_export_increase : Q;
  daily_cycles : Q;
  total_cycles_20_years : Q;
  capacity_retention_20_years : Q;
  average_soc : Q;
  energy_throughput_annual : Q;
  monthly_battery_usage : list Q;
  self_consumption_rate_improvement : Q
}.

(** *** The baseline scenario *)

(** the dictionary returned by [_calculate_baseline_scenario] *)
Module Baseline.
Record t : Type := {
  annual_pv_production : Q;
  annual_consumption : Q;
  annual_self_consumption : Q;
  annual_grid_import : Q;
  annual_grid_export : Q;
  annual_electricity_cost : Q;
  annual_feed_in_revenue : Q;
  annual_net_cost : Q;
  self_consumption_rate : Q
}.
End Baseline.

(** the three lists filled by the monthly loop of the baseline *)
Record MonthlyFlows : Type := {
  monthly_self_consumption : list Q;
  monthly_grid_import : list Q;
  monthly_grid_export : list Q
}.

(** [for i in range(12): ...] of [_calculate_baseline_scenario] *)
Fixpoint baseline_loop (months : list nat) (pv_production consumption : list Q)
         (acc : MonthlyFlows) : result MonthlyFlows :=
  match months with
  | [] => Ok acc
  | i :: months' =>
      p <- getitem pv_production i ;;
      c <- getitem consumption i ;;
      let self_consumption := min2 p c in
      let grid_import := max2 0 (c - p) in
      let grid_export := max2 0 (p - c) in
      baseline_loop months' pv_production consumption
        {| monthly_self_consumption :=
             monthly_self_consumption acc ++ [self_consumption];
           monthly_grid_import := monthly_grid_import acc ++ [grid_import];
           monthly_grid_export := monthly_grid_export acc ++ [grid_export] |}
  end.

Definition baseline_monthly (pv_production consumption : list Q)
  : result MonthlyFlows :=
  baseline_loop (range 12) pv_production consumption
    {| monthly_self_consumption := [];
       monthly_grid_import := [];
       monthly_grid_export := [] |}.

Definition _calculate_baseline_scenario (pv_production consumption : list Q)
           (electricity_price feed_in_tariff : Q) : result Baseline.t :=
  let annual_pv_production := sum pv_production in
  let annual_consumption := sum consumption in
  m <- baseline_monthly pv_production consumption ;;
  let annual_self_consumption := sum (monthly_self_consumption m) in
  let annual_grid_import := sum (monthly_grid_import m) in
  let annual_grid_export := sum (monthly_grid_export m) in
  let annual_electricity_cost := annual_grid_import * electricity_price in
  let annual_feed_in_revenue := annual_grid_export * feed_in_tariff in
  let annual_net_cost := annual_electricity_cost - annual_feed_in_revenue in
  self_consumption_rate <-
    (if gtb annual_pv_production 0
     then truediv annual_self_consumption annual_pv_production
     else Ok 0) ;;
  Ok {| Baseline.annual_pv_production := annual_pv_production;
        Baseline.annual_consumption := annual_consumption;
        Baseline.annual_self_consumption := annual_self_consumption;
        Baseline.annual_grid_import := annual_grid_import;
        Baseline.annual_grid_export := annual_grid_export;
        Baseline.annual_electricity_cost := annual_electricity_cost;
        Baseline.annual_feed_in_revenue := annual_feed_in_revenue;
        Baseline.annual_net_cost := annual_net_cost;
        Baseline.self_consumption_rate := self_consumption_rate |}.

(** *** The scenario with a battery *)

(** one entry of [monthly_results] *)
Module Month.
Record t : Type := {
  self_consumption : Q;
  grid_import : Q;
  grid_export : Q;
  throughput : Q
}.
End Month.

(** the dictionary returned by [_calculate_bess_scenario] *)
Module Scenario.
Record t : Type := {
  annual_self_consumption : Q;
  annual_grid_import : Q;
  annual_grid_export : Q;
  annual_electricity_cost : Q;
  annual_feed_in_revenue : Q;
  annual_net_cost : Q;
  annual_savings : Q;
  daily_energy_throughput : Q;
  monthly_results : list Month.t
}.
End Scenario.

Definition days_in_month : list Q :=
  [31; 28; 31; 30; 31; 30; 31; 31; 30; 31; 30; 31].

(** the variables that live across the iterations of the monthly loop;
    [battery_discharge] is a local that only the deficit branch assigns:
    [None] is the unbound local *)
Record DispatchState : Type := {
  battery_discharge : option Q;
  total_energy_throughput : Q;
  monthly_results : list Month.t
}.

(** reading a local variable *)
Definition load_local (x : option Q) : result Q :=
  match x with
  | Some q => Ok q
  | None => Raise UnboundLocalError
  end.

(** [for i in range(12): ...] of [_calculate_bess_scenario] *)
Fixpoint dispatch_loop (months : list nat) (pv_production consumption : list Q)
         (usable_capacity : Q) (bess_params : BESSParameters)
         (st : DispatchState) : result DispatchState :=
  match months with
  | [] => Ok st
  | i :: months' =>
      month_pv <- getitem pv_production i ;;
      month_consumption <- getitem consumption i ;;
      days <- getitem days_in_month i ;;
      daily_pv <- truediv month_pv days ;;
      daily_consumption <- truediv month_consumption days ;;
      flows <-
        (if gtb daily_pv daily_consumption then
           let excess := daily_pv - daily_consumption in
           let battery_charge :=
             min2 excess usable_capacity * efficiency bess_params in
           loss <- truediv usable_capacity (efficiency bess_params) ;;
           let remaining_excess := max2 0 (excess - loss) in
           let daily_self_consumption :=
             daily_consumption + (excess - remaining_excess) in
           let daily_grid_export := remaining_excess in
           let daily_grid_import := 0 in
           Ok (daily_self_consumption, daily_grid_import, daily_grid_export,
               battery_charge, battery_discharge st)
         else
           let deficit := daily_consumption - daily_pv in
           let battery_discharge := min2 deficit usable_capacity in
           let remaining_deficit := max2 0 (deficit - battery_discharge) in
           let daily_self_consumption := daily_pv + battery_discharge in
           let daily_grid_import := remaining_deficit in
           let daily_grid_export := 0 in
           let battery_charge := 0 in
           Ok (daily_self_consumption, daily_grid_import, daily_grid_export,
               battery_charge, Some battery_discharge)) ;;
      let '(daily_self_consumption, daily_grid_import, daily_grid_export,
            battery_charge, discharge_local) := flows in
      let month_self_consumption := daily_self_consumption * days in
      let month_grid_import := daily_grid_import * days in
      let month_grid_export := daily_grid_export * days in
      battery_discharge <- load_local discharge_local ;;
      let monthly_throughput := (battery_charge + battery_discharge) * days in
      dispatch_loop months' pv_production consumption usable_capacity
        bess_params
        {| battery_discharge := discharge_local;
           total_energy_throughput :=
             total_energy_throughput st + monthly_throughput;
           monthly_results :=
             monthly_results st ++
             [ {| Month.self_consumption := month_self_consumption;
                  Month.grid_import := month_grid_import;
                  Month.grid_export := month_grid_export;
                  Month.throughput := monthly_throughput |} ] |}
  end.

Definition _calculate_bess_scenario (pv_production consumption : list Q)
           (bess_capacity : Q) (bess_params : BESSParameters)
           (electricity_price feed_in_tariff : Q) : result Scenario.t :=
  let usable_capacity := bess_capacity * dod bess_params in
  st <- dispatch_loop (range 12) pv_production consumption usable_capacity
          bess_params
          {| battery_discharge := None;
             total_energy_throughput := 0;
             monthly_results := [] |} ;;
  let annual_self_consumption :=
    sum (map Month.self_consumption (monthly_results st)) in
  let annual_grid_import :=
    sum (map Month.grid_import (monthly_results st)) in
  let annual_grid_export :=
    sum (map Month.grid_export (monthly_results st)) in
  let annual_electricity_cost := annual_grid_import * electricity_price in
  let annual_feed_in_revenue := annual_grid_export * feed_in_tariff in
  let annual_net_cost := annual_electricity_cost - annual_feed_in_revenue in
  let annual_savings := 0 in
  daily <- truediv (total_energy_throughput st) 365 ;;
  Ok {| Scenario.annual_self_consumption := annual_self_consumption;
        Scenario.annual_grid_import := annual_grid_import;
        Scenario.annual_grid_export := annual_grid_export;
        Scenario.annual_electricity_cost := annual_electricity_cost;
        Scenario.annual_feed_in_revenue := annual_feed_in_revenue;
        Scenario.annual_net_cost := annual_net_cost;
        Scenario.annual_savings := annual_savings;
        Scenario.daily_energy_throughput := daily;
        Scenario.monthly_results := monthly_results st |}.

(** *** The simplified NPV and the capacity search *)

(** [for year in range(1, years + 1): npv += annual_cashflow / ((1 + discount_rate) ** year)] *)
Fixpoint npv_simple_loop (annual_cashflow discount_rate : Q)
         (years : list nat) (npv : Q) : result Q :=
  match years with
  | [] => Ok npv
  | year :: years' =>
      t <- truediv annual_cashflow (pow (1 + discount_rate) year) ;;
      npv_simple_loop annual_cashflow discount_rate years' (npv + t)
  end.

Definition _calculate_npv_simple
           (annual_cashflow initial_investment discount_rate : Q) (years : Z)
  : result Q :=
  npv_simple_loop annual_cashflow discount_rate (range2 1 (years + 1))
                  (- initial_investment).

(** the state of the [while] loop of [_optimize_bess_capacity] *)
Record SearchState : Type := {
  current_capacity : Q;
  best_npv : pyfloat;
  optimal_capacity : Q
}.

(** the NPV the search computes for one candidate *)
Definition candidate_npv (pv_production : list Q)
           (consumption_profile : ConsumptionProfile)
           (bess_params : BESSParameters)
           (electricity_price feed_in_tariff : Q) (capacity : Q)
  : result Q :=
  bess_scenario <-
    _calculate_bess_scenario pv_production (monthly_kwh consumption_profile)
      capacity bess_params electricity_price feed_in_tariff ;;
  let annual_savings := Scenario.annual_savings bess_scenario in
  let capex := capacity * capex_per_kwh bess_params in
  let opex_annual := capex * opex_annual_percent bess_params / 100 in
  _calculate_npv_simple (annual_savings - opex_annual) capex 0.05 20.

(** [while current_capacity <= max_capacity: ...]; [fuel] bounds the number
    of iterations, [None] is a loop that is still running *)
Fixpoint search_loop (fuel : nat) (pv_production : list Q)
         (consumption_profile : ConsumptionProfile)
         (bess_params : BESSParameters)
         (electricity_price feed_in_tariff : Q)
         (max_capacity step : Q) (st : SearchState)
  : option (result Q) :=
  match fuel with
  | O => None
  | S fuel' =>
      if leb (current_capacity st) max_capacity then
        match candidate_npv pv_production consumption_profile bess_params
                electricity_price feed_in_tariff (current_capacity st) with
        | Raise e => Some (Raise e)
        | Ok npv =>
            let st' :=
              if gtb_float npv (best_npv st)
              then {| current_capacity := current_capacity st;
                      best_npv := Fin npv;
                      optimal_capacity := current_capacity st |}
              else st in
            search_loop fuel' pv_production consumption_profile bess_params
              electricity_price feed_in_tariff max_capacity step
              {| current_capacity := current_capacity st' + step;
                 best_npv := best_npv st';
                 optimal_capacity := optimal_capacity st' |}
        end
      else Some (Ok (optimal_capacity st))
  end.

Definition _optimize_bess_capacity (fuel : nat) (pv_production : list Q)
           (consumption_profile : ConsumptionProfile)
           (bess_params : BESSParameters)
           (electricity_price feed_in_tariff : Q) : option (result Q) :=
  let monthly_avg_consumption := sum (monthly_kwh consumption_profile) / 12 in
  let min_capacity := monthly_avg_consumption * 0.1 in
  let max_capacity := monthly_avg_consumption * 2 in
  let step := min_capacity * 0.1 in
  search_loop fuel pv_production consumption_profile bess_params
    electricity_price feed_in_tariff max_capacity step
    {| current_capacity := min_capacity;
       best_npv := NegInf;
       optimal_capacity := min_capacity |}.

(** *** Technical metrics *)

(** the dictionary returned by [_calculate_technical_metrics] *)
Module Metrics.
Record t : Type := {
  daily_cycles : Q;
  total_cycles_20_years : Q;
  capacity_retention_20_years : Q
}.
End Metrics.

Definition _calculate_technical_metrics (bess_capacity daily_throughput : Q)
           (bess_params : BESSParameters) : result Metrics.t :=
  let usable_capacity := bess_capacity * dod bess_params in
  daily_cycles <-
    (if gtb usable_capacity 0
     then truediv daily_throughput (2 * usable_capacity)
     else Ok 0) ;;
  let total_cycles_20_years := daily_cycles * 365 * 20 in
  let degradation_total := min2 0.8 (degradation_annual bess_params * 20) in
  let capacity_retention_20_years := 1 - degradation_total in
  Ok {| Metrics.daily_cycles := daily_cycles;
        Metrics.total_cycles_20_years := total_cycles_20_years;
        Metrics.capacity_retention_20_years := capacity_retention_20_years |}.

(** *** Values, dictionaries and method calls

    [calculate_optimal_bess] reaches its helpers through [self.<name>(...)]:
    the attribute is looked up on the class, then the arguments are bound
    to the parameters, then the body runs.  The values that cross these
    calls are dynamically typed. *)

#[local] Unset Elimination Schemes.
Inductive value : Type :=
| VNum (q : Q)
| VInt (n : Z)
| VInf
| VList (l : list value)
| VDict (d : list (string * value))
| VProfile (c : ConsumptionProfile)
| VParams (p : BESSParameters).
#[local] Set Elimination Schemes.

Definition nums (l : list Q) : value := VList (map VNum l).

Definition as_num (v : value) : result Q :=
  match v with
  | VNum q => Ok q
  | _ => Raise TypeError
  end.

Definition as_int (v : value) : result Z :=
  match v with
  | VInt n => Ok n
  | _ => Raise TypeError
  end.

Definition as_nums (v : value) : result (list Q) :=
  match v with
  | VList l => comprehension as_num l
  | _ => Raise TypeError
  end.

Definition as_profile (v : value) : result ConsumptionProfile :=
  match v with
  | VProfile c => Ok c
  | _ => Raise TypeError
  end.

Definition as_params (v : value) : result BESSParameters :=
  match v with
  | VParams p => Ok p
  | _ => Raise TypeError
  end.

Fixpoint lookup {A} (k : string) (d : list (string * A)) : option A :=
  match d with
  | [] => None
  | (k', v) :: d' => if String.eqb k k' then Some v else lookup k d'
  end.

(** [d[k]] *)
Definition subscript (v : value) (k : string) : result value :=
  match v with
  | VDict d =>
      match lookup k d with
      | Some x => Ok x
      | None => Raise KeyError
      end
  | _ => Raise TypeError
  end.

(** [d[k] = x] on a dictionary that has the key [k] or not *)
Fixpoint setitem (k : string) (x : value) (d : list (string * value))
  : list (string * value) :=
  match d with
  | [] => [(k, x)]
  | (k', v) :: d' =>
      if String.eqb k k' then (k, x) :: d' else (k', v) :: setitem k x d'
  end.

Definition baseline_dict (b : Baseline.t) : value :=
  VDict [ ("annual_pv_production", VNum (Baseline.annual_pv_production b));
          ("annual_consumption", VNum (Baseline.annual_consumption b));
          ("annual_self_consumption",
             VNum (Baseline.annual_self_consumption b));
          ("annual_grid_import", VNum (Baseline.annual_grid_import b));
          ("annual_grid_export", VNum (Baseline.annual_grid_export b));
          ("annual_electricity_cost",
             VNum (Baseline.annual_electricity_cost b));
          ("annual_feed_in_revenue", VNum (Baseline.annual_feed_in_revenue b));
          ("annual_net_cost", VNum (Baseline.annual_net_cost b));
          ("self_consumption_rate", VNum (Baseline.self_consumption_rate b))
        ]%string.

Definition month_dict (m : Month.t) : value :=
  VDict [ ("self_consumption", VNum (Month.self_consumption m));
          ("grid_import", VNum (Month.grid_import m));
          ("grid_export", VNum (Month.grid_export m));
          ("throughput", VNum (Month.throughput m)) ]%string.

Definition scenario_dict (s : Scenario.t) : value :=
  VDict [ ("annual_self_consumption",
             VNum (Scenario.annual_self_consumption s));
          ("annual_grid_import", VNum (Scenario.annual_grid_import s));
          ("annual_grid_export", VNum (Scenario.annual_grid_export s));
          ("annual_electricity_cost",
             VNum (Scenario.annual_electricity_cost s));
          ("annual_feed_in_revenue", VNum (Scenario.annual_feed_in_revenue s));
          ("annual_net_cost", VNum (Scenario.annual_net_cost s));
          ("annual_savings", VNum (Scenario.annual_savings s));
          ("daily_energy_throughput",
             VNum (Scenario.daily_energy_throughput s));
          ("monthly_results",
             VList (map month_dict (Scenario.monthly_results s))) ]%string.

Definition metrics_dict (m : Metrics.t) : value :=
  VDict [ ("daily_cycles", VNum (Metrics.daily_cycles m));
          ("total_cycles_20_years", VNum (Metrics.total_cycles_20_years m));
          ("capacity_retention_20_years",
             VNum (Metrics.capacity_retention_20_years m)) ]%string.

(** *** The economics of the battery *)

Definition _calculate_irr_approximation
           (initial_investment annual_cashflow : Q) (years : Z) : result Q :=
  if leb annual_cashflow 0 then Ok 0
  else
    simple_return <- truediv annual_cashflow initial_investment ;;
    depreciation_rate <- truediv 1 (inject_Z years) ;;
    let irr_approx := (simple_return - depreciation_rate) * 100 in
    Ok (max2 0 (min2 100 irr_approx)).

(** [key] of a dictionary, as a number *)
Definition field (d : value) (key : string) : result Q :=
  v <- subscript d key ;; as_num v.

(** returns the dictionary of the results and the scenario dictionary after
    the assignment [bess_scenario['annual_savings'] = annual_savings], which
    the caller sees through its own reference *)
Definition _calculate_economics (baseline bess_scenario : value)
           (bess_capacity : Q) (bess_params : BESSParameters) (wacc : Q)
  : result (value * value) :=
  let capex_total := bess_capacity * capex_per_kwh bess_params in
  let opex_annual := capex_total * opex_annual_percent bess_params / 100 in
  base_cost <- field baseline "annual_net_cost" ;;
  bess_cost <- field bess_scenario "annual_net_cost" ;;
  let annual_savings := base_cost - bess_cost in
  updated <-
    match bess_scenario with
    | VDict d => Ok (VDict (setitem "annual_savings" (VNum annual_savings) d))
    | _ => Raise TypeError
    end ;;
  base_import <- field baseline "annual_grid_import" ;;
  bess_import <- field updated "annual_grid_import" ;;
  let avoided_grid_cost := (base_import - bess_import) * 0.25 in
  bess_export <- field updated "annual_grid_export" ;;
  base_export <- field baseline "annual_grid_export" ;;
  let additional_feed_in := (bess_export - base_export) * 0.05 in
  let net_annual_savings := annual_savings - opex_annual in
  payback_years <-
    (if gtb net_annual_savings 0
     then q <- truediv capex_total net_annual_savings ;; Ok (VNum q)
     else Ok VInf) ;;
  npv_20_years <- _calculate_npv_simple net_annual_savings capex_total wacc 20 ;;
  irr_percent <- _calculate_irr_approximation capex_total net_annual_savings 20 ;;
  production <- field baseline "annual_pv_production" ;;
  ratio <- truediv annual_savings (sum [production]) ;;
  let lcoe_reduction := ratio * 1000 in
  Ok (VDict [ ("capex_total", VNum capex_total);
              ("opex_annual", VNum opex_annual);
              ("savings_annual", VNum annual_savings);
              ("avoided_grid_cost", VNum avoided_grid_cost);
              ("incentives_annual", VNum additional_feed_in);
              ("payback_years", payback_years);
              ("npv_20_years", VNum npv_20_years);
              ("irr_percent", VNum irr_percent);
              ("lcoe_reduction", VNum lcoe_reduction) ]%string,
      updated).

(** *** The class and its public operation *)

(** a computation that may still be running when its fuel is spent *)
Definition bind_fuel {A B} (m : option (result A))
           (k : A -> option (result B)) : option (result B) :=
  match m with
  | None => None
  | Some (Raise e) => Some (Raise e)
  | Some (Ok a) => k a
  end.

(** a method: the number of its positional parameters after [self] (none
    has a default) and its body on the bound arguments *)
Record method : Type := {
  arity : nat;
  body : nat -> list value -> option (result value)
}.

(** the helper methods defined in [class BESSCalculator] *)
Definition methods : list (string * method) :=
  [ ("_calculate_baseline_scenario",
     {| arity := 4;
        body := fun _ args =>
          match args with
          | [a; b; c; d] =>
              Some (pv <- as_nums a ;; consumption <- as_nums b ;;
                    price <- as_num c ;; tariff <- as_num d ;;
                    r <- _calculate_baseline_scenario pv consumption
                           price tariff ;;
                    Ok (baseline_dict r))
          | _ => Some (Raise TypeError)
          end |});
    ("_optimize_bess_capacity",
     {| arity := 5;
        body := fun fuel args =>
          match args with
          | [a; b; c; d; e] =>
              match (pv <- as_nums a ;; profile <- as_profile b ;;
                     params <- as_params c ;; price <- as_num d ;;
                     tariff <- as_num e ;;
                     Ok (pv, profile, params, price, tariff)) with
              | Ok (pv, profile, params, price, tariff) =>
                  bind_fuel
                    (_optimize_bess_capacity fuel pv profile params
                       price tariff)
                    (fun capacity => Some (Ok (VNum capacity)))
              | Raise x => Some (Raise x)
              end
          | _ => Some (Raise TypeError)
          end |});
    ("_calculate_bess_scenario",
     {| arity := 6;
        body := fun _ args =>
          match args with
          | [a; b; c; d; e; f] =>
              Some (pv <- as_nums a ;; consumption <- as_nums b ;;
                    capacity <- as_num c ;; params <- as_params d ;;
                    price <- as_num e ;; tariff <- as_num f ;;
                    r <- _calculate_bess_scenario pv consumption capacity
                           params price tariff ;;
                    Ok (scenario_dict r))
          | _ => Some (Raise TypeError)
          end |});
    ("_calculate_economics",
     {| arity := 5;
        body := fun _ args =>
          match args with
          | [a; b; c; d; e] =>
              Some (capacity <- as_num c ;; params <- as_params d ;;
                    wacc <- as_num e ;;
                    r <- _calculate_economics a b capacity params wacc ;;
                    Ok (fst r))
          | _ => Some (Raise TypeError)
          end |});
    ("_calculate_technical_metrics",
     {| arity := 3;
        body := fun _ args =>
          match args with
          | [a; b; c] =>
              Some (capacity <- as_num a ;; throughput <- as_num b ;;
                    params <- as_params c ;;
                    r <- _calculate_technical_metrics capacity throughput
                           params ;;
                    Ok (metrics_dict r))
          | _ => Some (Raise TypeError)
          end |});
    ("_calculate_npv_simple",
     {| arity := 4;
        body := fun _ args =>
          match args with
          | [a; b; c; d] =>
              Some (cashflow <- as_num a ;; investment <- as_num b ;;
                    rate <- as_num c ;; years <- as_int d ;;
                    r <- _calculate_npv_simple cashflow investment rate
                           years ;;
                    Ok (VNum r))
          | _ => Some (Raise TypeError)
          end |});
    ("_calculate_irr_approximation",
     {| arity := 3;
        body := fun _ args =>
          match args with
          | [a; b; c] =>
              Some (investment <- as_num a ;; cashflow <- as_num b ;;
                    years <- as_int c ;;
                    r <- _calculate_irr_approximation investment cashflow
                           years ;;
                    Ok (VNum r))
          | _ => Some (Raise TypeError)
          end |})
  ]%string.

(** [self.<name>(args)]: attribute lookup on the class, binding of the
    arguments, then the body *)
Definition call_method (fuel : nat) (name : string) (args : list value)
  : option (result value) :=
  match lookup name methods with
  | None => Some (Raise AttributeError)
  | Some m =>
      if (List.length args =? arity m)%nat
      then body m fuel args
      else Some (Raise TypeError)
  end.

(** every name [self.<name>] resolves to *)
Definition class_attributes : list string :=
  ("__init__" :: "logger" :: "calculate_optimal_bess" :: map fst methods)
  %string.

Notation "x <-- m ;; k" := (bind_fuel m (fun x => k))
  (at level 61, m at next level, right associativity) : py_scope.

(** the [try] body; the [except Exception] clause logs and re-raises *)
Definition calculate_optimal_bess (fuel : nat)
           (pv_production_monthly : list Q)
           (consumption_profile : ConsumptionProfile)
           (bess_params : BESSParameters) : option (result BESSResults) :=
  baseline <--
    call_method fuel "_calculate_baseline_scenario"
      [nums pv_production_monthly; nums (monthly_kwh consumption_profile)] ;;
  optimal_capacity <--
    call_method fuel "_optimize_bess_capacity_technical"
      [nums pv_production_monthly; VProfile consumption_profile;
       VParams bess_params] ;;
  bess_scenario <--
    call_method fuel "_calculate_bess_scenario"
      [nums pv_production_monthly; nums (monthly_kwh consumption_profile);
       optimal_capacity; VParams bess_params] ;;
  throughput <-- Some (subscript bess_scenario "daily_energy_throughput") ;;
  technical_results <--
    call_method fuel "_calculate_technical_metrics"
      [optimal_capacity; throughput; VParams bess_params] ;;
  self_consumption_improvement <--
    call_method fuel "_calculate_self_consumption_improvement"
      [baseline; bess_scenario] ;;
  Some (
    capacity <- as_num optimal_capacity ;;
    bess_self <- field bess_scenario "annual_self_consumption" ;;
    base_self <- field baseline "annual_self_consumption" ;;
    base_import <- field baseline "annual_grid_import" ;;
    bess_import <- field bess_scenario "annual_grid_import" ;;
    bess_export <- field bess_scenario "annual_grid_export" ;;
    base_export <- field baseline "annual_grid_export" ;;
    cycles <- field technical_results "daily_cycles" ;;
    total_cycles <- field technical_results "total_cycles_20_years" ;;
    retention <- field technical_results "capacity_retention_20_years" ;;
    soc <- field technical_results "average_soc" ;;
    annual_throughput <- field technical_results "energy_throughput_annual" ;;
    usage <- subscript bess_scenario "monthly_battery_usage" ;;
    usage <- as_nums usage ;;
    improvement <- as_num self_consumption_improvement ;;
    Ok {| optimal_capacity_kwh := capacity;
          optimal_power_kw := capacity * c_rate bess_params;
          annual_self_consumption_increase := bess_self - base_self;
          annual_grid_reduction := base_import - bess_import;
          annual_grid_export_increase := bess_export - base_export;
          daily_cycles := cycles;
          total_cycles_20_years := total_cycles;
          capacity_retention_20_years := retention;
          average_soc := soc;
          energy_throughput_annual := annual_throughput;
          monthly_battery_usage := usage;
          self_consumption_rate_improvement := improvement |})%string.

(** *** Module-level helpers *)

Definition monthly_distribution : list Q :=
  [0.09; 0.08; 0.085; 0.08; 0.075; 0.07;
   0.065; 0.07; 0.075; 0.085; 0.09; 0.095].

Definition create_default_consumption_profile (annual_consumption_kwh : Q)
  : ConsumptionProfile :=
  {| monthly_kwh :=
       map (fun dist => annual_consumption_kwh * dist) monthly_distribution;
     f1_percent := 0.35;
     f2_percent := 0.30;
     f3_percent := 0.35;
     granularity := "monthly" |}.

Definition estimate_consumption_from_power (installed_power_kw : Q)
           (load_factor : Q) : Q :=
  installed_power_kw * load_factor * 8760.

End Bess.

(** ** Single expressions of the source in binary64 *)

Module Binary64.

(** [min(a, b)] and [max(a, b)]: the first argument wins a tie *)
Definition min2 (a b : float) : float := if PrimFloat.ltb b a then b else a.
Definition max2 (a b : float) : float := if PrimFloat.ltb a b then b else a.

(** the three flows of a month: the body of the monthly loop of
    [_calculate_pv_only_scenario] and of [_calculate_baseline_scenario] *)
Record MonthFlows : Type := {
  self_consumption : float;
  grid_export : float;
  grid_import : float
}.

Definition month_flows (production consumption : float) : MonthFlows :=
  {| self_consumption := min2 production consumption;
     grid_export := max2 0 (production - consumption);
     grid_import := max2 0 (consumption - production) |}.

End Binary64.

(** ** Closed forms and sample data used in the statements *)

Module Reference.

(** the three flows of month [i] *)
Definition month_self (pv consumption : list Q) (i : nat) : Q :=
  min2 (nth i pv 0) (nth i consumption 0).
Definition month_export (pv consumption : list Q) (i : nat) : Q :=
  max2 0 (nth i pv 0 - nth i consumption 0).
Definition month_import (pv consumption : list Q) (i : nat) : Q :=
  max2 0 (nth i consumption 0 - nth i pv 0).

(** the split of a month with production [p] and consumption [c]: no flow
    is negative; with [c <= p] the month consumes [c] itself, imports
    nothing and exports [p - c]; with [p <= c] it consumes [p] itself,
    exports nothing and imports [c - p] *)
Definition month_split (p c self export import : Q) : Prop :=
  0 <= export /\ 0 <= import /\
  (c <= p -> self == c /\ import == 0 /\ export == p - c) /\
  (p <= c -> self == p /\ export == 0 /\ import == c - p).

(** [cf[0] + ... + cf[y]], added in the order of the loop *)
Definition cumulative (cash_flows : list Q) (y : nat) : Q :=
  fold_left Qplus (firstn (S y) cash_flows) 0.

(** [cf[0] / (1 + rate) ** i + cf[1] / (1 + rate) ** (i + 1) + ...] *)
Fixpoint discounted (rate : Q) (i : nat) (cash_flows : list Q) : Q :=
  match cash_flows with
  | [] => 0
  | cf :: rest => cf / pow (1 + rate) i + discounted rate (S i) rest
  end.

(** what the IRR iteration may end on: a rate at which the NPV is below
    the tolerance, a rate that passed the final range test, or the value 0 *)
Definition irr_outcome (cash_flows : list Q) (r : Q) : Prop :=
  (exists v, Economic.npv_loop r 0 cash_flows 0 = Ok v /\
             Qabs v < 1e-6 /\ -0.99 <= r /\ r <= 10) \/
  (-0.99 <= r /\ r < 10) \/
  r = 0.

(** the result the complete analysis builds from the PV-only scenario
    alone, on the branch without a battery *)
Definition pv_only_result (s : Economic.Scenario)
           (sensitivity : list (string * list (string * Q)))
           (pv_production_annual lcoe : Q) : Economic.EconomicResults :=
  {| Economic.pv_only_npv := Economic.npv s;
     Economic.pv_only_irr := Economic.irr s;
     Economic.pv_only_payback := Economic.payback s;
     Economic.pv_only_capex := Economic.capex s;
     Economic.pv_only_annual_savings := Economic.annual_savings s;
     Economic.pv_bess_npv := Economic.npv s;
     Economic.pv_bess_irr := Economic.irr s;
     Economic.pv_bess_payback := Economic.payback s;
     Economic.pv_bess_capex := Economic.capex s;
     Economic.pv_bess_annual_savings := Economic.annual_savings s;
     Economic.bess_incremental_npv := 0;
     Economic.bess_incremental_irr := 0;
     Economic.bess_incremental_payback := PosInf;
     Economic.annual_cash_flows_pv := Economic.cash_flows s;
     Economic.annual_cash_flows_pv_bess := Economic.cash_flows s;
     Economic.sensitivity_analysis := sensitivity;
     Economic.total_investment := Economic.capex s;
     Economic.total_annual_production := pv_production_annual;
     Economic.total_annual_savings := Economic.annual_savings s;
     Economic.lcoe := lcoe |}.

(** a result whose PV+BESS fields repeat the PV-only fields and whose
    incremental figures are 0, 0 and positive infinity *)
Definition degenerate (r : Economic.EconomicResults) : Prop :=
  Economic.bess_incremental_npv r = 0 /\
  Economic.bess_incremental_irr r = 0 /\
  Economic.bess_incremental_payback r = PosInf /\
  Economic.pv_bess_npv r = Economic.pv_only_npv r /\
  Economic.pv_bess_irr r = Economic.pv_only_irr r /\
  Economic.pv_bess_payback r = Economic.pv_only_payback r /\
  Economic.pv_bess_capex r = Economic.pv_only_capex r /\
  Economic.pv_bess_annual_savings r = Economic.pv_only_annual_savings r /\
  Economic.annual_cash_flows_pv_bess r = Economic.annual_cash_flows_pv r /\
  Economic.total_investment r = Economic.pv_only_capex r /\
  Economic.total_annual_savings r = Economic.pv_only_annual_savings r.

(** the result the complete analysis builds on the branch with a battery *)
Definition battery_result (s1 s2 : Economic.Scenario)
           (inc : Economic.Incremental)
           (sensitivity : list (string * list (string * Q)))
           (pv_production_annual lcoe : Q) : Economic.EconomicResults :=
  {| Economic.pv_only_npv := Economic.npv s1;
     Economic.pv_only_irr := Economic.irr s1;
     Economic.pv_only_payback := Economic.payback s1;
     Economic.pv_only_capex := Economic.capex s1;
     Economic.pv_only_annual_savings := Economic.annual_savings s1;
     Economic.pv_bess_npv := Economic.npv s2;
     Economic.pv_bess_irr := Economic.irr s2;
     Economic.pv_bess_payback := Economic.payback s2;
     Economic.pv_bess_capex := Economic.capex s2;
     Economic.pv_bess_annual_savings := Economic.annual_savings s2;
     Economic.bess_incremental_npv := Economic.incremental_npv inc;
     Economic.bess_incremental_irr := Economic.incremental_irr inc;
     Economic.bess_incremental_payback := Economic.incremental_payback inc;
     Economic.annual_cash_flows_pv := Economic.cash_flows s1;
     Economic.annual_cash_flows_pv_bess := Economic.cash_flows s2;
     Economic.sensitivity_analysis := sensitivity;
     Economic.total_investment := Economic.capex s2;
     Economic.total_annual_production := pv_production_annual;
     Economic.total_annual_savings := Economic.annual_savings s2;
     Economic.lcoe := lcoe |}.

(** a result with its sensitivity table left out *)
Definition without_sensitivity (r : Economic.EconomicResults)
  : Economic.EconomicResults :=
  {| Economic.pv_only_npv := Economic.pv_only_npv r;
     Economic.pv_only_irr := Economic.pv_only_irr r;
     Economic.pv_only_payback := Economic.pv_only_payback r;
     Economic.pv_only_capex := Economic.pv_only_capex r;
     Economic.pv_only_annual_savings := Economic.pv_only_annual_savings r;
     Economic.pv_bess_npv := Economic.pv_bess_npv r;
     Economic.pv_bess_irr := Economic.pv_bess_irr r;
     Economic.pv_bess_payback := Economic.pv_bess_payback r;
     Economic.pv_bess_capex := Economic.pv_bess_capex r;
     Economic.pv_bess_annual_savings := Economic.pv_bess_annual_savings r;
     Economic.bess_incremental_npv := Economic.bess_incremental_npv r;
     Economic.bess_incremental_irr := Economic.bess_incremental_irr r;
     Economic.bess_incremental_payback := Economic.bess_incremental_payback r;
     Economic.annual_cash_flows_pv := Economic.annual_cash_flows_pv r;
     Economic.annual_cash_flows_pv_bess := Economic.annual_cash_flows_pv_bess r;
     Economic.sensitivity_analysis := [];
     Economic.total_investment := Economic.total_investment r;
     Economic.total_annual_production := Economic.total_annual_production r;
     Economic.total_annual_savings := Economic.total_annual_savings r;
     Economic.lcoe := Economic.lcoe r |}.

(** the parameters in force: the defaults when none are given *)
Definition params_in_force (p : option Economic.EconomicParameters)
  : Economic.EconomicParameters :=
  match p with
  | None => Economic.default_parameters
  | Some p => p
  end.

(** [1 / (1 + rate) ** y] summed over the years [y] *)
Fixpoint annuity (rate : Q) (years : list nat) : Q :=
  match years with
  | [] => 0
  | y :: years' => 1 / pow (1 + rate) y + annuity rate years'
  end.

(** the NPV the capacity search assigns to a capacity: it depends on the
    capacity and on the cost parameters alone *)
Definition search_npv (bess_params : Bess.BESSParameters) (capacity : Q) : Q :=
  - (capacity * Bess.capex_per_kwh bess_params)
  + (0 - capacity * Bess.capex_per_kwh bess_params
         * Bess.opex_annual_percent bess_params / 100)
    * annuity 0.05 (range2 1 (20 + 1)).

(** the first candidate of the capacity search *)
Definition min_capacity (profile : Bess.ConsumptionProfile) : Q :=
  sum (Bess.monthly_kwh profile) / 12 * 0.1.

(** the entry of [monthly_results] for a month of surplus, from the monthly
    production [p] and consumption [c], the days of the month and the
    discharge [prior] left by the last month of deficit *)
Definition surplus_month (p c days usable efficiency prior : Q)
  : Bess.Month.t :=
  let excess := p / days - c / days in
  let remaining_excess := max2 0 (excess - usable / efficiency) in
  {| Bess.Month.self_consumption :=
       (c / days + (excess - remaining_excess)) * days;
     Bess.Month.grid_import := 0 * days;
     Bess.Month.grid_export := remaining_excess * days;
     Bess.Month.throughput :=
       (min2 excess usable * efficiency + prior) * days |}.

(** the entry of [monthly_results] for a month of deficit *)
Definition deficit_month (p c days usable : Q) : Bess.Month.t :=
  let deficit := c / days - p / days in
  let battery_discharge := min2 deficit usable in
  {| Bess.Month.self_consumption := (p / days + battery_discharge) * days;
     Bess.Month.grid_import := max2 0 (deficit - battery_discharge) * days;
     Bess.Month.grid_export := 0 * days;
     Bess.Month.throughput := (0 + battery_discharge) * days |}.

(** the entry [m] is the one the dispatch loop appends for month [i] *)
Definition dispatched (pv consumption : list Q) (usable efficiency : Q)
           (i : nat) (m : Bess.Month.t) : Prop :=
  exists days,
    getitem Bess.days_in_month i = Ok days /\
    (i < List.length pv)%nat /\ (i < List.length consumption)%nat /\
    ((nth i consumption 0 < nth i pv 0 /\ ~ efficiency == 0 /\
      exists prior,
        m = surplus_month (nth i pv 0) (nth i consumption 0) days usable
              efficiency prior) \/
     (nth i pv 0 <= nth i consumption 0 /\
      m = deficit_month (nth i pv 0) (nth i consumption 0) days usable)).

(** a month that imports or exports, never both, and whose two grid flows
    are not negative *)
Definition month_sound (m : Bess.Month.t) : Prop :=
  0 <= Bess.Month.grid_import m /\
  0 <= Bess.Month.grid_export m /\
  (Bess.Month.grid_import m == 0 \/ Bess.Month.grid_export m == 0).

(** a monthly vector as the data model wants it: exactly twelve values,
    none negative *)
Definition twelve_non_negative (l : list Q) : Prop :=
  List.length l = 12%nat /\ Forall (fun x => 0 <= x) l.

End Reference.

(** the data of the two [__main__] blocks *)
Module Sample.

Definition pv_monthly : list Q :=
  [3132; 4101; 9481; 17650; 25538; 29065;
   29809; 21846; 12391; 5654; 3395; 2767].

Definition consumption_monthly : list Q := repeat (200000 / 12) 12.

(** the consumption profile of the [__main__] block of the BESS module *)
Definition profile : Bess.ConsumptionProfile :=
  Bess.create_default_consumption_profile 200000.

(** a consumption profile with a heavy January *)
Definition heavy_january : Bess.ConsumptionProfile :=
  {| Bess.monthly_kwh := 60000 :: repeat 12000 11;
     Bess.f1_percent := 0.33;
     Bess.f2_percent := 0.33;
     Bess.f3_percent := 0.34;
     Bess.granularity := "monthly" |}.

(** a consumption profile with a light January, below the production of
    that month *)
Definition light_january : Bess.ConsumptionProfile :=
  {| Bess.monthly_kwh := 1000 :: repeat 12000 11;
     Bess.f1_percent := 0.33;
     Bess.f2_percent := 0.33;
     Bess.f3_percent := 0.34;
     Bess.granularity := "monthly" |}.

(** a site that consumes nothing, and a plant that produces nothing *)
Definition idle : Bess.ConsumptionProfile :=
  Bess.create_default_consumption_profile 0.
Definition no_production : list Q := repeat 0 12.

(** a month of deficit and a month of surplus, in binary64 *)
#[local] Set Warnings "-inexact-float".
Definition deficit_production : float := 4788.8.
Definition deficit_consumption : float := 15821.4.
Definition surplus_production : float := 29644.8.
Definition surplus_consumption : float := 12630.4.
#[local] Set Warnings "+inexact-float".

(** an investment of 100 repaid after one year with 121 *)
Definition repaid_with_interest : list Q := [-100; 121].

(** two yearly cash flows of 600 *)
Definition yearly_flows : list Q := [600; 600].

(** an investment of 1000 repaid by two flows of 600, and a lone flow *)
Definition two_payments : list Q := [-1000; 600; 600].
Definition lone_flow : list Q := [5].

End Sample.

(** * Properties *)

(** ** The runtime fragment *)

Section Runtime.

Lemma ltb_lt (a b : Q) : ltb a b = true <-> a < b.
Proof.
  unfold ltb. rewrite negb_true_iff.
  split; intro H.
  - apply Qnot_le_lt. intro Hle. apply Qle_bool_iff in Hle. congruence.
  - destruct (Qle_bool b a) eqn:E; [|reflexivity].
    apply Qle_bool_iff in E. lra.
Qed.

Lemma ltb_ge (a b : Q) : ltb a b = false <-> b <= a.
Proof.
  unfold ltb. rewrite negb_false_iff. apply Qle_bool_iff.
Qed.

Lemma leb_le (a b : Q) : leb a b = true <-> a <= b.
Proof. apply Qle_bool_iff. Qed.

Lemma leb_gt (a b : Q) : leb a b = false <-> b < a.
Proof.
  unfold leb. split; intro H.
  - apply Qnot_le_lt. intro Hle. apply Qle_bool_iff in Hle. congruence.
  - destruct (Qle_bool a b) eqn:E; [|reflexivity].
    apply Qle_bool_iff in E. lra.
Qed.

Lemma gtb_gt (a b : Q) : gtb a b = true <-> b < a.
Proof. apply ltb_lt. Qed.

Lemma gtb_le (a b : Q) : gtb a b = false <-> a <= b.
Proof. apply ltb_ge. Qed.

Lemma geb_ge (a b : Q) : geb a b = true <-> b <= a.
Proof. apply leb_le. Qed.

Lemma geb_lt (a b : Q) : geb a b = false <-> a < b.
Proof. apply leb_gt. Qed.

Lemma min2_cases (a b : Q) :
  (b < a /\ min2 a b = b) \/ (a <= b /\ min2 a b = a).
Proof.
  unfold min2. destruct (ltb b a) eqn:E.
  - left. split; [now apply ltb_lt | reflexivity].
  - right. split; [now apply ltb_ge | reflexivity].
Qed.

Lemma max2_cases (a b : Q) :
  (a < b /\ max2 a b = b) \/ (b <= a /\ max2 a b = a).
Proof.
  unfold max2. destruct (gtb b a) eqn:E.
  - left. split; [now apply gtb_gt | reflexivity].
  - right. split; [now apply gtb_le | reflexivity].
Qed.

Lemma truediv_ok (a b : Q) : ~ b == 0 -> truediv a b = Ok (a / b).
Proof.
  intro H. unfold truediv.
  destruct (Qeq_bool b 0) eqn:E; [|reflexivity].
  apply Qeq_bool_iff in E. contradiction.
Qed.

Lemma truediv_zero (a b : Q) : b == 0 -> truediv a b = Raise ZeroDivisionError.
Proof.
  intro H. unfold truediv. apply Qeq_bool_iff in H. now rewrite H.
Qed.

Lemma getitem_ok {A} (l : list A) (i : nat) (d : A) :
  (i < List.length l)%nat -> getitem l i = Ok (nth i l d).
Proof.
  intro H. unfold getitem.
  rewrite (nth_error_nth' l d H). reflexivity.
Qed.

Lemma getitem_out {A} (l : list A) (i : nat) :
  (List.length l <= i)%nat -> getitem l i = Raise IndexError.
Proof.
  intro H. unfold getitem.
  apply nth_error_None in H. now rewrite H.
Qed.

Lemma pow_pos (b : Q) (n : nat) : 0 < b -> 0 < pow b n.
Proof. intro H. unfold pow. now apply Qpower_0_lt. Qed.

Lemma pow_O (b : Q) : pow b 0 = 1.
Proof. reflexivity. Qed.

Lemma pow_S (b : Q) (n : nat) : pow b (S n) == b * pow b n.
Proof.
  unfold pow. rewrite Nat2Z.inj_succ.
  destruct (Qeq_dec b 0) as [E|E].
  - rewrite E. rewrite Qpower_0.
    + ring.
    + lia.
  - unfold Z.succ. rewrite Qpower_plus by assumption.
    simpl (b ^ 1). ring.
Qed.

End Runtime.

(** ** Energy conservation of the monthly split *)

Section EnergyConservation.

Lemma split_export (p c : Q) : min2 p c + max2 0 (p - c) == p.
Proof.
  destruct (min2_cases p c) as [[H1 E1]|[H1 E1]];
    destruct (max2_cases 0 (p - c)) as [[H2 E2]|[H2 E2]];
    rewrite E1, E2; lra.
Qed.

Lemma split_import (p c : Q) : min2 p c + max2 0 (c - p) == c.
Proof.
  destruct (min2_cases p c) as [[H1 E1]|[H1 E1]];
    destruct (max2_cases 0 (c - p)) as [[H2 E2]|[H2 E2]];
    rewrite E1, E2; lra.
Qed.

Lemma month_split_holds (p c : Q) :
  Reference.month_split p c (min2 p c) (max2 0 (p - c)) (max2 0 (c - p)).
Proof.
  unfold Reference.month_split.
  destruct (min2_cases p c) as [[H1 ->]|[H1 ->]];
    destruct (max2_cases 0 (p - c)) as [[H2 ->]|[H2 ->]];
    destruct (max2_cases 0 (c - p)) as [[H3 ->]|[H3 ->]];
    repeat split; intros; lra.
Qed.

Variables pv consumption : list Q.


Lemma economic_monthly_loop_spec (months : list nat) :
  forall acc,
    (forall i, In i months ->
               (i < List.length pv)%nat /\ (i < List.length consumption)%nat) ->
    Economic.monthly_loop months pv consumption acc =
    Ok {| Economic.monthly_self_consumption :=
            Economic.monthly_self_consumption acc ++ map (Reference.month_self pv consumption) months;
          Economic.monthly_grid_export :=
            Economic.monthly_grid_export acc ++ map (Reference.month_export pv consumption) months;
          Economic.monthly_grid_import :=
            Economic.monthly_grid_import acc ++ map (Reference.month_import pv consumption) months |}.
Proof.
  induction months as [|i months IH]; intros acc Hin; simpl.
  - rewrite !app_nil_r. now destruct acc.
  - destruct (Hin i (or_introl eq_refl)) as [Hp Hc].
    rewrite (getitem_ok pv i 0 Hp), (getitem_ok consumption i 0 Hc). simpl.
    rewrite IH by (intros j Hj; apply Hin; now right).
    simpl. rewrite <- !app_assoc. reflexivity.
Qed.

Lemma bess_baseline_loop_spec (months : list nat) :
  forall acc,
    (forall i, In i months ->
               (i < List.length pv)%nat /\ (i < List.length consumption)%nat) ->
    Bess.baseline_loop months pv consumption acc =
    Ok {| Bess.monthly_self_consumption :=
            Bess.monthly_self_consumption acc ++ map (Reference.month_self pv consumption) months;
          Bess.monthly_grid_import :=
            Bess.monthly_grid_import acc ++ map (Reference.month_import pv consumption) months;
          Bess.monthly_grid_export :=
            Bess.monthly_grid_export acc ++ map (Reference.month_export pv consumption) months |}.
Proof.
  induction months as [|i months IH]; intros acc Hin; simpl.
  - rewrite !app_nil_r. now destruct acc.
  - destruct (Hin i (or_introl eq_refl)) as [Hp Hc].
    rewrite (getitem_ok pv i 0 Hp), (getitem_ok consumption i 0 Hc). simpl.
    rewrite IH by (intros j Hj; apply Hin; now right).
    simpl. rewrite <- !app_assoc. reflexivity.
Qed.

Hypothesis pv_twelve : (12 <= List.length pv)%nat.
Hypothesis consumption_twelve : (12 <= List.length consumption)%nat.

Lemma months_in_range (i : nat) :
  In i (range 12) ->
  (i < List.length pv)%nat /\ (i < List.length consumption)%nat.
Proof.
  unfold range. intro H. apply in_seq in H.
  change (Z.to_nat 12) with 12%nat in H. lia.
Qed.

Lemma economic_monthly_flows_spec :
  Economic.monthly_flows pv consumption =
  Ok {| Economic.monthly_self_consumption := map (Reference.month_self pv consumption) (range 12);
        Economic.monthly_grid_export := map (Reference.month_export pv consumption) (range 12);
        Economic.monthly_grid_import := map (Reference.month_import pv consumption) (range 12) |}.
Proof.
  unfold Economic.monthly_flows.
  rewrite economic_monthly_loop_spec by apply months_in_range.
  reflexivity.
Qed.

Lemma bess_baseline_monthly_spec :
  Bess.baseline_monthly pv consumption =
  Ok {| Bess.monthly_self_consumption := map (Reference.month_self pv consumption) (range 12);
        Bess.monthly_grid_import := map (Reference.month_import pv consumption) (range 12);
        Bess.monthly_grid_export := map (Reference.month_export pv consumption) (range 12) |}.
Proof.
  unfold Bess.baseline_monthly.
  rewrite bess_baseline_loop_spec by apply months_in_range.
  reflexivity.
Qed.

Lemma nth_month (f : nat -> Q) (i : nat) :
  (i < 12)%nat -> nth i (map f (range 12)) 0 = f i.
Proof.
  intro H. unfold range. change (Z.to_nat 12) with 12%nat.
  rewrite (nth_indep _ 0 (f 0%nat))
    by (rewrite length_map, length_seq; exact H).
  rewrite (map_nth f (seq 0 12) 0%nat i).
  rewrite seq_nth by exact H. reflexivity.
Qed.

End EnergyConservation.

(** C7, as the code has it.  In the PV-only scenario builder and in the
    BESS baseline scenario, for every month index [i < 12] and any monthly
    production [p] and consumption [c], the three flows are [min(p, c)],
    [max(0, p - c)] and [max(0, c - p)]: no flow is negative; in a month
    with [c <= p] the self-consumption is [c], the import is 0 and the
    export is [p - c], so that self-consumption plus import is the
    consumption; in a month with [p <= c] the self-consumption is [p], the
    export is 0 and the import is [c - p], so that self-consumption plus
    export is the production.  Each builder holds twelve monthly values per
    flow and its annual totals are the sums of these twelve values. *)
Theorem monthly_flows_split_by_min_and_max (pv consumption : list Q) :
  (12 <= List.length pv)%nat ->
  (12 <= List.length consumption)%nat ->
  (exists m,
      Economic.monthly_flows pv consumption = Ok m /\
      List.length (Economic.monthly_self_consumption m) = 12%nat /\
      List.length (Economic.monthly_grid_export m) = 12%nat /\
      List.length (Economic.monthly_grid_import m) = 12%nat /\
      (forall i, (i < 12)%nat ->
         Reference.month_split (nth i pv 0) (nth i consumption 0)
           (nth i (Economic.monthly_self_consumption m) 0)
           (nth i (Economic.monthly_grid_export m) 0)
           (nth i (Economic.monthly_grid_import m) 0)) /\
      (forall kwp annual params s,
         Economic._calculate_pv_only_scenario kwp annual pv consumption params
         = Ok s ->
         Economic.annual_self_consumption s =
           sum (Economic.monthly_self_consumption m) /\
         Economic.annual_grid_export s =
           sum (Economic.monthly_grid_export m) /\
         Economic.annual_grid_import s =
           sum (Economic.monthly_grid_import m)))
  /\
  (exists m,
      Bess.baseline_monthly pv consumption = Ok m /\
      List.length (Bess.monthly_self_consumption m) = 12%nat /\
      List.length (Bess.monthly_grid_import m) = 12%nat /\
      List.length (Bess.monthly_grid_export m) = 12%nat /\
      (forall i, (i < 12)%nat ->
         Reference.month_split (nth i pv 0) (nth i consumption 0)
           (nth i (Bess.monthly_self_consumption m) 0)
           (nth i (Bess.monthly_grid_export m) 0)
           (nth i (Bess.monthly_grid_import m) 0)) /\
      (forall price tariff,
         exists b,
           Bess._calculate_baseline_scenario pv consumption price tariff
           = Ok b /\
           Bess.Baseline.annual_self_consumption b =
             sum (Bess.monthly_self_consumption m) /\
           Bess.Baseline.annual_grid_import b =
             sum (Bess.monthly_grid_import m) /\
           Bess.Baseline.annual_grid_export b =
             sum (Bess.monthly_grid_export m))).
Proof.
  intros Hp Hc. split.
  - eexists. split; [apply economic_monthly_flows_spec; assumption|].
    cbn [Economic.monthly_self_consumption Economic.monthly_grid_export
         Economic.monthly_grid_import].
    split; [reflexivity|]. split; [reflexivity|]. split; [reflexivity|].
    split.
    + intros i Hi. rewrite !nth_month by assumption.
      apply month_split_holds.
    + intros kwp annual params s H.
      revert H. unfold Economic._calculate_pv_only_scenario.
      rewrite economic_monthly_flows_spec by assumption. cbn [bind].
      destruct (Economic._calculate_npv _ _); cbn [bind]; [|discriminate].
      destruct (Economic._calculate_payback _ _); cbn [bind]; [|discriminate].
      intro H. injection H as <-. repeat split.
  - eexists. split; [apply bess_baseline_monthly_spec; assumption|].
    cbn [Bess.monthly_self_consumption Bess.monthly_grid_export
         Bess.monthly_grid_import].
    split; [reflexivity|]. split; [reflexivity|]. split; [reflexivity|].
    split.
    + intros i Hi. rewrite !nth_month by assumption.
      apply month_split_holds.
    + intros price tariff.
      unfold Bess._calculate_baseline_scenario.
      rewrite bess_baseline_monthly_spec by assumption. cbn [bind].
      cbn [Bess.monthly_self_consumption Bess.monthly_grid_export
           Bess.monthly_grid_import].
      destruct (gtb (sum pv) 0) eqn:E.
      * apply gtb_gt in E. rewrite truediv_ok by lra. cbn [bind].
        eexists. split; [reflexivity|]. cbn. repeat split.
      * cbn [bind]. eexists. split; [reflexivity|]. cbn. repeat split.
Qed.

Lemma monthly_flows_split_by_min_and_max_witness :
  (12 <= List.length Sample.pv_monthly)%nat /\
  (12 <= List.length Sample.consumption_monthly)%nat /\
  exists m,
    Economic.monthly_flows Sample.pv_monthly Sample.consumption_monthly = Ok m /\
    forall i, (i < 12)%nat ->
      Reference.month_split (nth i Sample.pv_monthly 0)
        (nth i Sample.consumption_monthly 0)
        (nth i (Economic.monthly_self_consumption m) 0)
        (nth i (Economic.monthly_grid_export m) 0)
        (nth i (Economic.monthly_grid_import m) 0).
Proof.
  assert (Hp : (12 <= List.length Sample.pv_monthly)%nat) by (simpl; lia).
  assert (Hc : (12 <= List.length Sample.consumption_monthly)%nat)
    by (simpl; lia).
  split; [exact Hp|]. split; [exact Hc|].
  destruct (monthly_flows_split_by_min_and_max _ _ Hp Hc)
    as [[m [Hm [_ [_ [_ [Hi _]]]]]] _].
  exists m. split; [exact Hm | exact Hi].
Defined.

(** C7, as stated, fails in binary64: the flows are non-negative values and
    the subtraction rounds.  In a month that produces 4788.8 and consumes
    15821.4, self-consumption plus import is not the consumption; in a
    month that produces 29644.8 and consumes 12630.4, self-consumption plus
    export is not the production. *)
Lemma monthly_conservation_not_exact_in_binary64 :
  PrimFloat.leb 0 Sample.deficit_production = true /\
  PrimFloat.leb 0 Sample.deficit_consumption = true /\
  PrimFloat.eqb
    (Binary64.self_consumption
       (Binary64.month_flows Sample.deficit_production
          Sample.deficit_consumption)
     + Binary64.grid_import
         (Binary64.month_flows Sample.deficit_production
            Sample.deficit_consumption))
    Sample.deficit_consumption = false /\
  PrimFloat.leb 0 Sample.surplus_production = true /\
  PrimFloat.leb 0 Sample.surplus_consumption = true /\
  PrimFloat.eqb
    (Binary64.self_consumption
       (Binary64.month_flows Sample.surplus_production
          Sample.surplus_consumption)
     + Binary64.grid_export
         (Binary64.month_flows Sample.surplus_production
            Sample.surplus_consumption))
    Sample.surplus_production = false.
Proof. repeat split. Qed.

(** ** Guarded divisions of the BESS engine *)

Section GuardedDivisions.

Lemma baseline_loop_raises_index (pv consumption : list Q) (months : list nat) :
  forall acc e,
    Bess.baseline_loop months pv consumption acc = Raise e -> e = IndexError.
Proof.
  induction months as [|i months IH]; intros acc e; simpl.
  - discriminate.
  - unfold getitem.
    destruct (nth_error pv i); cbn [bind]; [|congruence].
    destruct (nth_error consumption i); cbn [bind]; [|congruence].
    apply IH.
Qed.

Lemma guarded_rate_ok (num den : Q) :
  exists r,
    (if gtb den 0 then truediv num den else Ok 0) = Ok r /\
    (den == 0 -> r = 0).
Proof.
  destruct (gtb den 0) eqn:E.
  - apply gtb_gt in E. rewrite truediv_ok by lra.
    eexists. split; [reflexivity|]. intro H. lra.
  - eexists. split; [reflexivity|]. reflexivity.
Qed.

End GuardedDivisions.

(** C9.  The rate and cycle divisions of the BESS engine are guarded and
    total: for every input the baseline scenario never raises a
    [ZeroDivisionError], and when it returns with an annual PV production
    of zero its self-consumption rate is 0; for every input the technical
    metrics return, and when the usable capacity (capacity times DoD) is
    zero the daily cycle count is the number 0. *)
Theorem bess_divisions_guarded :
  (forall pv consumption price tariff,
      Bess._calculate_baseline_scenario pv consumption price tariff
      <> Raise ZeroDivisionError /\
      forall b,
        Bess._calculate_baseline_scenario pv consumption price tariff = Ok b ->
        sum pv == 0 ->
        Bess.Baseline.self_consumption_rate b = 0)
  /\
  (forall capacity throughput params,
      exists m,
        Bess._calculate_technical_metrics capacity throughput params = Ok m /\
        (capacity * Bess.dod params == 0 -> Bess.Metrics.daily_cycles m = 0)).
Proof.
  split.
  - intros pv consumption price tariff.
    unfold Bess._calculate_baseline_scenario, Bess.baseline_monthly.
    destruct (Bess.baseline_loop _ _ _ _) as [m|e] eqn:Hloop; cbn [bind].
    + destruct (guarded_rate_ok (sum (Bess.monthly_self_consumption m)) (sum pv))
        as [r [Hr Hzero]].
      rewrite Hr. cbn [bind]. split; [discriminate|].
      intros b Hb Hsum. injection Hb as <-. cbn. now apply Hzero.
    + apply baseline_loop_raises_index in Hloop. subst e.
      split; [discriminate|]. discriminate.
  - intros capacity throughput params.
    unfold Bess._calculate_technical_metrics.
    destruct (guarded_rate_ok throughput (capacity * Bess.dod params))
      as [r [Hr Hzero]].
    assert (E : (if gtb (capacity * Bess.dod params) 0
                 then truediv throughput (2 * (capacity * Bess.dod params))
                 else Ok 0) = Ok (if gtb (capacity * Bess.dod params) 0
                                  then throughput / (2 * (capacity * Bess.dod params))
                                  else 0)).
    { destruct (gtb (capacity * Bess.dod params) 0) eqn:G; [|reflexivity].
      apply gtb_gt in G. apply truediv_ok. lra. }
    rewrite E. cbn [bind]. eexists. split; [reflexivity|].
    cbn. intro H.
    destruct (gtb (capacity * Bess.dod params) 0) eqn:G; [|reflexivity].
    apply gtb_gt in G. lra.
Qed.

Lemma bess_divisions_guarded_witness :
  (exists b,
      Bess._calculate_baseline_scenario (repeat 0 12)
        Sample.consumption_monthly 0.25 0.05 = Ok b /\
      sum (repeat 0 12) == 0 /\
      Bess.Baseline.self_consumption_rate b = 0)
  /\
  (exists m,
      Bess._calculate_technical_metrics 100 40 
        {| Bess.dod := 0; Bess.c_rate := 0.5; Bess.efficiency := 0.95;
           Bess.cycle_life := 6000; Bess.capex_per_kwh := 500;
           Bess.opex_annual_percent := 1;
           Bess.degradation_annual := 0.02 |} = Ok m /\
      100 * 0 == 0 /\
      Bess.Metrics.daily_cycles m = 0).
Proof.
  split.
  - destruct (Bess._calculate_baseline_scenario (repeat 0 12)
                Sample.consumption_monthly 0.25 0.05) as [b|e] eqn:E.
    + exists b. split; [reflexivity|].
      assert (Hs : sum (repeat 0 12) == 0) by reflexivity.
      split; [exact Hs|].
      exact (proj2 (proj1 bess_divisions_guarded (repeat 0 12)
                      Sample.consumption_monthly 0.25 0.05) b E Hs).
    + vm_compute in E. discriminate E.
  - destruct (proj2 bess_divisions_guarded 100 40
                {| Bess.dod := 0; Bess.c_rate := 0.5; Bess.efficiency := 0.95;
                   Bess.cycle_life := 6000; Bess.capex_per_kwh := 500;
                   Bess.opex_annual_percent := 1;
                   Bess.degradation_annual := 0.02 |}) as [m [Hm Hz]].
    exists m. split; [exact Hm|].
    assert (Hs : 100 * 0 == 0) by reflexivity.
    split; [exact Hs|]. exact (Hz Hs).
Defined.

(** ** The public BESS operation *)

Section PublicOperation.

Local Open Scope string_scope.

(** binding two arguments to the four parameters of the baseline method
    fails, whatever the arguments are *)
Lemma baseline_call_two_arguments (fuel : nat) (a b : Bess.value) :
  Bess.call_method fuel "_calculate_baseline_scenario" [a; b]
  = Some (Raise TypeError).
Proof. reflexivity. Qed.

Lemma optimal_bess_type_error (fuel : nat) (pv : list Q)
      (profile : Bess.ConsumptionProfile) (params : Bess.BESSParameters) :
  Bess.calculate_optimal_bess fuel pv profile params = Some (Raise TypeError).
Proof.
  unfold Bess.calculate_optimal_bess.
  rewrite baseline_call_two_arguments. reflexivity.
Qed.

End PublicOperation.

(** C1.  For every input, [calculate_optimal_bess] raises an exception (a
    [TypeError]) and never returns a [BESSResults]: its first statement
    calls [_calculate_baseline_scenario] with two arguments while the method
    has four positional parameters; the two other helpers it names,
    [_optimize_bess_capacity_technical] and
    [_calculate_self_consumption_improvement], are not attributes of the
    class. *)
Theorem calculate_optimal_bess_always_raises :
  (forall fuel pv profile params,
      Bess.calculate_optimal_bess fuel pv profile params
      = Some (Raise TypeError) /\
      forall r, Bess.calculate_optimal_bess fuel pv profile params
                <> Some (Ok r)) /\
  (exists m,
      Bess.lookup "_calculate_baseline_scenario" Bess.methods = Some m /\
      Bess.arity m = 4%nat) /\
  (forall fuel a b,
      Bess.call_method fuel "_calculate_baseline_scenario" [a; b]
      = Some (Raise TypeError)) /\
  ~ In "_optimize_bess_capacity_technical"%string Bess.class_attributes /\
  ~ In "_calculate_self_consumption_improvement"%string Bess.class_attributes.
Proof.
  split; [|split; [|split; [|split]]].
  - intros fuel pv profile params.
    rewrite optimal_bess_type_error. split; [reflexivity|].
    intros r H. discriminate H.
  - eexists. split; [reflexivity|reflexivity].
  - intros. apply baseline_call_two_arguments.
  - cbv [Bess.class_attributes Bess.methods map fst In].
    intro H. repeat (destruct H as [H|H]; [discriminate H|]). exact H.
  - cbv [Bess.class_attributes Bess.methods map fst In].
    intro H. repeat (destruct H as [H|H]; [discriminate H|]). exact H.
Qed.

Section Unvalidated.

Variables pv consumption : list Q.

Lemma baseline_loop_in_range (months : list nat) :
  forall acc m,
    Bess.baseline_loop months pv consumption acc = Ok m ->
    forall i, In i months ->
              (i < List.length pv)%nat /\ (i < List.length consumption)%nat.
Proof.
  induction months as [|j months IH]; intros acc m H i Hi; [contradiction|].
  cbn [Bess.baseline_loop] in H.
  destruct (Nat.lt_ge_cases j (List.length pv)) as [Hp|Hp];
    [|rewrite (getitem_out pv j Hp) in H; discriminate H].
  rewrite (getitem_ok pv j 0 Hp) in H. cbn [bind] in H.
  destruct (Nat.lt_ge_cases j (List.length consumption)) as [Hc|Hc];
    [|rewrite (getitem_out consumption j Hc) in H; discriminate H].
  rewrite (getitem_ok consumption j 0 Hc) in H. cbn [bind] in H.
  destruct Hi as [<-|Hi]; [split; assumption|].
  exact (IH _ _ H i Hi).
Qed.

(** a vector of fewer than twelve values ends the baseline in IndexError *)
Lemma baseline_short_vector (price tariff : Q) :
  (List.length pv < 12 \/ List.length consumption < 12)%nat ->
  Bess._calculate_baseline_scenario pv consumption price tariff
  = Raise IndexError.
Proof.
  intro Hshort. unfold Bess._calculate_baseline_scenario.
  destruct (Bess.baseline_monthly pv consumption) as [m|e] eqn:Hm;
    cbn [bind].
  - exfalso. unfold Bess.baseline_monthly in Hm.
    destruct (baseline_loop_in_range _ _ _ Hm 11%nat) as [H1 H2].
    + unfold range. apply in_seq. change (Z.to_nat 12) with 12%nat. lia.
    + lia.
  - unfold Bess.baseline_monthly in Hm.
    rewrite (baseline_loop_raises_index _ _ _ _ _ Hm). reflexivity.
Qed.

(** vectors of at least twelve values are accepted, whatever they hold *)
Lemma baseline_long_vector (price tariff : Q) :
  (12 <= List.length pv)%nat -> (12 <= List.length consumption)%nat ->
  exists b,
    Bess._calculate_baseline_scenario pv consumption price tariff = Ok b.
Proof.
  intros Hp Hc. unfold Bess._calculate_baseline_scenario.
  rewrite bess_baseline_monthly_spec by assumption. cbn [bind].
  match goal with
  | |- context [if gtb ?den 0 then truediv ?num ?den else Ok 0] =>
      destruct (guarded_rate_ok num den) as [r [Hr _]]
  end.
  rewrite Hr. cbn [bind]. eexists. reflexivity.
Qed.

End Unvalidated.

Lemma not_twelve_non_negative (l : list Q) :
  ~ Reference.twelve_non_negative l ->
  (12 <= List.length l)%nat ->
  (12 < List.length l)%nat \/ Exists (fun x => x < 0) l.
Proof.
  intros Hbad Hlen.
  destruct (Nat.eq_dec (List.length l) 12) as [E|E]; [|left; lia].
  right.
  assert (Hex : Exists (fun x => ~ 0 <= x) l).
  { apply neg_Forall_Exists_neg.
    - intro x. destruct (Qlt_le_dec x 0) as [H|H]; [right; lra | now left].
    - intro Hall. apply Hbad. split; assumption. }
  revert Hex. apply Exists_impl. intros x Hx. now apply Qnot_le_lt.
Qed.

(** C2, as the code has it.  [calculate_optimal_bess] validates neither
    vector and the code defines no [InvalidInputError]: a call whose
    production vector or consumption vector is not made of exactly twelve
    non-negative values is never answered with that error.  The vectors go
    unchecked to [_calculate_baseline_scenario], which raises [IndexError]
    when one of them has fewer than twelve values, and otherwise returns,
    although a vector has more than twelve values or holds a negative
    value. *)
Theorem invalid_vectors_are_not_validated
        (pv : list Q) (profile : Bess.ConsumptionProfile) :
  ~ Reference.twelve_non_negative pv \/
  ~ Reference.twelve_non_negative (Bess.monthly_kwh profile) ->
  (forall fuel params,
      Bess.calculate_optimal_bess fuel pv profile params
      <> Some (Raise (UserError "InvalidInputError"))) /\
  (forall price tariff,
      ((List.length pv < 12 \/
        List.length (Bess.monthly_kwh profile) < 12)%nat /\
       Bess._calculate_baseline_scenario pv (Bess.monthly_kwh profile)
         price tariff = Raise IndexError)
      \/
      ((12 <= List.length pv)%nat /\
       (12 <= List.length (Bess.monthly_kwh profile))%nat /\
       ((12 < List.length pv)%nat \/
        (12 < List.length (Bess.monthly_kwh profile))%nat \/
        Exists (fun x => x < 0) pv \/
        Exists (fun x => x < 0) (Bess.monthly_kwh profile)) /\
       exists b,
         Bess._calculate_baseline_scenario pv (Bess.monthly_kwh profile)
           price tariff = Ok b)).
Proof.
  intro Hbad. split.
  - intros fuel params. rewrite optimal_bess_type_error. discriminate.
  - intros price tariff.
    destruct (Nat.lt_ge_cases (List.length pv) 12) as [Hp|Hp].
    { left. split; [now left|].
      apply baseline_short_vector. now left. }
    destruct (Nat.lt_ge_cases (List.length (Bess.monthly_kwh profile)) 12)
      as [Hc|Hc].
    { left. split; [now right|].
      apply baseline_short_vector. now right. }
    right. split; [exact Hp|]. split; [exact Hc|]. split.
    + destruct Hbad as [H|H].
      * destruct (not_twelve_non_negative _ H Hp) as [H1|H1];
          [now left | right; right; now left].
      * destruct (not_twelve_non_negative _ H Hc) as [H1|H1];
          [right; now left | right; right; now right].
    + now apply baseline_long_vector.
Qed.

Lemma invalid_vectors_are_not_validated_witness :
  (~ Reference.twelve_non_negative [1; -2] \/
   ~ Reference.twelve_non_negative
       (Bess.monthly_kwh (Bess.create_default_consumption_profile 200000))) /\
  Bess.calculate_optimal_bess 200 [1; -2]
    (Bess.create_default_consumption_profile 200000) Bess.default_parameters
  <> Some (Raise (UserError "InvalidInputError")) /\
  Bess._calculate_baseline_scenario [1; -2]
    (Bess.monthly_kwh (Bess.create_default_consumption_profile 200000))
    0.25 0.05 = Raise IndexError.
Proof.
  assert (H : ~ Reference.twelve_non_negative [1; -2] \/
              ~ Reference.twelve_non_negative
                  (Bess.monthly_kwh
                     (Bess.create_default_consumption_profile 200000))).
  { left. intros [Hlen _]. simpl in Hlen. discriminate Hlen. }
  split; [exact H|].
  destruct (invalid_vectors_are_not_validated [1; -2]
              (Bess.create_default_consumption_profile 200000) H)
    as [Hnever Hhelper].
  split; [apply Hnever|].
  destruct (Hhelper 0.25 0.05) as [[_ Hraise]|[Hlen _]].
  - exact Hraise.
  - simpl in Hlen. lia.
Defined.

(** C2, as stated, fails: on a two-entry production vector with a negative
    value the operation raises [TypeError], not [InvalidInputError]. *)
Lemma invalid_vectors_not_invalid_input_error :
  ~ Reference.twelve_non_negative [1; -2] /\
  Bess.calculate_optimal_bess 200 [1; -2]
    (Bess.create_default_consumption_profile 200000) Bess.default_parameters
  <> Some (Raise (UserError "InvalidInputError")).
Proof.
  split.
  - intros [Hlen _]. simpl in Hlen. discriminate Hlen.
  - rewrite optimal_bess_type_error. discriminate.
Qed.

(** ** Payback *)

Section Payback.

Variable investment : Q.

Lemma payback_loop_never (cfs : list Q) :
  forall year cum,
    (forall j, (j < List.length cfs)%nat ->
               fold_left Qplus (firstn (S j) cfs) cum < investment) ->
    Economic.payback_loop investment year cfs cum = Ok PosInf.
Proof.
  induction cfs as [|cf rest IH]; intros year cum H; simpl.
  - reflexivity.
  - assert (H0 : cum + cf < investment).
    { specialize (H 0%nat). simpl in H. apply H. lia. }
    apply geb_lt in H0. rewrite H0.
    apply IH. intros j Hj. specialize (H (S j)). simpl in H. simpl.
    apply H. lia.
Qed.

Lemma payback_loop_later (k : nat) :
  forall cfs year cum,
    (k < List.length cfs)%nat ->
    (forall j, (j < k)%nat ->
               fold_left Qplus (firstn (S j) cfs) cum < investment) ->
    investment <= fold_left Qplus (firstn (S k) cfs) cum ->
    (year + k <> 0)%nat ->
    cum < investment ->
    exists v,
      Economic.payback_loop investment year cfs cum = Ok (Fin v) /\
      v == of_nat (year + k) +
           (investment - fold_left Qplus (firstn k cfs) cum) / nth k cfs 0.
Proof.
  induction k as [|k IH]; intros cfs year cum Hlen Hbefore Hcross Hyear Hcum.
  - destruct cfs as [|cf rest]; [simpl in Hlen; lia|].
    simpl in Hcross. simpl.
    apply geb_ge in Hcross. rewrite Hcross.
    destruct (year =? 0)%nat eqn:Ey; [apply Nat.eqb_eq in Ey; lia|].
    apply geb_ge in Hcross.
    assert (Hcf : ~ cf == 0) by lra.
    rewrite truediv_ok by exact Hcf. cbn [bind].
    eexists. split; [reflexivity|].
    rewrite Nat.add_0_r. field. exact Hcf.
  - destruct cfs as [|cf rest]; [simpl in Hlen; lia|].
    assert (H0 : cum + cf < investment).
    { specialize (Hbefore 0%nat). simpl in Hbefore. apply Hbefore. lia. }
    simpl. pose proof H0 as H0'. apply geb_lt in H0'. rewrite H0'.
    destruct (IH rest (S year) (cum + cf)) as [v [Hv Heq]].
    + simpl in Hlen. lia.
    + intros j Hj. specialize (Hbefore (S j)). simpl in Hbefore.
      apply Hbefore. lia.
    + simpl in Hcross. exact Hcross.
    + lia.
    + exact H0.
    + exists v. split; [exact Hv|].
      rewrite Heq. replace (S year + k)%nat with (year + S k)%nat by lia.
      reflexivity.
Qed.

(** a year after the first: the interpolation the comment announces *)
Lemma payback_interpolated (cfs : list Q) (y : nat) :
  0 < investment ->
  (1 <= y < List.length cfs)%nat ->
  (forall j, (j < y)%nat -> Reference.cumulative cfs j < investment) ->
  investment <= Reference.cumulative cfs y ->
  exists v,
    Economic._calculate_payback investment cfs = Ok (Fin v) /\
    v == of_nat y +
         (investment - Reference.cumulative cfs (y - 1)) / nth y cfs 0.
Proof.
  intros Hpos Hy Hbefore Hcross.
  destruct (payback_loop_later y cfs 0%nat 0) as [v [Hv Heq]];
    try assumption; try lia.
  exists v. split; [exact Hv|].
  rewrite Heq. unfold Reference.cumulative.
  replace (S (y - 1)) with y by lia. reflexivity.
Qed.

(** no year reaches the investment: positive infinity *)
Lemma payback_never (cfs : list Q) :
  (forall j, (j < List.length cfs)%nat ->
             Reference.cumulative cfs j < investment) ->
  Economic._calculate_payback investment cfs = Ok PosInf.
Proof.
  intro H. apply payback_loop_never. exact H.
Qed.

(** the first year already reaches the investment: the ratio is the cash
    flow over the investment *)
Lemma payback_first_year (cf : Q) (rest : list Q) :
  0 < investment ->
  investment <= cf ->
  Economic._calculate_payback investment (cf :: rest)
  = Ok (Fin (cf / investment)).
Proof.
  intros Hpos Hcf. unfold Economic._calculate_payback. simpl.
  assert (H1 : geb (0 + cf) investment = true) by (apply geb_ge; lra).
  rewrite H1.
  assert (H2 : gtb cf 0 = true) by (apply gtb_gt; lra).
  rewrite H2. rewrite truediv_ok by lra. reflexivity.
Qed.

End Payback.

(** C4.  When the first year already recovers the investment, the
    interpolation [year + (I - previous_cumulative) / cf] of the later years
    is [I / cf[0]]; the branch for the first year returns [cf[0] / I]
    instead.  On the investment 100 and the single cash flow 200 the result
    is [200 / 100 = 2], and 2 is not the interpolated value
    [0 + (100 - 0) / 200 = 1/2]. *)
Theorem payback_first_year_is_inverted :
  Economic._calculate_payback 100 [200] = Ok (Fin (200 / 100)) /\
  200 / 100 == 2 /\
  ~ 200 / 100 == of_nat 0 + (100 - 0) / 200.
Proof.
  split; [reflexivity|]. split; [reflexivity|].
  intro H. vm_compute in H. discriminate H.
Qed.

(** ** NPV *)

Section NetPresentValue.

Lemma pow_lt_compat (a b : Q) (n : nat) :
  0 < a -> a < b -> pow a (S n) < pow b (S n).
Proof.
  intros Ha Hab. induction n as [|n IH].
  - rewrite !pow_S, !pow_O. lra.
  - rewrite (pow_S a (S n)), (pow_S b (S n)).
    pose proof (pow_pos a (S n) Ha) as Hpa.
    apply Qlt_trans with (a * pow b (S n)).
    + apply Qmult_lt_l; assumption.
    + apply Qmult_lt_r; [lra | assumption].
Qed.

Lemma discount_lt (c a b : Q) (n : nat) :
  0 < c -> 0 < a -> a < b -> c / pow b (S n) < c / pow a (S n).
Proof.
  intros Hc Ha Hab. unfold Qdiv.
  apply Qmult_lt_l; [exact Hc|].
  assert (Hpa : 0 < pow a (S n)) by now apply pow_pos.
  assert (Hpb : 0 < pow b (S n)) by (apply pow_pos; lra).
  apply (proj1 (Qinv_lt_contravar _ _ Hpa Hpb)).
  now apply pow_lt_compat.
Qed.

(** the loop adds the discounted flows to its accumulator; no division
    fails when [1 + rate] is positive *)
Lemma npv_loop_value (rate : Q) (cfs : list Q) :
  -1 < rate ->
  forall i acc,
  exists v,
    Economic.npv_loop rate i cfs acc = Ok v /\
    v == acc + Reference.discounted rate i cfs.
Proof.
  intro Hrate. induction cfs as [|cf rest IH]; intros i acc; simpl.
  - exists acc. split; [reflexivity|]. ring.
  - assert (Hp : 0 < pow (1 + rate) i) by (apply pow_pos; lra).
    rewrite truediv_ok by lra. cbn [bind].
    destruct (IH (S i) (acc + cf / pow (1 + rate) i)) as [v [Hv Heq]].
    exists v. split; [exact Hv|]. rewrite Heq. ring.
Qed.

Lemma discounted_le (r1 r2 : Q) (cfs : list Q) :
  -1 < r1 -> r1 < r2 ->
  Forall (fun cf => 0 < cf) cfs ->
  forall n,
    Reference.discounted r2 (S n) cfs <= Reference.discounted r1 (S n) cfs.
Proof.
  intros H1 H12 Hpos. induction Hpos as [|cf rest Hcf _ IH]; intro n; simpl.
  - lra.
  - pose proof (discount_lt cf (1 + r1) (1 + r2) n Hcf) as Hd.
    specialize (IH (S n)). lra.
Qed.

Lemma discounted_lt (r1 r2 : Q) (cf : Q) (rest : list Q) :
  -1 < r1 -> r1 < r2 ->
  Forall (fun cf => 0 < cf) (cf :: rest) ->
  forall n,
    Reference.discounted r2 (S n) (cf :: rest)
    < Reference.discounted r1 (S n) (cf :: rest).
Proof.
  intros H1 H12 Hpos n. inversion Hpos as [|? ? Hcf Hrest]; subst. simpl.
  pose proof (discount_lt cf (1 + r1) (1 + r2) n Hcf) as Hd.
  pose proof (discounted_le r1 r2 rest H1 H12 Hrest (S n)) as Hle.
  lra.
Qed.

Lemma positive_tail (cf0 : Q) (tail : list Q) :
  (forall i, (1 <= i < List.length (cf0 :: tail))%nat ->
             0 < nth i (cf0 :: tail) 0) ->
  Forall (fun cf => 0 < cf) tail.
Proof.
  intro H. apply Forall_forall. intros x Hx.
  destruct (In_nth tail x 0 Hx) as [k [Hk Hnth]].
  specialize (H (S k)). simpl in H. rewrite Hnth in H. apply H. lia.
Qed.

End NetPresentValue.

(** C8, as the code has it.  For every cash-flow list whose entries at
    indices [i >= 1] are all positive and for all discount rates
    [-1 < r1 < r2] at which [_calculate_npv] returns, the value at [r2] is
    not above the value at [r1]: the NPV never increases with the discount
    rate.  The decrease is not strict. *)
Theorem npv_never_increases_with_rate (cfs : list Q) (r1 r2 v1 v2 : Q) :
  (forall i, (1 <= i < List.length cfs)%nat -> 0 < nth i cfs 0) ->
  -1 < r1 -> r1 < r2 ->
  Economic._calculate_npv cfs r1 = Ok v1 ->
  Economic._calculate_npv cfs r2 = Ok v2 ->
  v2 <= v1.
Proof.
  intros Hpos H1 H12 E1 E2.
  assert (H2 : -1 < r2) by lra.
  destruct (npv_loop_value r1 cfs H1 0%nat 0) as [w1 [F1 V1]].
  destruct (npv_loop_value r2 cfs H2 0%nat 0) as [w2 [F2 V2]].
  unfold Economic._calculate_npv in E1, E2.
  rewrite F1 in E1. rewrite F2 in E2.
  injection E1 as <-. injection E2 as <-.
  rewrite V1, V2.
  destruct cfs as [|cf0 [|cf1 rest]].
  - cbn [Reference.discounted]. apply Qle_refl.
  - cbn [Reference.discounted]. rewrite !pow_O. apply Qle_refl.
  - pose proof (positive_tail cf0 (cf1 :: rest) Hpos) as Htail.
    pose proof (discounted_lt r1 r2 cf1 rest H1 H12 Htail 0%nat) as Hlt.
    cbn [Reference.discounted] in *. rewrite !pow_O. lra.
Qed.

Lemma npv_never_increases_with_rate_witness :
  (forall i, (1 <= i < List.length Sample.two_payments)%nat ->
             0 < nth i Sample.two_payments 0) /\
  -1 < 0.05 /\ 0.05 < 0.10 /\
  exists v1 v2,
    Economic._calculate_npv Sample.two_payments 0.05 = Ok v1 /\
    Economic._calculate_npv Sample.two_payments 0.10 = Ok v2 /\
    v2 <= v1.
Proof.
  assert (Hpos : forall i, (1 <= i < List.length Sample.two_payments)%nat ->
                           0 < nth i Sample.two_payments 0).
  { intros i Hi. simpl in Hi.
    destruct i as [|[|[|i]]]; try lia; reflexivity. }
  assert (H1 : -1 < 0.05) by reflexivity.
  assert (H12 : 0.05 < 0.10) by reflexivity.
  split; [exact Hpos|]. split; [exact H1|]. split; [exact H12|].
  eexists. eexists. split; [reflexivity|]. split; [reflexivity|].
  exact (npv_never_increases_with_rate Sample.two_payments 0.05 0.10 _ _
           Hpos H1 H12 eq_refl eq_refl).
Defined.

(** C8, as stated, fails on a list with no entry after the first: its
    entries at indices [i >= 1] are all positive, there being none, and its
    NPV is the same at the rates 0 and 1. *)
Lemma npv_single_flow_not_decreasing :
  (forall i, (1 <= i < List.length Sample.lone_flow)%nat -> 0 < nth i Sample.lone_flow 0) /\
  -1 < 0 /\ 0 < 1 /\
  exists v1 v2,
    Economic._calculate_npv Sample.lone_flow 0 = Ok v1 /\
    Economic._calculate_npv Sample.lone_flow 1 = Ok v2 /\
    ~ v2 < v1.
Proof.
  split; [intros i Hi; simpl in Hi; lia|].
  split; [reflexivity|]. split; [reflexivity|].
  eexists. eexists. split; [reflexivity|]. split; [reflexivity|].
  intro H. vm_compute in H. discriminate H.
Qed.

(** ** IRR *)

Section InternalRateOfReturn.

Variable cfs : list Q.

Lemma irr_derivative_total (rate : Q) :
  -1 < rate ->
  forall l i acc, exists d, Economic.irr_derivative rate i l acc = Ok d.
Proof.
  intro Hrate. induction l as [|cf rest IH]; intros i acc; simpl.
  - now exists acc.
  - destruct (0 <? i)%nat.
    + assert (Hp : 0 < pow (1 + rate) (i + 1)) by (apply pow_pos; lra).
      rewrite truediv_ok by lra. cbn [bind]. apply IH.
    + apply IH.
Qed.

Lemma irr_clamp_range (rate : Q) :
  -0.99 <= Economic.irr_clamp rate /\ Economic.irr_clamp rate <= 10.
Proof.
  unfold Economic.irr_clamp.
  destruct (ltb rate (-0.99)) eqn:E1.
  - split; [apply Qle_refl | discriminate].
  - apply ltb_ge in E1.
    destruct (gtb rate 10) eqn:E2.
    + split; [discriminate | apply Qle_refl].
    + apply gtb_le in E2. split; assumption.
Qed.

Lemma irr_final_range (rate : Q) :
  -0.99 <= rate ->
  (-0.99 <= Economic.irr_final rate /\ Economic.irr_final rate < 10) \/
  Economic.irr_final rate = 0.
Proof.
  intro H. unfold Economic.irr_final.
  destruct (ltb (-1) rate && ltb rate 10) eqn:E.
  - apply andb_true_iff in E. destruct E as [_ E]. apply ltb_lt in E.
    left. split; assumption.
  - now right.
Qed.

Lemma flat_derivative_nonzero (d : Q) :
  ltb (Qabs d) 1e-10 = false -> ~ d == 0.
Proof.
  intros H E. apply ltb_ge in H.
  rewrite (Qabs_wd _ _ E) in H. vm_compute in H. now apply H.
Qed.

Lemma irr_loop_total (n : nat) :
  forall rate,
    -0.99 <= rate -> rate <= 10 ->
    exists r, Economic.irr_loop n cfs rate = Ok r /\ Reference.irr_outcome cfs r.
Proof.
  induction n as [|n IH]; intros rate Hlo Hhi; simpl.
  - eexists. split; [reflexivity|].
    destruct (irr_final_range rate Hlo) as [H|H];
      [right; left; exact H | right; right; exact H].
  - assert (Hrate : -1 < rate) by lra.
    destruct (npv_loop_value rate cfs Hrate 0%nat 0) as [v [Hv _]].
    rewrite Hv. cbn [bind].
    destruct (irr_derivative_total rate Hrate cfs 0%nat 0) as [d Hd].
    rewrite Hd. cbn [bind].
    destruct (ltb (Qabs v) 1e-6) eqn:Econv.
    + eexists. split; [reflexivity|]. left.
      exists v. apply ltb_lt in Econv. repeat split; assumption.
    + destruct (ltb (Qabs d) 1e-10) eqn:Eflat.
      * eexists. split; [reflexivity|].
        destruct (irr_final_range rate Hlo) as [H|H];
          [right; left; exact H | right; right; exact H].
      * rewrite truediv_ok by now apply flat_derivative_nonzero.
        cbn [bind].
        destruct (irr_clamp_range (rate - v / d)) as [Hc1 Hc2].
        apply IH; assumption.
Qed.

End InternalRateOfReturn.

(** C5, as the code has it.  [_calculate_irr] never raises: whatever its
    iteration raises is answered with 0.  The iteration is Newton-Raphson
    from the rate 0.10, for at most 100 rounds.  A round computes the NPV
    and its derivative at the current rate; with [|npv| < 1e-6] it returns
    the current rate as it is; otherwise with [|derivative| < 1e-10] it
    leaves the loop; otherwise it moves to [rate - npv / derivative],
    clamped into [-0.99, 10].  After the loop the rate is returned when
    [-1 < rate < 10], and 0 otherwise.  The value returned is a rate of
    [-0.99, 10] at which the NPV is below 1e-6 in magnitude, or a rate of
    [-0.99, 10), or 0.  A series with a single entry, positive or negative,
    and the empty series yield the initial rate 0.10; the series
    [-100, 121] yields 0.21 within 1e-6. *)
Theorem irr_runs_newton_raphson (cash_flows : list Q) :
  Economic._calculate_irr cash_flows
  = try_except (Economic.irr_loop 100 cash_flows 0.1) 0 /\
  Reference.irr_outcome cash_flows (Economic._calculate_irr cash_flows) /\
  (forall n rate npv npv_derivative,
      Economic._calculate_npv cash_flows rate = Ok npv ->
      Economic.irr_derivative rate 0 cash_flows 0 = Ok npv_derivative ->
      (Qabs npv < 1e-6 ->
       Economic.irr_loop (S n) cash_flows rate = Ok rate) /\
      (1e-6 <= Qabs npv -> Qabs npv_derivative < 1e-10 ->
       Economic.irr_loop (S n) cash_flows rate
       = Ok (Economic.irr_final rate)) /\
      (1e-6 <= Qabs npv -> 1e-10 <= Qabs npv_derivative ->
       Economic.irr_loop (S n) cash_flows rate
       = Economic.irr_loop n cash_flows
           (Economic.irr_clamp (rate - npv / npv_derivative)))) /\
  (forall rate,
      Economic.irr_loop 0 cash_flows rate = Ok (Economic.irr_final rate)) /\
  (forall rate,
      (-1 < rate -> rate < 10 -> Economic.irr_final rate = rate) /\
      (rate <= -1 \/ 10 <= rate -> Economic.irr_final rate = 0)) /\
  (forall rate,
      (rate < -0.99 -> Economic.irr_clamp rate = -0.99) /\
      (10 < rate -> Economic.irr_clamp rate = 10) /\
      (-0.99 <= rate -> rate <= 10 -> Economic.irr_clamp rate = rate)) /\
  (forall c, Economic._calculate_irr [c] = 0.1) /\
  Economic._calculate_irr [] = 0.1 /\
  Qabs (Economic._calculate_irr Sample.repaid_with_interest - 0.21) < 1e-6.
Proof.
  split; [reflexivity|]. split; [|split; [|split; [|split; [|split]]]].
  - destruct (irr_loop_total cash_flows 100 0.1) as [r [Hr Ho]];
      [discriminate | discriminate |].
    unfold Economic._calculate_irr. rewrite Hr. exact Ho.
  - intros n rate npv d Hnpv Hd.
    unfold Economic._calculate_npv in Hnpv.
    cbn [Economic.irr_loop]. rewrite Hnpv, Hd. cbn [bind].
    split; [|split].
    + intro H. apply ltb_lt in H. rewrite H. reflexivity.
    + intros H1 H2. apply ltb_ge in H1. apply ltb_lt in H2.
      rewrite H1, H2. reflexivity.
    + intros H1 H2. apply ltb_ge in H1. apply ltb_ge in H2.
      rewrite H1, H2.
      rewrite truediv_ok by now apply flat_derivative_nonzero.
      reflexivity.
  - reflexivity.
  - intro rate. unfold Economic.irr_final. split.
    + intros H1 H2. apply ltb_lt in H1. apply ltb_lt in H2.
      rewrite H1, H2. reflexivity.
    + intros [H|H].
      * apply ltb_ge in H. rewrite H. reflexivity.
      * apply ltb_ge in H. rewrite H, andb_false_r. reflexivity.
  - intro rate. unfold Economic.irr_clamp. split; [|split].
    + intro H. apply ltb_lt in H. rewrite H. reflexivity.
    + intro H.
      assert (H1 : ltb rate (-0.99) = false) by (apply ltb_ge; lra).
      apply gtb_gt in H. rewrite H1, H. reflexivity.
    + intros H1 H2. apply ltb_ge in H1. apply gtb_le in H2.
      rewrite H1, H2. reflexivity.
  - split; [|split].
    + intro c. unfold Economic._calculate_irr.
      cbn [Economic.irr_loop Economic.npv_loop Economic.irr_derivative
           Nat.ltb Nat.leb].
      rewrite pow_O. rewrite (truediv_ok c 1) by discriminate. cbn [bind].
      destruct (ltb (Qabs (0 + c / 1)) 1e-6); reflexivity.
    + reflexivity.
    + vm_compute. reflexivity.
Qed.

(** C5, as stated, fails: the all-positive series made of the single flow
    5 yields the initial rate 0.10, not 0 (its derivative sum is empty, so
    the loop breaks in the first round and 0.10 passes the range test). *)
Lemma irr_all_positive_not_zero :
  Forall (fun cf => 0 < cf) Sample.lone_flow /\
  Economic._calculate_irr Sample.lone_flow = 0.1 /\
  ~ Economic._calculate_irr Sample.lone_flow == 0.
Proof.
  split; [repeat constructor|]. split; [reflexivity|].
  intro H. vm_compute in H. discriminate H.
Qed.

(** ** The complete analysis without a battery *)

Section Fallback.

Lemma pow_nonzero (b : Q) (n : nat) : ~ b == 0 -> ~ pow b n == 0.
Proof.
  intro Hb. induction n as [|n IH].
  - rewrite pow_O. discriminate.
  - rewrite pow_S. intro H. apply Qmult_integral in H. tauto.
Qed.

Lemma npv_loop_total (rate : Q) (cfs : list Q) :
  ~ 1 + rate == 0 ->
  forall i acc, exists v, Economic.npv_loop rate i cfs acc = Ok v.
Proof.
  intro Hrate. induction cfs as [|cf rest IH]; intros i acc; simpl.
  - now exists acc.
  - rewrite truediv_ok by now apply pow_nonzero. cbn [bind]. apply IH.
Qed.

Lemma payback_loop_total (investment : Q) (cfs : list Q) :
  ~ investment == 0 ->
  forall year cum,
    (year <> 0%nat -> cum < investment) ->
    exists r, Economic.payback_loop investment year cfs cum = Ok r.
Proof.
  intro Hinv. induction cfs as [|cf rest IH]; intros year cum Hcum; simpl.
  - now exists PosInf.
  - destruct (geb (cum + cf) investment) eqn:Ecross.
    + destruct (year =? 0)%nat eqn:Eyear.
      * destruct (gtb cf 0).
        -- rewrite truediv_ok by exact Hinv. cbn [bind]. eexists. reflexivity.
        -- eexists. reflexivity.
      * apply Nat.eqb_neq in Eyear. specialize (Hcum Eyear).
        apply geb_ge in Ecross.
        rewrite truediv_ok by lra. cbn [bind]. eexists. reflexivity.
    + apply IH. intros _. now apply geb_lt.
Qed.

Lemma comprehension_total {A B} (f : A -> result B) (l : list A) :
  (forall x, In x l -> exists y, f x = Ok y) ->
  exists ys, comprehension f l = Ok ys.
Proof.
  induction l as [|x l IH]; intro H; simpl.
  - now exists [].
  - destruct (H x (or_introl eq_refl)) as [y Hy]. rewrite Hy. cbn [bind].
    destruct IH as [ys Hys]; [intros z Hz; apply H; now right|].
    rewrite Hys. cbn [bind]. eexists. reflexivity.
Qed.

Lemma lcoe_total (capex annual_opex annual_production : Q)
      (p : Economic.EconomicParameters) :
  ~ 1 + Economic.wacc p == 0 ->
  exists l, Economic._calculate_lcoe capex annual_opex annual_production p = Ok l.
Proof.
  intro Hw. unfold Economic._calculate_lcoe.
  destruct (comprehension_total
              (fun year => truediv annual_production
                             (pow (1 + Economic.wacc p) year))
              (range2 1 (Economic.analysis_years p + 1))) as [ps Hps].
  { intros year _. rewrite truediv_ok by now apply pow_nonzero.
    eexists. reflexivity. }
  rewrite Hps. cbn [bind].
  match goal with
  | |- context [comprehension ?f ?l] =>
      destruct (comprehension_total f l) as [cs Hcs]
  end.
  { intros [year cost] _. rewrite truediv_ok by now apply pow_nonzero.
    eexists. reflexivity. }
  rewrite Hcs. cbn [bind].
  destruct (gtb (sum ps) 0) eqn:E.
  - apply gtb_gt in E. rewrite truediv_ok by lra. eexists. reflexivity.
  - eexists. reflexivity.
Qed.

Lemma pv_only_total (kwp annual : Q) (pv consumption : list Q)
      (p : Economic.EconomicParameters) :
  (12 <= List.length pv)%nat ->
  (12 <= List.length consumption)%nat ->
  ~ 1 + Economic.wacc p == 0 ->
  ~ kwp * Economic.pv_capex_per_kwp p == 0 ->
  exists s,
    Economic._calculate_pv_only_scenario kwp annual pv consumption p = Ok s.
Proof.
  intros Hp Hc Hw Hcapex. unfold Economic._calculate_pv_only_scenario.
  rewrite economic_monthly_flows_spec by assumption. cbn [bind].
  unfold Economic._calculate_npv.
  match goal with
  | |- context [Economic.npv_loop ?r ?i ?l ?a] =>
      destruct (npv_loop_total r l Hw i a) as [v Hv]
  end.
  rewrite Hv. cbn [bind].
  unfold Economic._calculate_payback.
  match goal with
  | |- context [Economic.payback_loop ?inv ?y ?l ?c] =>
      destruct (payback_loop_total inv l Hcapex y c) as [pb Hpb]
  end.
  { intro H. now contradiction H. }
  rewrite Hpb. cbn [bind]. eexists. reflexivity.
Qed.

Variables (kwp annual : Q) (pv : list Q) (consumption_annual : Q)
          (consumption : list Q) (capacity throughput increase : option Q)
          (params : option Economic.EconomicParameters).

Hypothesis no_battery : truthy capacity && truthy increase = false.

(** on the branch without a battery the analysis is the PV-only scenario,
    the sensitivity sweep and the LCOE, in this order *)
Lemma fallback_unfold :
  Economic.calculate_complete_economic_analysis kwp annual pv
    consumption_annual consumption capacity throughput increase params
  = (s <- Economic._calculate_pv_only_scenario kwp annual pv consumption
            (Reference.params_in_force params) ;;
     l <- Economic._calculate_lcoe (Economic.capex s) (Economic.annual_opex s)
            annual (Reference.params_in_force params) ;;
     Ok (Reference.pv_only_result s
           (Economic._calculate_sensitivity_analysis kwp annual
              consumption_annual (or_zero capacity)
              (Reference.params_in_force params))
           annual l)).
Proof.
  unfold Economic.calculate_complete_economic_analysis.
  fold (Reference.params_in_force params).
  destruct (Economic._calculate_pv_only_scenario _ _ _ _ _) as [s|e];
    cbn [bind]; [|reflexivity].
  rewrite no_battery. cbn [bind].
  destruct (Economic._calculate_lcoe _ _ _ _) as [l|e]; reflexivity.
Qed.

Lemma pv_only_result_degenerate (s : Economic.Scenario)
      (sens : list (string * list (string * Q))) (a l : Q) :
  Reference.degenerate (Reference.pv_only_result s sens a l).
Proof. repeat split. Qed.

End Fallback.

(** without a battery, on well-formed inputs, the analysis returns *)
Lemma fallback_returns
      (kwp annual : Q) (pv : list Q) (consumption_annual : Q)
      (consumption : list Q) (capacity throughput increase : option Q)
      (params : option Economic.EconomicParameters) :
  truthy capacity && truthy increase = false ->
  (12 <= List.length pv)%nat ->
  (12 <= List.length consumption)%nat ->
  ~ 1 + Economic.wacc (Reference.params_in_force params) == 0 ->
  ~ kwp * Economic.pv_capex_per_kwp (Reference.params_in_force params) == 0 ->
  exists r,
    Economic.calculate_complete_economic_analysis kwp annual pv
      consumption_annual consumption capacity throughput increase params
    = Ok r /\
    Reference.degenerate r.
Proof.
  intros Hno Hp Hc Hw Hcapex.
  rewrite fallback_unfold by exact Hno.
  destruct (pv_only_total kwp annual pv consumption
              (Reference.params_in_force params) Hp Hc Hw Hcapex) as [s Hs].
  rewrite Hs. cbn [bind].
  destruct (lcoe_total (Economic.capex s) (Economic.annual_opex s) annual
              (Reference.params_in_force params) Hw) as [l Hl].
  rewrite Hl. cbn [bind].
  eexists. split; [reflexivity|]. apply pv_only_result_degenerate.
Qed.

Section ZeroInvestment.

Lemma payback_zero_investment (investment cf : Q) (rest : list Q) :
  investment == 0 -> 0 < cf ->
  Economic._calculate_payback investment (cf :: rest)
  = Raise ZeroDivisionError.
Proof.
  intros Hinv Hcf. unfold Economic._calculate_payback. simpl.
  assert (H1 : geb (0 + cf) investment = true) by (apply geb_ge; lra).
  rewrite H1.
  assert (H2 : gtb cf 0 = true) by now apply gtb_gt.
  rewrite H2. now rewrite truediv_zero.
Qed.

(** an installed power of zero, or a capital cost of zero per kWp, with
    positive first-year savings: the payback of the PV-only scenario
    divides the first cash flow by the zero investment *)
Lemma pv_only_zero_capex (kwp annual : Q) (pv consumption : list Q)
      (p : Economic.EconomicParameters) :
  (12 <= List.length pv)%nat ->
  (12 <= List.length consumption)%nat ->
  ~ 1 + Economic.wacc p == 0 ->
  (1 <= Economic.analysis_years p)%Z ->
  kwp * Economic.pv_capex_per_kwp p == 0 ->
  0 < sum (map (Reference.month_self pv consumption) (range 12))
      * Economic.avg_electricity_price p
      + sum (map (Reference.month_export pv consumption) (range 12))
        * Economic.feed_in_tariff p ->
  Economic._calculate_pv_only_scenario kwp annual pv consumption p
  = Raise ZeroDivisionError.
Proof.
  intros Hp Hc Hw Hyears Hcapex Hsavings.
  unfold Economic._calculate_pv_only_scenario.
  rewrite economic_monthly_flows_spec by assumption. cbn [bind].
  cbn [Economic.monthly_self_consumption Economic.monthly_grid_export
       Economic.monthly_grid_import].
  unfold Economic._calculate_npv.
  match goal with
  | |- context [Economic.npv_loop ?r ?i ?l ?a] =>
      destruct (npv_loop_total r l Hw i a) as [v Hv]
  end.
  rewrite Hv. cbn [bind].
  unfold Economic.build_cash_flows, range.
  destruct (Z.to_nat (Economic.analysis_years p)) as [|n] eqn:En; [lia|].
  cbn [seq map].
  rewrite payback_zero_investment; [reflexivity | exact Hcapex |].
  rewrite !pow_O.
  assert (Hopex : kwp * Economic.pv_capex_per_kwp p
                  * Economic.pv_opex_annual_percent p == 0)
    by (rewrite Hcapex; ring).
  unfold range in Hsavings.
  set (savings := _ + _) in *.
  set (opex := _ * Economic.pv_opex_annual_percent p) in *.
  lra.
Qed.

End ZeroInvestment.

(** C6, as the code has it.  For every call of
    [calculate_complete_economic_analysis] in which [bess_capacity_kwh] or
    [bess_self_consumption_increase] is [None], the fallback raises no
    error of its own: the call is the PV-only scenario followed by the LCOE
    of that scenario, it raises exactly what one of these two raises, and
    whenever it returns the result has an incremental NPV of 0, an
    incremental IRR of 0, an incremental payback of positive infinity and
    PV+BESS fields equal to the PV-only fields. *)
Theorem absent_bess_falls_back
        (kwp annual : Q) (pv : list Q) (consumption_annual : Q)
        (consumption : list Q) (capacity throughput increase : option Q)
        (params : option Economic.EconomicParameters) :
  capacity = None \/ increase = None ->
  Economic.calculate_complete_economic_analysis kwp annual pv
    consumption_annual consumption capacity throughput increase params
  = (s <- Economic._calculate_pv_only_scenario kwp annual pv consumption
            (Reference.params_in_force params) ;;
     l <- Economic._calculate_lcoe (Economic.capex s) (Economic.annual_opex s)
            annual (Reference.params_in_force params) ;;
     Ok (Reference.pv_only_result s
           (Economic._calculate_sensitivity_analysis kwp annual
              consumption_annual (or_zero capacity)
              (Reference.params_in_force params))
           annual l)) /\
  (forall r,
      Economic.calculate_complete_economic_analysis kwp annual pv
        consumption_annual consumption capacity throughput increase params
      = Ok r ->
      Reference.degenerate r) /\
  (forall e,
      Economic.calculate_complete_economic_analysis kwp annual pv
        consumption_annual consumption capacity throughput increase params
      = Raise e ->
      Economic._calculate_pv_only_scenario kwp annual pv consumption
        (Reference.params_in_force params) = Raise e \/
      exists s,
        Economic._calculate_pv_only_scenario kwp annual pv consumption
          (Reference.params_in_force params) = Ok s /\
        Economic._calculate_lcoe (Economic.capex s) (Economic.annual_opex s)
          annual (Reference.params_in_force params) = Raise e).
Proof.
  intros Habsent.
  assert (Hno : truthy capacity && truthy increase = false).
  { destruct Habsent as [-> | ->]; [reflexivity|].
    apply andb_false_r. }
  pose proof (fallback_unfold kwp annual pv consumption_annual consumption
                capacity throughput increase params Hno) as Hun.
  split; [exact Hun|]. rewrite Hun.
  destruct (Economic._calculate_pv_only_scenario kwp annual pv consumption
              (Reference.params_in_force params)) as [s|e0]; cbn [bind].
  - destruct (Economic._calculate_lcoe (Economic.capex s)
                (Economic.annual_opex s) annual
                (Reference.params_in_force params)) as [l|e1] eqn:Hl;
      cbn [bind].
    + split.
      * intros r H. injection H as <-. apply pv_only_result_degenerate.
      * intros e H. discriminate H.
    + split.
      * intros r H. discriminate H.
      * intros e H. injection H as <-. right. exists s.
        split; [reflexivity | exact Hl].
  - split.
    + intros r H. discriminate H.
    + intros e H. injection H as <-. left. reflexivity.
Qed.

Lemma absent_bess_falls_back_witness :
  exists r,
    Economic.calculate_complete_economic_analysis 228.7 164830
      Sample.pv_monthly 200000 Sample.consumption_monthly None None None None
    = Ok r /\
    Reference.degenerate r.
Proof.
  destruct (fallback_returns 228.7 164830 Sample.pv_monthly 200000
              Sample.consumption_monthly None None None None)
    as [r [Hr _]].
  { reflexivity. }
  { simpl; lia. }
  { simpl; lia. }
  { intro H; vm_compute in H; discriminate H. }
  { intro H; vm_compute in H; discriminate H. }
  exists r. split; [exact Hr|].
  exact (proj1 (proj2 (absent_bess_falls_back 228.7 164830 Sample.pv_monthly
                         200000 Sample.consumption_monthly None None None
                         None (or_introl eq_refl))) r Hr).
Defined.

(** C6, as stated, fails: with both BESS arguments absent an error is
    raised on a production vector of eleven values ([IndexError]) and, on
    the sample vectors, on an installed power of zero
    ([ZeroDivisionError], from the payback of the PV-only scenario). *)
Lemma absent_bess_can_raise :
  Economic.calculate_complete_economic_analysis 228.7 164830
    (firstn 11 Sample.pv_monthly) 200000 Sample.consumption_monthly
    None None None None
  = Raise IndexError /\
  Economic.calculate_complete_economic_analysis 0 164830
    Sample.pv_monthly 200000 Sample.consumption_monthly None None None None
  = Raise ZeroDivisionError.
Proof.
  split.
  - vm_compute. reflexivity.
  - rewrite fallback_unfold by reflexivity.
    rewrite pv_only_zero_capex; [reflexivity | | | | | | ].
    + simpl; lia.
    + simpl; lia.
    + intro H; vm_compute in H; discriminate H.
    + simpl; lia.
    + reflexivity.
    + vm_compute. reflexivity.
Qed.

(** C10.  The branch without a battery is chosen by truth value, not by
    presence: when both BESS arguments are present and
    [bess_capacity_kwh] is 0 or [bess_self_consumption_increase] is 0.0,
    the call raises exactly when the call without the two arguments raises,
    and when it returns, its PV+BESS fields repeat the PV-only fields, its
    incremental NPV and IRR are 0, its incremental payback is positive
    infinity, and every field other than the sensitivity table equals the
    field of the call without the two arguments. *)
Theorem zero_bess_arguments_fall_back
        (kwp annual : Q) (pv : list Q) (consumption_annual : Q)
        (consumption : list Q) (capacity increase : Q)
        (throughput : option Q)
        (params : option Economic.EconomicParameters) :
  capacity == 0 \/ increase == 0 ->
  (forall e,
      Economic.calculate_complete_economic_analysis kwp annual pv
        consumption_annual consumption (Some capacity) throughput
        (Some increase) params = Raise e <->
      Economic.calculate_complete_economic_analysis kwp annual pv
        consumption_annual consumption None throughput None params
      = Raise e) /\
  (forall r,
      Economic.calculate_complete_economic_analysis kwp annual pv
        consumption_annual consumption (Some capacity) throughput
        (Some increase) params = Ok r ->
      Reference.degenerate r /\
      exists r',
        Economic.calculate_complete_economic_analysis kwp annual pv
          consumption_annual consumption None throughput None params
        = Ok r' /\
        Reference.without_sensitivity r = Reference.without_sensitivity r').
Proof.
  intro Hzero.
  assert (Hno : truthy (Some capacity) && truthy (Some increase) = false).
  { simpl. destruct Hzero as [H|H]; apply Qeq_bool_iff in H; rewrite H.
    - reflexivity.
    - apply andb_false_r. }
  rewrite (fallback_unfold kwp annual pv consumption_annual consumption
             (Some capacity) throughput (Some increase) params Hno).
  rewrite (fallback_unfold kwp annual pv consumption_annual consumption
             None throughput None params eq_refl).
  destruct (Economic._calculate_pv_only_scenario _ _ _ _ _) as [s|e0];
    cbn [bind].
  - destruct (Economic._calculate_lcoe _ _ _ _) as [l|e1]; cbn [bind].
    + split.
      * intro e. split; discriminate.
      * intros r H. injection H as <-.
        split; [apply pv_only_result_degenerate|].
        eexists. split; reflexivity.
    + split.
      * intro e. reflexivity.
      * intros r H. discriminate H.
  - split.
    + intro e. reflexivity.
    + intros r H. discriminate H.
Qed.

Lemma zero_bess_arguments_fall_back_witness :
  (0 == 0 \/ 0.0 == 0) /\
  exists r,
    Economic.calculate_complete_economic_analysis 228.7 164830
      Sample.pv_monthly 200000 Sample.consumption_monthly
      (Some 0) None (Some 0.0) None = Ok r /\
    Reference.degenerate r /\
    exists r',
      Economic.calculate_complete_economic_analysis 228.7 164830
        Sample.pv_monthly 200000 Sample.consumption_monthly
        None None None None = Ok r' /\
      Reference.without_sensitivity r = Reference.without_sensitivity r'.
Proof.
  assert (Hz : 0 == 0 \/ 0.0 == 0) by (left; reflexivity).
  split; [exact Hz|].
  destruct (fallback_returns 228.7 164830 Sample.pv_monthly 200000
              Sample.consumption_monthly (Some 0) None (Some 0.0) None)
    as [r [Hr _]].
  - reflexivity.
  - simpl; lia.
  - simpl; lia.
  - intro H; vm_compute in H; discriminate H.
  - intro H; vm_compute in H; discriminate H.
  - exists r. split; [exact Hr|].
    exact (proj2 (zero_bess_arguments_fall_back 228.7 164830 Sample.pv_monthly
                    200000 Sample.consumption_monthly 0 0.0 None None Hz)
                 r Hr).
Defined.

(** ** The capacity search *)

Section Dispatch.

Variables (pv consumption : list Q) (usable : Q) (params : Bess.BESSParameters).

Hypothesis efficiency_nonzero : ~ Bess.efficiency params == 0.

Lemma days_positive (i : nat) (d : Q) :
  getitem Bess.days_in_month i = Ok d -> 0 < d.
Proof.
  unfold getitem, Bess.days_in_month.
  do 12 (destruct i as [|i]; [intro H; injection H as <-; reflexivity|]).
  destruct i; discriminate.
Qed.

Lemma days_total (i : nat) :
  (i < 12)%nat -> exists d, getitem Bess.days_in_month i = Ok d.
Proof.
  intro H. unfold getitem, Bess.days_in_month.
  do 12 (destruct i as [|i]; [eexists; reflexivity|]). lia.
Qed.

Lemma daily_surplus (p c d : Q) :
  0 < d -> gtb (p / d) (c / d) = true -> c < p.
Proof.
  intros Hd H. apply gtb_gt in H. unfold Qdiv in H.
  apply Qmult_lt_r in H; [exact H|]. now apply Qinv_lt_0_compat.
Qed.

(** the months run when [battery_discharge] is bound, or else when the
    first of them is a month of deficit, which binds it *)
Lemma dispatch_loop_runs (months : list nat) :
  forall st,
    (forall i, In i months ->
               (i < 12)%nat /\ (i < List.length pv)%nat /\
               (i < List.length consumption)%nat) ->
    (Bess.battery_discharge st = None ->
     nth (hd 0%nat months) pv 0 <= nth (hd 0%nat months) consumption 0) ->
    exists st',
      Bess.dispatch_loop months pv consumption usable params st = Ok st'.
Proof.
  induction months as [|i months IH]; intros st Hin Hfirst.
  - now exists st.
  - cbn [Bess.dispatch_loop].
    destruct (Hin i (or_introl eq_refl)) as [Hi [Hp Hc]].
    rewrite (getitem_ok pv i 0 Hp). cbn [bind].
    rewrite (getitem_ok consumption i 0 Hc). cbn [bind].
    destruct (days_total i Hi) as [days Hdays]. rewrite Hdays. cbn [bind].
    pose proof (days_positive i days Hdays) as Hpos.
    assert (Hnz : ~ days == 0) by lra.
    rewrite (truediv_ok (nth i pv 0) days Hnz). cbn [bind].
    rewrite (truediv_ok (nth i consumption 0) days Hnz). cbn [bind].
    destruct (gtb (nth i pv 0 / days) (nth i consumption 0 / days)) eqn:E.
    + rewrite (truediv_ok usable (Bess.efficiency params) efficiency_nonzero).
      cbn [bind].
      destruct (Bess.battery_discharge st) as [d|] eqn:Hd.
      * cbn [Bess.load_local bind].
        apply IH.
        -- intros j Hj. apply Hin. now right.
        -- cbn [Bess.battery_discharge]. discriminate.
      * exfalso. specialize (Hfirst eq_refl). cbn [hd] in Hfirst.
        pose proof (daily_surplus _ _ _ Hpos E). lra.
    + cbn [bind Bess.load_local].
      apply IH.
      * intros j Hj. apply Hin. now right.
      * cbn [Bess.battery_discharge]. discriminate.
Qed.

Hypothesis pv_twelve : (12 <= List.length pv)%nat.
Hypothesis consumption_twelve : (12 <= List.length consumption)%nat.
Hypothesis january_deficit : nth 0 pv 0 <= nth 0 consumption 0.

(** with a first month in deficit the twelve months run *)
Lemma dispatch_loop_total :
  exists st',
    Bess.dispatch_loop (range 12) pv consumption usable params
      {| Bess.battery_discharge := None;
         Bess.total_energy_throughput := 0;
         Bess.monthly_results := [] |} = Ok st'.
Proof.
  apply dispatch_loop_runs.
  - intros i Hi. unfold range in Hi. apply in_seq in Hi.
    change (Z.to_nat 12) with 12%nat in Hi. lia.
  - intros _. exact january_deficit.
Qed.

End Dispatch.

Section SearchValue.

Lemma npv_simple_loop_value (cf rate : Q) (years : list nat) :
  -1 < rate ->
  forall acc,
  exists v,
    Bess.npv_simple_loop cf rate years acc = Ok v /\
    v == acc + cf * Reference.annuity rate years.
Proof.
  intro Hrate. induction years as [|y years IH]; intro acc; simpl.
  - exists acc. split; [reflexivity|]. ring.
  - assert (Hp : 0 < pow (1 + rate) y) by (apply pow_pos; lra).
    rewrite truediv_ok by lra. cbn [bind].
    destruct (IH (acc + cf / pow (1 + rate) y)) as [v [Hv Heq]].
    exists v. split; [exact Hv|]. rewrite Heq. field. lra.
Qed.

Lemma annuity_nonneg (rate : Q) (years : list nat) :
  -1 < rate -> 0 <= Reference.annuity rate years.
Proof.
  intro Hrate. induction years as [|y years IH]; simpl.
  - apply Qle_refl.
  - assert (Hp : 0 < pow (1 + rate) y) by (apply pow_pos; lra).
    assert (Hq : 0 < 1 / pow (1 + rate) y).
    { unfold Qdiv. rewrite Qmult_1_l. now apply Qinv_lt_0_compat. }
    lra.
Qed.

(** the NPV of the search falls as the capacity grows: it is the capacity
    times a negative constant *)
Lemma search_npv_decreasing (params : Bess.BESSParameters) (c1 c2 : Q) :
  0 < Bess.capex_per_kwh params ->
  0 <= Bess.opex_annual_percent params ->
  c1 < c2 ->
  Reference.search_npv params c2 < Reference.search_npv params c1.
Proof.
  intros Hk Hpct Hc. unfold Reference.search_npv.
  pose proof (annuity_nonneg 0.05 (range2 1 (20 + 1))) as HA.
  set (A := Reference.annuity 0.05 (range2 1 (20 + 1))) in *.
  assert (HA' : 0 <= A) by (apply HA; reflexivity).
  set (k := Bess.capex_per_kwh params) in *.
  set (pct := Bess.opex_annual_percent params) in *.
  assert (Hkappa : 0 < k * (1 + pct / 100 * A)).
  { apply Qmult_lt_0_compat; [exact Hk|].
    assert (Hx : 0 <= pct / 100 * A).
    { apply Qmult_le_0_compat; [|exact HA'].
      unfold Qdiv. apply Qmult_le_0_compat; [exact Hpct | discriminate]. }
    set (x := pct / 100 * A) in *. lra. }
  setoid_replace (- (c2 * k) + (0 - c2 * k * pct / 100) * A)
    with (- (c2 * (k * (1 + pct / 100 * A)))) by field.
  setoid_replace (- (c1 * k) + (0 - c1 * k * pct / 100) * A)
    with (- (c1 * (k * (1 + pct / 100 * A)))) by field.
  apply Qopp_lt_compat.
  apply Qmult_lt_r; assumption.
Qed.

End SearchValue.

Section Search.

Variables (pv : list Q) (profile : Bess.ConsumptionProfile)
          (params : Bess.BESSParameters) (price tariff : Q).

Hypothesis efficiency_nonzero : ~ Bess.efficiency params == 0.
Hypothesis pv_twelve : (12 <= List.length pv)%nat.
Hypothesis consumption_twelve :
  (12 <= List.length (Bess.monthly_kwh profile))%nat.
Hypothesis january_deficit :
  nth 0 pv 0 <= nth 0 (Bess.monthly_kwh profile) 0.

(** the scenario of a candidate runs, and its savings are the constant 0 *)
Lemma scenario_total (capacity : Q) :
  exists sc,
    Bess._calculate_bess_scenario pv (Bess.monthly_kwh profile) capacity
      params price tariff = Ok sc /\
    Bess.Scenario.annual_savings sc = 0.
Proof.
  unfold Bess._calculate_bess_scenario.
  destruct (dispatch_loop_total pv (Bess.monthly_kwh profile)
              (capacity * Bess.dod params) params efficiency_nonzero
              pv_twelve consumption_twelve january_deficit) as [st Hst].
  rewrite Hst. cbn [bind].
  rewrite truediv_ok by discriminate. cbn [bind].
  eexists. split; reflexivity.
Qed.

(** the NPV of a candidate is a function of its capacity and of the cost
    parameters: neither the energy flows nor the prices enter it *)
Lemma candidate_value (capacity : Q) :
  exists v,
    Bess.candidate_npv pv profile params price tariff capacity = Ok v /\
    v == Reference.search_npv params capacity.
Proof.
  unfold Bess.candidate_npv.
  destruct (scenario_total capacity) as [sc [Hsc Hzero]].
  rewrite Hsc. cbn [bind]. rewrite Hzero.
  unfold Bess._calculate_npv_simple.
  match goal with
  | |- context [Bess.npv_simple_loop ?cf ?r ?ys ?acc] =>
      assert (Hr : -1 < r) by reflexivity;
      destruct (npv_simple_loop_value cf r ys Hr acc) as [v [Hv Heq]]
  end.
  exists v. split; [exact Hv|]. rewrite Heq. reflexivity.
Qed.

End Search.

Section SearchLoop.

Variables (pv : list Q) (profile : Bess.ConsumptionProfile)
          (params : Bess.BESSParameters) (price tariff : Q).

Hypothesis efficiency_nonzero : ~ Bess.efficiency params == 0.
Hypothesis pv_twelve : (12 <= List.length pv)%nat.
Hypothesis consumption_twelve :
  (12 <= List.length (Bess.monthly_kwh profile))%nat.
Hypothesis january_deficit :
  nth 0 pv 0 <= nth 0 (Bess.monthly_kwh profile) 0.
Hypothesis capex_positive : 0 < Bess.capex_per_kwh params.
Hypothesis opex_nonneg : 0 <= Bess.opex_annual_percent params.
Hypothesis consumption_positive : 0 < sum (Bess.monthly_kwh profile).

Lemma min_capacity_positive : 0 < Reference.min_capacity profile.
Proof.
  unfold Reference.min_capacity.
  set (s := sum (Bess.monthly_kwh profile)) in *.
  unfold Qdiv. 
  assert (H : 0 < s * / 12) by (apply Qmult_lt_0_compat; [assumption|reflexivity]).
  set (a := s * / 12) in *. lra.
Qed.

Lemma max_capacity_twenty :
  sum (Bess.monthly_kwh profile) / 12 * 2
  == 20 * Reference.min_capacity profile.
Proof. unfold Reference.min_capacity. field. Qed.

Lemma of_nat_S (j : nat) : of_nat (S j) == of_nat j + 1.
Proof.
  unfold of_nat. rewrite Nat2Z.inj_succ. unfold Z.succ.
  rewrite inject_Z_plus. reflexivity.
Qed.

Lemma of_nat_le (j k : nat) : (j <= k)%nat -> of_nat j <= of_nat k.
Proof.
  intro H. unfold of_nat. rewrite <- Zle_Qle. lia.
Qed.

(** the rounds after the first: the best NPV stays the one of the first
    candidate, and the loop exits after the candidate number 190 *)
Lemma search_tail (n : nat) :
  forall j fuel cur b,
    (j + n = 191)%nat -> (1 <= j)%nat -> (n < fuel)%nat ->
    cur == Reference.min_capacity profile
           + of_nat j * (Reference.min_capacity profile * 0.1) ->
    b == Reference.search_npv params (Reference.min_capacity profile) ->
    Bess.search_loop fuel pv profile params price tariff
      (sum (Bess.monthly_kwh profile) / 12 * 2)
      (Reference.min_capacity profile * 0.1)
      {| Bess.current_capacity := cur;
         Bess.best_npv := Fin b;
         Bess.optimal_capacity := Reference.min_capacity profile |}
    = Some (Ok (Reference.min_capacity profile)).
Proof.
  pose proof min_capacity_positive as Hm.
  pose proof max_capacity_twenty as HM.
  induction n as [|n IH]; intros j fuel cur b Hj H1 Hfuel Hcur Hb;
    (destruct fuel as [|fuel]; [lia|]);
    cbn [Bess.search_loop Bess.current_capacity Bess.best_npv
         Bess.optimal_capacity].
  - assert (j = 191%nat) by lia. subst j.
    change (of_nat 191) with 191 in Hcur.
    assert (E : leb cur (sum (Bess.monthly_kwh profile) / 12 * 2) = false).
    { apply leb_gt. rewrite HM, Hcur.
      set (m := Reference.min_capacity profile) in *. lra. }
    rewrite E. reflexivity.
  - pose proof (of_nat_le j 190 ltac:(lia)) as Hhi.
    pose proof (of_nat_le 1 j H1) as Hlo.
    change (of_nat 190) with 190 in Hhi. change (of_nat 1) with 1 in Hlo.
    assert (Hstep : 0 <= (of_nat j - 1) * Reference.min_capacity profile
                    /\ 0 <= (190 - of_nat j) * Reference.min_capacity profile).
    { split; apply Qmult_le_0_compat; lra. }
    assert (E : leb cur (sum (Bess.monthly_kwh profile) / 12 * 2) = true).
    { apply leb_le. rewrite HM, Hcur.
      set (m := Reference.min_capacity profile) in *.
      set (x := of_nat j) in *. lra. }
    rewrite E.
    destruct (candidate_value pv profile params price tariff
                efficiency_nonzero pv_twelve consumption_twelve
                january_deficit cur) as [v [Hv Hval]].
    rewrite Hv.
    assert (Hlt : Reference.min_capacity profile < cur).
    { rewrite Hcur. set (m := Reference.min_capacity profile) in *.
      set (x := of_nat j) in *. lra. }
    pose proof (search_npv_decreasing params _ _ capex_positive opex_nonneg Hlt)
      as Hdec.
    assert (G : gtb_float v (Fin b) = false).
    { cbn [gtb_float]. apply gtb_le. rewrite Hval, Hb. lra. }
    rewrite G.
    cbn [Bess.current_capacity Bess.best_npv Bess.optimal_capacity].
    apply (IH (S j)); try lia; [|exact Hb].
    rewrite Hcur, of_nat_S. ring.
Qed.

(** the search returns its first candidate, 10% of the average monthly
    consumption, whatever the production, the prices and the tariff are *)
Lemma search_returns_minimum (fuel : nat) :
  (192 <= fuel)%nat ->
  Bess._optimize_bess_capacity fuel pv profile params price tariff
  = Some (Ok (Reference.min_capacity profile)).
Proof.
  intro Hfuel. pose proof min_capacity_positive as Hm.
  pose proof max_capacity_twenty as HM.
  unfold Bess._optimize_bess_capacity.
  fold (Reference.min_capacity profile).
  destruct fuel as [|fuel]; [lia|].
  cbn [Bess.search_loop Bess.current_capacity Bess.best_npv
       Bess.optimal_capacity].
  assert (E : leb (Reference.min_capacity profile)
                  (sum (Bess.monthly_kwh profile) / 12 * 2) = true).
  { apply leb_le. rewrite HM.
    set (m := Reference.min_capacity profile) in *. lra. }
  rewrite E.
  destruct (candidate_value pv profile params price tariff
              efficiency_nonzero pv_twelve consumption_twelve
              january_deficit (Reference.min_capacity profile))
    as [v [Hv Hval]].
  rewrite Hv. cbn [gtb_float].
  cbn [Bess.current_capacity Bess.best_npv Bess.optimal_capacity].
  apply (search_tail 190 1); try lia; [|exact Hval].
  change (of_nat 1) with 1. ring.
Qed.

End SearchLoop.

Section SearchDefects.

Variables (pv : list Q) (profile : Bess.ConsumptionProfile)
          (params : Bess.BESSParameters) (price tariff : Q).

Hypothesis pv_twelve : (12 <= List.length pv)%nat.
Hypothesis consumption_twelve :
  (12 <= List.length (Bess.monthly_kwh profile))%nat.
Hypothesis efficiency_nonzero : ~ Bess.efficiency params == 0.

(** a month of surplus reads [battery_discharge]; it raises when no earlier
    month has assigned it *)
Lemma surplus_month_unbound (i : nat) (months : list nat) (usable : Q)
      (st : Bess.DispatchState) :
  (i < 12)%nat ->
  (i < List.length pv)%nat ->
  (i < List.length (Bess.monthly_kwh profile))%nat ->
  nth i (Bess.monthly_kwh profile) 0 < nth i pv 0 ->
  Bess.battery_discharge st = None ->
  Bess.dispatch_loop (i :: months) pv (Bess.monthly_kwh profile) usable
    params st = Raise UnboundLocalError.
Proof.
  intros Hi Hp Hc Hsurplus Hunbound.
  cbn [Bess.dispatch_loop].
  rewrite (getitem_ok pv i 0 Hp). cbn [bind].
  rewrite (getitem_ok (Bess.monthly_kwh profile) i 0 Hc). cbn [bind].
  destruct (days_total i Hi) as [days Hdays]. rewrite Hdays. cbn [bind].
  pose proof (days_positive i days Hdays) as Hpos.
  assert (Hnz : ~ days == 0) by lra.
  rewrite (truediv_ok (nth i pv 0) days Hnz). cbn [bind].
  rewrite (truediv_ok (nth i (Bess.monthly_kwh profile) 0) days Hnz).
  cbn [bind].
  assert (E : gtb (nth i pv 0 / days)
                  (nth i (Bess.monthly_kwh profile) 0 / days) = true).
  { apply gtb_gt. unfold Qdiv. apply Qmult_lt_r; [|assumption].
    now apply Qinv_lt_0_compat. }
  rewrite E.
  rewrite (truediv_ok _ (Bess.efficiency params) efficiency_nonzero).
  cbn [bind]. rewrite Hunbound. reflexivity.
Qed.

(** a first month of surplus makes every scenario raise *)
Lemma january_surplus_unbound (capacity : Q) :
  nth 0 (Bess.monthly_kwh profile) 0 < nth 0 pv 0 ->
  Bess._calculate_bess_scenario pv (Bess.monthly_kwh profile) capacity
    params price tariff = Raise UnboundLocalError.
Proof.
  intro Hsurplus. unfold Bess._calculate_bess_scenario.
  rewrite (surplus_month_unbound 0 (seq 1 11)); try assumption; try lia.
  - reflexivity.
  - reflexivity.
Qed.

Hypothesis january_deficit :
  nth 0 pv 0 <= nth 0 (Bess.monthly_kwh profile) 0.
Hypothesis no_consumption : sum (Bess.monthly_kwh profile) == 0.

Lemma search_loop_spins (fuel : nat) :
  forall st,
    Bess.current_capacity st == 0 ->
    Bess.search_loop fuel pv profile params price tariff
      (sum (Bess.monthly_kwh profile) / 12 * 2)
      (sum (Bess.monthly_kwh profile) / 12 * 0.1 * 0.1) st = None.
Proof.
  induction fuel as [|fuel IH]; intros st Hcur; [reflexivity|].
  cbn [Bess.search_loop].
  assert (E : leb (Bess.current_capacity st)
                  (sum (Bess.monthly_kwh profile) / 12 * 2) = true).
  { apply leb_le. rewrite Hcur, no_consumption. discriminate. }
  rewrite E.
  destruct (candidate_value pv profile params price tariff
              efficiency_nonzero pv_twelve consumption_twelve
              january_deficit (Bess.current_capacity st)) as [v [Hv _]].
  rewrite Hv. apply IH.
  cbn [Bess.current_capacity].
  destruct (gtb_float v (Bess.best_npv st));
    cbn [Bess.current_capacity]; rewrite Hcur, no_consumption; reflexivity.
Qed.

(** a consumption that sums to zero makes the step zero: the loop never
    leaves its first candidate, whatever the fuel *)
Lemma search_never_returns (fuel : nat) :
  Bess._optimize_bess_capacity fuel pv profile params price tariff = None.
Proof.
  unfold Bess._optimize_bess_capacity. apply search_loop_spins.
  cbn [Bess.current_capacity]. rewrite no_consumption. reflexivity.
Qed.

End SearchDefects.

(** C3.  The annual cash flow of a candidate is not its grid-import cost
    minus its export revenue minus its opex: the scenario hands the search
    the constant [annual_savings = 0], so the cash flow is minus the opex
    alone.  With the sample production, a consumption of 60000 kWh in
    January and 12000 kWh in the other months and the default battery, the
    first candidate (1600 kWh) has an import cost that differs from its
    export revenue, its NPV is the one of the cash flow [0 - opex], and the
    search returns this first candidate whatever the electricity price and
    the feed-in tariff are. *)
Theorem capacity_search_ignores_energy_flows :
  Reference.min_capacity Sample.heavy_january == 1600 /\
  (exists sc,
      Bess._calculate_bess_scenario Sample.pv_monthly
        (Bess.monthly_kwh Sample.heavy_january)
        (Reference.min_capacity Sample.heavy_january)
        Bess.default_parameters 0.25 0.05 = Ok sc /\
      Bess.Scenario.annual_savings sc = 0 /\
      ~ Bess.Scenario.annual_electricity_cost sc
        - Bess.Scenario.annual_feed_in_revenue sc == 0) /\
  Bess.candidate_npv Sample.pv_monthly Sample.heavy_january
    Bess.default_parameters 0.25 0.05
    (Reference.min_capacity Sample.heavy_january)
  = Bess._calculate_npv_simple
      (0 - Reference.min_capacity Sample.heavy_january * 500 * 1 / 100)
      (Reference.min_capacity Sample.heavy_january * 500) 0.05 20 /\
  (forall price tariff,
      Bess._optimize_bess_capacity 192 Sample.pv_monthly Sample.heavy_january
        Bess.default_parameters price tariff
      = Some (Ok (Reference.min_capacity Sample.heavy_january))).
Proof.
  split; [reflexivity|]. split; [|split].
  - destruct (Bess._calculate_bess_scenario Sample.pv_monthly
                (Bess.monthly_kwh Sample.heavy_january)
                (Reference.min_capacity Sample.heavy_january)
                Bess.default_parameters 0.25 0.05) as [sc|e] eqn:E.
    + exists sc. split; [reflexivity|].
      vm_compute in E. injection E as <-.
      split; [reflexivity|].
      intro H. vm_compute in H. discriminate H.
    + vm_compute in E. discriminate E.
  - unfold Bess.candidate_npv.
    destruct (scenario_total Sample.pv_monthly Sample.heavy_january
                Bess.default_parameters 0.25 0.05) with
      (capacity := Reference.min_capacity Sample.heavy_january)
      as [sc [Hsc Hzero]].
    + intro H. vm_compute in H. discriminate H.
    + simpl. lia.
    + simpl. lia.
    + vm_compute. discriminate.
    + rewrite Hsc. cbn [bind]. rewrite Hzero. reflexivity.
  - intros price tariff. apply search_returns_minimum.
    + intro H. vm_compute in H. discriminate H.
    + simpl. lia.
    + simpl. lia.
    + vm_compute. discriminate.
    + reflexivity.
    + discriminate.
    + reflexivity.
    + lia.
Qed.

(** * Further properties of the two calculators *)

(** ** Sums *)

Section Sums.

Lemma fold_sum (l : list Q) : forall a, fold_left Qplus l a == a + sum l.
Proof.
  unfold sum. induction l as [|x l IH]; intro a; simpl.
  - ring.
  - rewrite (IH (a + x)), (IH (0 + x)). ring.
Qed.

Lemma sum_cons (x : Q) (l : list Q) : sum (x :: l) == x + sum l.
Proof. unfold sum at 1. simpl. rewrite fold_sum. ring. Qed.

Lemma sum_app (l1 l2 : list Q) : sum (l1 ++ l2) == sum l1 + sum l2.
Proof.
  induction l1 as [|x l1 IH]; simpl.
  - change (sum []) with 0. ring.
  - rewrite !sum_cons, IH. ring.
Qed.

Lemma sum_map_add {A} (f g : A -> Q) (l : list A) :
  sum (map f l) + sum (map g l) == sum (map (fun i => f i + g i) l).
Proof.
  induction l as [|x l IH]; simpl.
  - reflexivity.
  - rewrite !sum_cons, <- IH. ring.
Qed.

Lemma sum_map_eq {A} (f g : A -> Q) (l : list A) :
  (forall i, In i l -> f i == g i) -> sum (map f l) == sum (map g l).
Proof.
  induction l as [|x l IH]; intro H; simpl.
  - reflexivity.
  - rewrite !sum_cons, IH, (H x) by (try (now left); intros; apply H; now right).
    reflexivity.
Qed.

Lemma sum_map_le {A} (f g : A -> Q) (l : list A) :
  (forall i, In i l -> f i <= g i) -> sum (map f l) <= sum (map g l).
Proof.
  induction l as [|x l IH]; intro H; simpl.
  - apply Qle_refl.
  - rewrite !sum_cons.
    apply Qplus_le_compat; [apply H; now left | apply IH; intros; apply H; now right].
Qed.

Lemma sum_nonneg (l : list Q) : Forall (fun x => 0 <= x) l -> 0 <= sum l.
Proof.
  induction 1 as [|x l Hx _ IH].
  - apply Qle_refl.
  - rewrite sum_cons. lra.
Qed.

Lemma sum_map_scale {A} (k : Q) (f : A -> Q) (l : list A) :
  sum (map (fun i => k * f i) l) == k * sum (map f l).
Proof.
  induction l as [|x l IH]; simpl.
  - change (sum []) with 0. ring.
  - rewrite !sum_cons, IH. ring.
Qed.

Lemma map_nth_seq {A} (d : A) (l : list A) :
  forall n, (n <= List.length l)%nat ->
            map (fun i => nth i l d) (seq 0 n) = firstn n l.
Proof.
  induction l as [|x l IH]; intros n Hn.
  - simpl in Hn. assert (n = 0%nat) by lia. subst. reflexivity.
  - destruct n as [|n]; [reflexivity|].
    simpl. f_equal. rewrite <- seq_shift, map_map. apply IH.
    simpl in Hn. lia.
Qed.

Lemma sum_firstn_le (n : nat) (l : list Q) :
  Forall (fun x => 0 <= x) l -> sum (firstn n l) <= sum l.
Proof.
  intro H. rewrite <- (firstn_skipn n l) at 2. rewrite sum_app.
  assert (0 <= sum (skipn n l)).
  { apply sum_nonneg. apply Forall_forall. intros x Hx.
    rewrite Forall_forall in H. apply H.
    rewrite <- (firstn_skipn n l). apply in_or_app. now right. }
  lra.
Qed.

End Sums.

(** ** Annual energy balance *)

Section AnnualBalance.

Variables pv consumption : list Q.
Hypothesis pv_twelve : (12 <= List.length pv)%nat.
Hypothesis consumption_twelve : (12 <= List.length consumption)%nat.

Lemma annual_self_export :
  sum (map (Reference.month_self pv consumption) (range 12))
  + sum (map (Reference.month_export pv consumption) (range 12))
  == sum (firstn 12 pv).
Proof.
  rewrite sum_map_add.
  rewrite <- (map_nth_seq 0 pv 12 pv_twelve).
  apply sum_map_eq. intros i _. apply split_export.
Qed.

Lemma annual_self_import :
  sum (map (Reference.month_self pv consumption) (range 12))
  + sum (map (Reference.month_import pv consumption) (range 12))
  == sum (firstn 12 consumption).
Proof.
  rewrite sum_map_add.
  rewrite <- (map_nth_seq 0 consumption 12 consumption_twelve).
  apply sum_map_eq. intros i _. apply split_import.
Qed.

Lemma annual_self_bounds :
  Forall (fun x => 0 <= x) pv ->
  Forall (fun x => 0 <= x) consumption ->
  0 <= sum (map (Reference.month_self pv consumption) (range 12)) /\
  sum (map (Reference.month_self pv consumption) (range 12))
  <= sum (firstn 12 pv).
Proof.
  intros Hpv Hc.
  assert (Hnth : forall (l : list Q) i,
             Forall (fun x => 0 <= x) l -> 0 <= nth i l 0).
  { intros l i Hl. destruct (Nat.lt_ge_cases i (List.length l)) as [Hi|Hi].
    - rewrite Forall_forall in Hl. apply Hl. now apply nth_In.
    - rewrite nth_overflow by exact Hi. apply Qle_refl. }
  split.
  - apply sum_nonneg. apply Forall_forall. intros x Hx.
    apply in_map_iff in Hx. destruct Hx as [i [<- _]].
    unfold Reference.month_self.
    destruct (min2_cases (nth i pv 0) (nth i consumption 0))
      as [[_ ->]|[_ ->]]; now apply Hnth.
  - rewrite <- (map_nth_seq 0 pv 12 pv_twelve).
    apply sum_map_le. intros i _. unfold Reference.month_self.
    destruct (min2_cases (nth i pv 0) (nth i consumption 0))
      as [[Hlt ->]|[_ ->]]; lra.
Qed.

End AnnualBalance.

Section FirstTwelve.

Variables pv consumption : list Q.

Lemma nth_first_twelve (l : list Q) (i : nat) :
  In i (range 12) -> nth i (firstn 12 l) 0 = nth i l 0.
Proof.
  intro Hi. unfold range in Hi. apply in_seq in Hi.
  change (Z.to_nat 12) with 12%nat in Hi.
  rewrite nth_firstn.
  destruct (Nat.ltb_spec i 12) as [_|H]; [reflexivity | lia].
Qed.

Lemma first_twelve_self :
  map (Reference.month_self (firstn 12 pv) (firstn 12 consumption))
      (range 12)
  = map (Reference.month_self pv consumption) (range 12).
Proof.
  apply map_ext_in. intros i Hi. unfold Reference.month_self.
  rewrite !nth_first_twelve by exact Hi. reflexivity.
Qed.

Lemma first_twelve_export :
  map (Reference.month_export (firstn 12 pv) (firstn 12 consumption))
      (range 12)
  = map (Reference.month_export pv consumption) (range 12).
Proof.
  apply map_ext_in. intros i Hi. unfold Reference.month_export.
  rewrite !nth_first_twelve by exact Hi. reflexivity.
Qed.

Lemma first_twelve_import :
  map (Reference.month_import (firstn 12 pv) (firstn 12 consumption))
      (range 12)
  = map (Reference.month_import pv consumption) (range 12).
Proof.
  apply map_ext_in. intros i Hi. unfold Reference.month_import.
  rewrite !nth_first_twelve by exact Hi. reflexivity.
Qed.

Lemma first_twelve_length (l : list Q) :
  (12 <= List.length l)%nat -> (12 <= List.length (firstn 12 l))%nat.
Proof. intro H. rewrite firstn_length_le by exact H. lia. Qed.

End FirstTwelve.

(** X1.  The monthly loops of the two scenario builders read the first
    twelve entries of the monthly vectors and nothing else.  On vectors of
    at least twelve values the PV-only scenario is the scenario of the
    vectors cut to their first twelve values, and so are the annual
    self-consumption, grid import, grid export and net cost of the BESS
    baseline; the baseline's [annual_pv_production] and
    [annual_consumption] are the sums of the whole vectors. *)
Theorem scenarios_read_first_twelve_values (pv consumption : list Q) :
  (12 <= List.length pv)%nat ->
  (12 <= List.length consumption)%nat ->
  (forall kwp annual params,
      Economic._calculate_pv_only_scenario kwp annual pv consumption params
      = Economic._calculate_pv_only_scenario kwp annual (firstn 12 pv)
          (firstn 12 consumption) params)
  /\
  (forall price tariff,
      exists b b',
        Bess._calculate_baseline_scenario pv consumption price tariff = Ok b /\
        Bess._calculate_baseline_scenario (firstn 12 pv)
          (firstn 12 consumption) price tariff = Ok b' /\
        Bess.Baseline.annual_self_consumption b
        = Bess.Baseline.annual_self_consumption b' /\
        Bess.Baseline.annual_grid_import b
        = Bess.Baseline.annual_grid_import b' /\
        Bess.Baseline.annual_grid_export b
        = Bess.Baseline.annual_grid_export b' /\
        Bess.Baseline.annual_net_cost b = Bess.Baseline.annual_net_cost b' /\
        Bess.Baseline.annual_pv_production b = sum pv /\
        Bess.Baseline.annual_consumption b = sum consumption /\
        Bess.Baseline.annual_pv_production b' = sum (firstn 12 pv) /\
        Bess.Baseline.annual_consumption b' = sum (firstn 12 consumption)).
Proof.
  intros Hp Hc.
  pose proof (first_twelve_length pv Hp) as Hp'.
  pose proof (first_twelve_length consumption Hc) as Hc'.
  split.
  - intros kwp annual params. unfold Economic._calculate_pv_only_scenario.
    rewrite !economic_monthly_flows_spec by assumption.
    rewrite first_twelve_self, first_twelve_export, first_twelve_import.
    reflexivity.
  - intros price tariff. unfold Bess._calculate_baseline_scenario.
    rewrite !bess_baseline_monthly_spec by assumption.
    rewrite first_twelve_self, first_twelve_export, first_twelve_import.
    cbn [bind Bess.monthly_self_consumption Bess.monthly_grid_export
         Bess.monthly_grid_import].
    destruct (guarded_rate_ok
                (sum (map (Reference.month_self pv consumption) (range 12)))
                (sum pv)) as [r [Hr _]].
    destruct (guarded_rate_ok
                (sum (map (Reference.month_self pv consumption) (range 12)))
                (sum (firstn 12 pv))) as [r' [Hr' _]].
    rewrite Hr, Hr'. cbn [bind]. eexists. eexists.
    split; [reflexivity|]. split; [reflexivity|]. repeat split.
Qed.

Lemma scenarios_read_first_twelve_values_witness :
  exists b b',
    Bess._calculate_baseline_scenario (Sample.pv_monthly ++ [1000])
      Sample.consumption_monthly 0.25 0.05 = Ok b /\
    Bess._calculate_baseline_scenario
      (firstn 12 (Sample.pv_monthly ++ [1000]))
      (firstn 12 Sample.consumption_monthly) 0.25 0.05 = Ok b' /\
    Bess.Baseline.annual_self_consumption b
    = Bess.Baseline.annual_self_consumption b' /\
    Bess.Baseline.annual_pv_production b = sum (Sample.pv_monthly ++ [1000]).
Proof.
  destruct (proj2 (scenarios_read_first_twelve_values
                     (Sample.pv_monthly ++ [1000]) Sample.consumption_monthly
                     ltac:(simpl; lia) ltac:(simpl; lia)) 0.25 0.05)
    as [b [b' [Hb [Hb' [Hs [_ [_ [_ [Hp _]]]]]]]]].
  exists b, b'. split; [exact Hb|]. split; [exact Hb'|].
  split; [exact Hs | exact Hp].
Defined.

(** X2.  For production and consumption lists of non-negative values the
    self-consumption rate of the baseline lies between 0 and 1. *)
Theorem baseline_rate_between_zero_and_one
        (pv consumption : list Q) (price tariff : Q) :
  (12 <= List.length pv)%nat ->
  (12 <= List.length consumption)%nat ->
  Forall (fun x => 0 <= x) pv ->
  Forall (fun x => 0 <= x) consumption ->
  exists b,
    Bess._calculate_baseline_scenario pv consumption price tariff = Ok b /\
    0 <= Bess.Baseline.self_consumption_rate b /\
    Bess.Baseline.self_consumption_rate b <= 1.
Proof.
  intros Hp Hc Hpv Hcons.
  unfold Bess._calculate_baseline_scenario.
  rewrite bess_baseline_monthly_spec by assumption. cbn [bind].
  cbn [Bess.monthly_self_consumption Bess.monthly_grid_export
       Bess.monthly_grid_import].
  destruct (annual_self_bounds pv consumption Hp Hpv Hcons) as [Hlo Hhi].
  pose proof (sum_firstn_le 12 pv Hpv) as Hall.
  set (self := sum (map (Reference.month_self pv consumption) (range 12))) in *.
  destruct (gtb (sum pv) 0) eqn:E.
  - apply gtb_gt in E. rewrite truediv_ok by lra. cbn [bind].
    eexists. split; [reflexivity|].
    cbn [Bess.Baseline.self_consumption_rate]. split.
    + apply Qle_shift_div_l; [exact E | lra].
    + apply Qle_shift_div_r; [exact E | lra].
  - cbn [bind]. eexists. split; [reflexivity|].
    cbn [Bess.Baseline.self_consumption_rate]. split; discriminate.
Qed.

Lemma baseline_rate_between_zero_and_one_witness :
  (12 <= List.length Sample.pv_monthly)%nat /\
  (12 <= List.length Sample.consumption_monthly)%nat /\
  Forall (fun x => 0 <= x) Sample.pv_monthly /\
  Forall (fun x => 0 <= x) Sample.consumption_monthly /\
  exists b,
    Bess._calculate_baseline_scenario Sample.pv_monthly
      Sample.consumption_monthly 0.25 0.05 = Ok b /\
    0 <= Bess.Baseline.self_consumption_rate b /\
    Bess.Baseline.self_consumption_rate b <= 1.
Proof.
  assert (Hp : (12 <= List.length Sample.pv_monthly)%nat) by (simpl; lia).
  assert (Hc : (12 <= List.length Sample.consumption_monthly)%nat)
    by (simpl; lia).
  assert (Hpv : Forall (fun x => 0 <= x) Sample.pv_monthly)
    by (repeat constructor; discriminate).
  assert (Hcons : Forall (fun x => 0 <= x) Sample.consumption_monthly)
    by (repeat constructor; discriminate).
  split; [exact Hp|]. split; [exact Hc|]. split; [exact Hpv|].
  split; [exact Hcons|].
  exact (baseline_rate_between_zero_and_one Sample.pv_monthly
           Sample.consumption_monthly 0.25 0.05 Hp Hc Hpv Hcons).
Defined.

(** ** Payback: interpolation, sentinel and errors *)

Section PaybackCoverage.

Lemma firstn_succ_nth (l : list Q) :
  forall y, (y < List.length l)%nat ->
            firstn (S y) l = firstn y l ++ [nth y l 0].
Proof.
  induction l as [|x l IH]; intros y Hy; [simpl in Hy; lia|].
  destruct y as [|y]; [reflexivity|].
  simpl in Hy. rewrite (firstn_cons (S y)), (firstn_cons y).
  rewrite IH by lia. reflexivity.
Qed.

Lemma cumulative_succ (cfs : list Q) (y : nat) :
  (S y < List.length cfs)%nat ->
  Reference.cumulative cfs (S y)
  == Reference.cumulative cfs y + nth (S y) cfs 0.
Proof.
  intro Hy. unfold Reference.cumulative.
  rewrite (firstn_succ_nth cfs (S y) Hy).
  rewrite fold_left_app. reflexivity.
Qed.

Lemma payback_loop_later_total (investment : Q) (cfs : list Q) :
  forall year cum,
    year <> 0%nat -> cum < investment ->
    exists r, Economic.payback_loop investment year cfs cum = Ok r.
Proof.
  induction cfs as [|cf rest IH]; intros year cum Hyear Hcum; simpl.
  - now exists PosInf.
  - destruct (geb (cum + cf) investment) eqn:Ecross.
    + apply Nat.eqb_neq in Hyear. rewrite Hyear.
      apply geb_ge in Ecross.
      rewrite truediv_ok by lra. cbn [bind]. eexists. reflexivity.
    + apply IH; [lia | now apply geb_lt].
Qed.

Lemma payback_loop_crossing (investment : Q) (k : nat) :
  forall cfs year cum,
    (k < List.length cfs)%nat ->
    (forall j, (j < k)%nat ->
               fold_left Qplus (firstn (S j) cfs) cum < investment) ->
    investment <= fold_left Qplus (firstn (S k) cfs) cum ->
    (year + k <> 0)%nat ->
    (k = 0%nat -> cum < investment) ->
    exists v,
      Economic.payback_loop investment year cfs cum = Ok (Fin v) /\
      v == of_nat (year + k) +
           (investment - fold_left Qplus (firstn k cfs) cum) / nth k cfs 0.
Proof.
  induction k as [|k IH]; intros cfs year cum Hlen Hbefore Hcross Hyear Hcum.
  - apply (payback_loop_later investment 0 cfs year cum); auto.
  - destruct cfs as [|cf rest]; [simpl in Hlen; lia|].
    assert (H0 : cum + cf < investment).
    { specialize (Hbefore 0%nat). simpl in Hbefore. apply Hbefore. lia. }
    simpl. pose proof H0 as H0'. apply geb_lt in H0'. rewrite H0'.
    destruct (IH rest (S year) (cum + cf)) as [v [Hv Heq]].
    + simpl in Hlen. lia.
    + intros j Hj. specialize (Hbefore (S j)). simpl in Hbefore.
      apply Hbefore. lia.
    + simpl in Hcross. exact Hcross.
    + lia.
    + intros _. exact H0.
    + exists v. split; [exact Hv|].
      rewrite Heq. replace (S year + k)%nat with (year + S k)%nat by lia.
      reflexivity.
Qed.

End PaybackCoverage.

(** X3.  When the running sum of the cash flows first reaches the
    investment in a year [y >= 1], [_calculate_payback] returns
    [y + (I - (cumulative(y) - cf[y])) / cf[y]]: the cumulative flow before
    the year of the crossing is not kept by the loop, it is rebuilt by
    subtracting the cash flow of the year from the running sum. *)
Theorem payback_later_year_interpolates
        (investment : Q) (cfs : list Q) (y : nat) :
  (1 <= y < List.length cfs)%nat ->
  (forall j, (j < y)%nat -> Reference.cumulative cfs j < investment) ->
  investment <= Reference.cumulative cfs y ->
  exists v,
    Economic._calculate_payback investment cfs = Ok (Fin v) /\
    v == of_nat y
         + (investment - (Reference.cumulative cfs y - nth y cfs 0))
           / nth y cfs 0.
Proof.
  intros Hy Hbefore Hcross.
  destruct (payback_loop_crossing investment y cfs 0%nat 0) as [v [Hv Heq]];
    try assumption; try lia.
  exists v. split; [exact Hv|].
  destruct y as [|y]; [lia|].
  assert (Heq' : v == of_nat (S y)
                      + (investment - Reference.cumulative cfs y)
                        / nth (S y) cfs 0).
  { rewrite Heq. reflexivity. }
  pose proof (Hbefore y ltac:(lia)) as Hprev.
  pose proof Hcross as Hcross'.
  rewrite (cumulative_succ cfs y) in Hcross' by lia.
  rewrite Heq', (cumulative_succ cfs y) by lia.
  set (prev := Reference.cumulative cfs y) in *.
  set (cf := nth (S y) cfs 0) in *.
  assert (Hcf : 0 < cf) by lra.
  field. lra.
Qed.

Lemma payback_later_year_interpolates_witness :
  (1 <= 1 < List.length Sample.yearly_flows)%nat /\
  (forall j, (j < 1)%nat -> Reference.cumulative Sample.yearly_flows j < 1000) /\
  1000 <= Reference.cumulative Sample.yearly_flows 1 /\
  exists v,
    Economic._calculate_payback 1000 Sample.yearly_flows = Ok (Fin v) /\
    v == of_nat 1
         + (1000 - (Reference.cumulative Sample.yearly_flows 1
                    - nth 1 Sample.yearly_flows 0))
           / nth 1 Sample.yearly_flows 0.
Proof.
  assert (H1 : (1 <= 1 < List.length Sample.yearly_flows)%nat)
    by (simpl; lia).
  assert (H2 : forall j, (j < 1)%nat ->
                         Reference.cumulative Sample.yearly_flows j < 1000).
  { intros j Hj. assert (j = 0%nat) by lia. subst j. reflexivity. }
  assert (H3 : 1000 <= Reference.cumulative Sample.yearly_flows 1)
    by (vm_compute; discriminate).
  split; [exact H1|]. split; [exact H2|]. split; [exact H3|].
  exact (payback_later_year_interpolates 1000 Sample.yearly_flows 1 H1 H2 H3).
Defined.

Section PaybackSentinel.

Lemma cumulative_nonpositive (cfs : list Q) :
  Forall (fun cf => cf <= 0) cfs ->
  forall j cum, cum <= 0 -> fold_left Qplus (firstn (S j) cfs) cum <= 0.
Proof.
  intro H. induction H as [|cf rest Hcf _ IH]; intros j cum Hcum.
  - simpl. exact Hcum.
  - rewrite firstn_cons. cbn [fold_left].
    destruct j as [|j].
    + simpl. lra.
    + apply IH. lra.
Qed.

End PaybackSentinel.

(** X4.  [_calculate_payback] returns positive infinity when no cumulative
    cash flow reaches the investment; in particular when the investment is
    positive and no cash flow is positive. *)
Theorem payback_never_recovered (investment : Q) (cfs : list Q) :
  ((forall j, (j < List.length cfs)%nat ->
              Reference.cumulative cfs j < investment) ->
   Economic._calculate_payback investment cfs = Ok PosInf) /\
  (0 < investment ->
   Forall (fun cf => cf <= 0) cfs ->
   Economic._calculate_payback investment cfs = Ok PosInf).
Proof.
  split.
  - intro H. apply payback_loop_never. exact H.
  - intros Hpos Hall. apply payback_loop_never.
    intros j _.
    pose proof (cumulative_nonpositive cfs Hall j 0 (Qle_refl 0)). lra.
Qed.

Lemma payback_never_recovered_witness :
  0 < 1000 /\
  Forall (fun cf => cf <= 0) [-5; 0; -3] /\
  Economic._calculate_payback 1000 [-5; 0; -3] = Ok PosInf.
Proof.
  assert (Hpos : 0 < 1000) by reflexivity.
  assert (Hall : Forall (fun cf => cf <= 0) [-5; 0; -3])
    by (repeat constructor; discriminate).
  split; [exact Hpos|]. split; [exact Hall|].
  exact (proj2 (payback_never_recovered 1000 [-5; 0; -3]) Hpos Hall).
Defined.

(** X5.  [_calculate_payback] raises in one case only: a zero investment
    with a positive first cash flow, where it divides the cash flow by the
    investment; the exception is [ZeroDivisionError].  On every other
    input it returns. *)
Theorem payback_raises_only_on_zero_investment
        (investment : Q) (cfs : list Q) (e : exn) :
  Economic._calculate_payback investment cfs = Raise e <->
  e = ZeroDivisionError /\ investment == 0 /\
  exists cf rest, cfs = cf :: rest /\ 0 < cf.
Proof.
  split.
  - intro H.
    destruct (Qeq_dec investment 0) as [Hz|Hnz].
    + destruct cfs as [|cf rest]; [discriminate H|].
      destruct (Qlt_le_dec 0 cf) as [Hcf|Hcf].
      * rewrite payback_zero_investment in H by assumption.
        injection H as <-. split; [reflexivity|]. split; [exact Hz|].
        now exists cf, rest.
      * exfalso. revert H. unfold Economic._calculate_payback. simpl.
        assert (G : gtb cf 0 = false) by now apply gtb_le.
        rewrite G.
        destruct (geb (0 + cf) investment) eqn:Ecross; [discriminate|].
        apply geb_lt in Ecross.
        destruct (payback_loop_later_total investment rest 1 (0 + cf))
          as [r Hr]; [lia | exact Ecross |].
        rewrite Hr. discriminate.
    + exfalso.
      destruct (payback_loop_total investment cfs Hnz 0%nat 0) as [r Hr].
      { intro Hy. now contradiction Hy. }
      unfold Economic._calculate_payback in H. rewrite Hr in H.
      discriminate H.
  - intros [-> [Hz [cf [rest [-> Hcf]]]]].
    now apply payback_zero_investment.
Qed.

Lemma payback_raises_only_on_zero_investment_witness :
  Economic._calculate_payback 0 Sample.yearly_flows = Raise ZeroDivisionError.
Proof.
  apply (proj2 (payback_raises_only_on_zero_investment 0 Sample.yearly_flows
                  ZeroDivisionError)).
  split; [reflexivity|]. split; [reflexivity|].
  exists 600, [600]. split; reflexivity.
Defined.

(** ** NPV: errors, zero rate, and the two implementations *)

Section NpvCoverage.

(** when the loop returns, its value is the accumulator plus the discounted
    flows, whatever the rate is *)
Lemma npv_loop_ok_value (rate : Q) (cfs : list Q) :
  forall i acc v,
    Economic.npv_loop rate i cfs acc = Ok v ->
    v == acc + Reference.discounted rate i cfs.
Proof.
  induction cfs as [|cf rest IH]; intros i acc v; simpl.
  - intro H. injection H as <-. ring.
  - unfold truediv. destruct (Qeq_bool (pow (1 + rate) i) 0); cbn [bind].
    + discriminate.
    + intro H. apply IH in H. rewrite H. ring.
Qed.

Lemma pow_zero_base (b : Q) (n : nat) : b == 0 -> pow b (S n) == 0.
Proof.
  intro H. rewrite pow_S.
  apply Qeq_trans with (0 * pow b n); [|ring].
  apply Qmult_comp; [exact H | reflexivity].
Qed.

Lemma pow_one_base (n : nat) : pow 1 n == 1.
Proof. unfold pow. apply Qpower_1. Qed.

Lemma discounted_zero_rate (cfs : list Q) :
  forall i, Reference.discounted 0 i cfs == sum cfs.
Proof.
  induction cfs as [|cf rest IH]; intro i; simpl.
  - reflexivity.
  - rewrite sum_cons, IH. change (1 + 0) with 1.
    rewrite pow_one_base. field.
Qed.

Lemma discounted_repeat (rate cf : Q) (n : nat) :
  forall i,
    Reference.discounted rate i (repeat cf n)
    == cf * Reference.annuity rate (seq i n).
Proof.
  induction n as [|n IH]; intro i; simpl.
  - ring.
  - rewrite IH. unfold Qdiv. ring.
Qed.

End NpvCoverage.

(** X6.  At the discount rate -1 [_calculate_npv] raises
    [ZeroDivisionError] on every list of at least two cash flows: the
    second flow is divided by [(1 + rate) ** 1 = 0].  A list of a single
    cash flow is returned as that flow at every rate, -1 included, and the
    empty list as 0: [(1 + rate) ** 0] is 1. *)
Theorem npv_divides_by_zero_at_minus_one (cfs : list Q) (rate : Q) :
  (1 + rate == 0 -> (2 <= List.length cfs)%nat ->
   Economic._calculate_npv cfs rate = Raise ZeroDivisionError) /\
  (forall c,
      exists v, Economic._calculate_npv [c] rate = Ok v /\ v == c) /\
  Economic._calculate_npv [] rate = Ok 0.
Proof.
  unfold Economic._calculate_npv. split; [|split].
  - intros Hz Hlen.
    destruct cfs as [|c0 [|c1 rest]]; simpl in Hlen; try lia.
    cbn [Economic.npv_loop]. rewrite pow_O.
    rewrite (truediv_ok c0 1) by discriminate. cbn [bind].
    rewrite (truediv_zero c1 (pow (1 + rate) 1)) by now apply pow_zero_base.
    reflexivity.
  - intro c. cbn [Economic.npv_loop]. rewrite pow_O.
    rewrite (truediv_ok c 1) by discriminate. cbn [bind].
    eexists. split; [reflexivity|]. field.
  - reflexivity.
Qed.

Lemma npv_divides_by_zero_at_minus_one_witness :
  Economic._calculate_npv Sample.two_payments (-1) = Raise ZeroDivisionError.
Proof.
  apply (proj1 (npv_divides_by_zero_at_minus_one Sample.two_payments (-1))).
  - reflexivity.
  - simpl. lia.
Defined.

(** X7.  At a discount rate of zero the NPV is the plain sum of the cash
    flows. *)
Theorem npv_at_zero_rate_is_sum (cfs : list Q) :
  exists v, Economic._calculate_npv cfs 0 = Ok v /\ v == sum cfs.
Proof.
  assert (Hrate : -1 < 0) by reflexivity.
  destruct (npv_loop_value 0 cfs Hrate 0%nat 0) as [v [Hv Heq]].
  exists v. split; [exact Hv|].
  rewrite Heq, discounted_zero_rate. ring.
Qed.

(** X8.  The simplified NPV of the BESS module agrees with the NPV of the
    economic module on the investment followed by the same cash flow in
    each year: for every rate above -1 and every number of years,
    [_calculate_npv_simple(cf, I, rate, years)] is
    [_calculate_npv([-I] + [cf] * years, rate)]. *)
Theorem npv_simple_agrees_with_npv (cf investment rate : Q) (years : Z) :
  -1 < rate ->
  exists v w,
    Bess._calculate_npv_simple cf investment rate years = Ok v /\
    Economic._calculate_npv ([- investment] ++ repeat cf (Z.to_nat years)) rate
    = Ok w /\
    v == w.
Proof.
  intro Hrate.
  destruct (npv_simple_loop_value cf rate (range2 1 (years + 1)) Hrate
              (- investment)) as [v [Hv Hveq]].
  destruct (npv_loop_value rate
              ([- investment] ++ repeat cf (Z.to_nat years)) Hrate 0%nat 0)
    as [w [Hw Hweq]].
  exists v, w. split; [exact Hv|]. split; [exact Hw|].
  rewrite Hveq, Hweq. cbn [app Reference.discounted].
  rewrite discounted_repeat, pow_O.
  unfold range2. replace (Z.to_nat (years + 1) - 1)%nat with (Z.to_nat years)
    by lia.
  field.
Qed.

Lemma npv_simple_agrees_with_npv_witness :
  -1 < 0.05 /\
  exists v w,
    Bess._calculate_npv_simple 600 1000 0.05 2 = Ok v /\
    Economic._calculate_npv ([- 1000] ++ repeat 600 (Z.to_nat 2)) 0.05 = Ok w /\
    v == w.
Proof.
  assert (H : -1 < 0.05) by reflexivity.
  split; [exact H|].
  exact (npv_simple_agrees_with_npv 600 1000 0.05 2 H).
Defined.

(** ** The analysis with a battery *)

Section BatteryBranch.

Lemma pv_only_inversion (kwp annual : Q) (pv consumption : list Q)
      (p : Economic.EconomicParameters) (s : Economic.Scenario) :
  Economic._calculate_pv_only_scenario kwp annual pv consumption p = Ok s ->
  Economic.capex s = kwp * Economic.pv_capex_per_kwp p /\
  Economic.cash_flows s
  = Economic.build_cash_flows (Economic.annual_savings s)
                              (Economic.annual_opex s) p /\
  Economic._calculate_npv ([- Economic.capex s] ++ Economic.cash_flows s)
                          (Economic.wacc p)
  = Ok (Economic.npv s).
Proof.
  unfold Economic._calculate_pv_only_scenario.
  destruct (Economic.monthly_flows pv consumption) as [m|]; cbn [bind];
    [|discriminate].
  destruct (Economic._calculate_npv _ _) as [v|] eqn:Hv; cbn [bind];
    [|discriminate].
  destruct (Economic._calculate_payback _ _) as [pb|]; cbn [bind];
    [|discriminate].
  intro H. injection H as <-.
  cbn [Economic.capex Economic.cash_flows Economic.annual_savings
       Economic.annual_opex Economic.npv].
  repeat split. exact Hv.
Qed.

Lemma pv_bess_inversion (kwp annual : Q) (pv consumption : list Q)
      (capacity increase : Q)
      (p : Economic.EconomicParameters) (s : Economic.Scenario) :
  Economic._calculate_pv_bess_scenario kwp annual pv consumption capacity
    increase p = Ok s ->
  Economic.capex s
  = kwp * Economic.pv_capex_per_kwp p
    + capacity * Economic.bess_capex_per_kwh p /\
  Economic.cash_flows s
  = Economic.build_cash_flows (Economic.annual_savings s)
                              (Economic.annual_opex s) p /\
  Economic._calculate_npv ([- Economic.capex s] ++ Economic.cash_flows s)
                          (Economic.wacc p)
  = Ok (Economic.npv s).
Proof.
  unfold Economic._calculate_pv_bess_scenario.
  destruct (Economic._calculate_npv _ _) as [v|] eqn:Hv; cbn [bind];
    [|discriminate].
  destruct (Economic._calculate_payback _ _) as [pb|]; cbn [bind];
    [|discriminate].
  intro H. injection H as <-.
  cbn [Economic.capex Economic.cash_flows Economic.annual_savings
       Economic.annual_opex Economic.npv].
  repeat split. exact Hv.
Qed.

Lemma build_cash_flows_length (a b : Q) (p : Economic.EconomicParameters) :
  List.length (Economic.build_cash_flows a b p)
  = Z.to_nat (Economic.analysis_years p).
Proof.
  unfold Economic.build_cash_flows, range.
  rewrite length_map, length_seq. reflexivity.
Qed.

Lemma difference_flows_total (A B : list Q) (n : nat) :
  (n <= List.length A)%nat -> (n <= List.length B)%nat ->
  exists flows,
    comprehension
      (fun i => a <- getitem A i ;; b <- getitem B i ;; Ok (a - b)) (seq 0 n)
    = Ok flows.
Proof.
  intros HA HB. apply comprehension_total.
  intros i Hi. apply in_seq in Hi.
  rewrite (getitem_ok A i 0) by lia. cbn [bind].
  rewrite (getitem_ok B i 0) by lia. cbn [bind].
  eexists. reflexivity.
Qed.

End BatteryBranch.

Section BatteryTotality.

Variables (kwp annual : Q) (pv : list Q) (consumption_annual : Q)
          (consumption : list Q) (capacity increase : Q)
          (throughput : option Q) (p : Economic.EconomicParameters).

Hypothesis wacc_ok : ~ 1 + Economic.wacc p == 0.

Lemma pv_bess_total :
  ~ kwp * Economic.pv_capex_per_kwp p
    + capacity * Economic.bess_capex_per_kwh p == 0 ->
  exists s,
    Economic._calculate_pv_bess_scenario kwp annual pv consumption capacity
      increase p = Ok s.
Proof.
  intro Hcapex. unfold Economic._calculate_pv_bess_scenario.
  unfold Economic._calculate_npv.
  match goal with
  | |- context [Economic.npv_loop ?r ?i ?l ?a] =>
      destruct (npv_loop_total r l wacc_ok i a) as [v Hv]
  end.
  rewrite Hv. cbn [bind].
  unfold Economic._calculate_payback.
  match goal with
  | |- context [Economic.payback_loop ?inv ?y ?l ?c] =>
      destruct (payback_loop_total inv l Hcapex y c) as [pb Hpb]
  end.
  { intro H. now contradiction H. }
  rewrite Hpb. cbn [bind]. eexists. reflexivity.
Qed.

Lemma incremental_total (s1 s2 : Economic.Scenario) :
  List.length (Economic.cash_flows s1) = List.length (Economic.cash_flows s2) ->
  ~ capacity * Economic.bess_capex_per_kwh p == 0 ->
  exists inc,
    Economic._calculate_incremental_bess_economics s1 s2 capacity p = Ok inc.
Proof.
  intros Hlen Hcapex.
  unfold Economic._calculate_incremental_bess_economics.
  destruct (difference_flows_total (Economic.cash_flows s2)
              (Economic.cash_flows s1)
              (List.length (Economic.cash_flows s1))) as [flows Hflows];
    [lia | lia |].
  rewrite Hflows. cbn [bind].
  unfold Economic._calculate_npv.
  match goal with
  | |- context [Economic.npv_loop ?r ?i ?l ?a] =>
      destruct (npv_loop_total r l wacc_ok i a) as [v Hv]
  end.
  rewrite Hv. cbn [bind].
  unfold Economic._calculate_payback.
  match goal with
  | |- context [Economic.payback_loop ?inv ?y ?l ?c] =>
      destruct (payback_loop_total inv l Hcapex y c) as [pb Hpb]
  end.
  { intro H. now contradiction H. }
  rewrite Hpb. cbn [bind]. eexists. reflexivity.
Qed.

End BatteryTotality.

Section AnalysisShape.

Variables (kwp annual : Q) (pv : list Q) (consumption_annual : Q)
          (consumption : list Q)
          (params : option Economic.EconomicParameters).

(** what a result owes to the PV-only scenario and to the LCOE, on either
    branch *)
Lemma analysis_inversion (capacity throughput increase : option Q)
      (r : Economic.EconomicResults) :
  Economic.calculate_complete_economic_analysis kwp annual pv
    consumption_annual consumption capacity throughput increase params
  = Ok r ->
  exists s l,
    Economic._calculate_pv_only_scenario kwp annual pv consumption
      (Reference.params_in_force params) = Ok s /\
    Economic._calculate_lcoe (Economic.capex s) (Economic.annual_opex s)
      annual (Reference.params_in_force params) = Ok l /\
    Economic.pv_only_npv r = Economic.npv s /\
    Economic.pv_only_irr r = Economic.irr s /\
    Economic.pv_only_payback r = Economic.payback s /\
    Economic.pv_only_capex r = Economic.capex s /\
    Economic.pv_only_annual_savings r = Economic.annual_savings s /\
    Economic.annual_cash_flows_pv r = Economic.cash_flows s /\
    Economic.total_annual_production r = annual /\
    Economic.lcoe r = l.
Proof.
  unfold Economic.calculate_complete_economic_analysis.
  fold (Reference.params_in_force params).
  destruct (Economic._calculate_pv_only_scenario _ _ _ _ _) as [s|e];
    cbn [bind]; [|intro H; discriminate H].
  match goal with
  | |- (scenarios <- ?m ;; _) = _ -> _ =>
      destruct m as [[s2 inc]|e]; cbn [bind]; [|intro H; discriminate H]
  end.
  destruct (Economic._calculate_lcoe _ _ _ _) as [l|e] eqn:Hl; cbn [bind];
    [|intro H; discriminate H].
  intro H. injection H as <-.
  exists s, l. repeat split; try reflexivity. exact Hl.
Qed.

Variables (capacity increase : Q) (throughput : option Q).

Hypothesis increase_nonzero : ~ increase == 0.
Hypothesis pv_twelve : (12 <= List.length pv)%nat.
Hypothesis consumption_twelve : (12 <= List.length consumption)%nat.
Hypothesis wacc_ok : ~ 1 + Economic.wacc (Reference.params_in_force params) == 0.
Hypothesis pv_capex_nonzero :
  ~ kwp * Economic.pv_capex_per_kwp (Reference.params_in_force params) == 0.
Hypothesis bess_capex_nonzero :
  ~ capacity * Economic.bess_capex_per_kwh (Reference.params_in_force params)
    == 0.
Hypothesis total_capex_nonzero :
  ~ kwp * Economic.pv_capex_per_kwp (Reference.params_in_force params)
    + capacity * Economic.bess_capex_per_kwh (Reference.params_in_force params)
    == 0.

(** on well-formed inputs the branch with a battery returns the result
    built from the two scenarios, the incremental figures and the LCOE *)
Lemma battery_branch_returns :
  exists s1 s2 inc l,
    Economic._calculate_pv_only_scenario kwp annual pv consumption
      (Reference.params_in_force params) = Ok s1 /\
    Economic._calculate_pv_bess_scenario kwp annual pv consumption capacity
      increase (Reference.params_in_force params) = Ok s2 /\
    Economic._calculate_incremental_bess_economics s1 s2 capacity
      (Reference.params_in_force params) = Ok inc /\
    Economic.calculate_complete_economic_analysis kwp annual pv
      consumption_annual consumption (Some capacity) throughput
      (Some increase) params
    = Ok (Reference.battery_result s1 s2 inc
            (Economic._calculate_sensitivity_analysis kwp annual
               consumption_annual (or_zero (Some capacity))
               (Reference.params_in_force params))
            annual l).
Proof.
  assert (Hcap : ~ capacity == 0).
  { intro H. apply bess_capex_nonzero. rewrite H. ring. }
  unfold Economic.calculate_complete_economic_analysis.
  fold (Reference.params_in_force params).
  destruct (pv_only_total kwp annual pv consumption
              (Reference.params_in_force params) pv_twelve
              consumption_twelve wacc_ok pv_capex_nonzero) as [s1 Hs1].
  rewrite Hs1. cbn [bind].
  assert (Htruthy : truthy (Some capacity) && truthy (Some increase) = true).
  { cbn [truthy]. apply andb_true_iff. split; apply negb_true_iff.
    - destruct (Qeq_bool capacity 0) eqn:E; [|reflexivity].
      apply Qeq_bool_iff in E. contradiction.
    - destruct (Qeq_bool increase 0) eqn:E; [|reflexivity].
      apply Qeq_bool_iff in E. contradiction. }
  rewrite Htruthy.
  destruct (pv_bess_total kwp annual pv consumption capacity increase
              (Reference.params_in_force params) wacc_ok
              total_capex_nonzero) as [s2 Hs2].
  rewrite Hs2. cbn [bind].
  destruct (pv_only_inversion _ _ _ _ _ _ Hs1) as [_ [Hf1 _]].
  destruct (pv_bess_inversion _ _ _ _ _ _ _ _ Hs2) as [_ [Hf2 _]].
  destruct (incremental_total capacity (Reference.params_in_force params)
              wacc_ok s1 s2) as [inc Hincr].
  { rewrite Hf1, Hf2, !build_cash_flows_length. reflexivity. }
  { exact bess_capex_nonzero. }
  rewrite Hincr. cbn [bind].
  destruct (lcoe_total (Economic.capex s1) (Economic.annual_opex s1) annual
              (Reference.params_in_force params) wacc_ok) as [l Hl].
  rewrite Hl. cbn [bind].
  exists s1, s2, inc, l. repeat split; first [assumption | reflexivity].
Qed.

End AnalysisShape.

(** X9.  A call of the complete analysis with a battery capacity and a
    self-consumption increase that are both non-zero, when it returns, is
    composed of the PV-only scenario, the PV+BESS scenario, the incremental
    economics of the two and the LCOE of the PV-only scenario: every field
    of the result is a field of one of the four.  The PV+BESS capital cost
    is the PV-only capital cost plus capacity times [bess_capex_per_kwh],
    and it is the total investment. *)
Theorem analysis_with_battery_composes
        (kwp annual : Q) (pv : list Q) (consumption_annual : Q)
        (consumption : list Q) (capacity increase : Q)
        (throughput : option Q)
        (params : option Economic.EconomicParameters)
        (r : Economic.EconomicResults) :
  ~ capacity == 0 ->
  ~ increase == 0 ->
  Economic.calculate_complete_economic_analysis kwp annual pv
    consumption_annual consumption (Some capacity) throughput
    (Some increase) params = Ok r ->
  exists s1 s2 inc l,
    Economic._calculate_pv_only_scenario kwp annual pv consumption
      (Reference.params_in_force params) = Ok s1 /\
    Economic._calculate_pv_bess_scenario kwp annual pv consumption capacity
      increase (Reference.params_in_force params) = Ok s2 /\
    Economic._calculate_incremental_bess_economics s1 s2 capacity
      (Reference.params_in_force params) = Ok inc /\
    Economic._calculate_lcoe (Economic.capex s1) (Economic.annual_opex s1)
      annual (Reference.params_in_force params) = Ok l /\
    r = Reference.battery_result s1 s2 inc
          (Economic._calculate_sensitivity_analysis kwp annual
             consumption_annual (or_zero (Some capacity))
             (Reference.params_in_force params))
          annual l /\
    Economic.pv_bess_capex r
    = Economic.pv_only_capex r
      + capacity
        * Economic.bess_capex_per_kwh (Reference.params_in_force params) /\
    Economic.total_investment r = Economic.pv_bess_capex r.
Proof.
  intros Hcap Hinc Hr.
  assert (Htruthy : truthy (Some capacity) && truthy (Some increase) = true).
  { cbn [truthy]. apply andb_true_iff. split; apply negb_true_iff.
    - destruct (Qeq_bool capacity 0) eqn:E; [|reflexivity].
      apply Qeq_bool_iff in E. contradiction.
    - destruct (Qeq_bool increase 0) eqn:E; [|reflexivity].
      apply Qeq_bool_iff in E. contradiction. }
  revert Hr. unfold Economic.calculate_complete_economic_analysis.
  fold (Reference.params_in_force params). rewrite Htruthy.
  destruct (Economic._calculate_pv_only_scenario kwp annual pv consumption
              (Reference.params_in_force params)) as [s1|e] eqn:H1;
    cbn [bind]; [|intro H; discriminate H].
  destruct (Economic._calculate_pv_bess_scenario kwp annual pv consumption
              capacity increase (Reference.params_in_force params))
    as [s2|e] eqn:H2; cbn [bind]; [|intro H; discriminate H].
  destruct (Economic._calculate_incremental_bess_economics s1 s2 capacity
              (Reference.params_in_force params)) as [inc|e] eqn:H3;
    cbn [bind]; [|intro H; discriminate H].
  destruct (Economic._calculate_lcoe (Economic.capex s1)
              (Economic.annual_opex s1) annual
              (Reference.params_in_force params)) as [l|e] eqn:H4;
    cbn [bind]; [|intro H; discriminate H].
  intro H. injection H as <-.
  exists s1, s2, inc, l.
  split; [first [reflexivity | assumption]|].
  split; [first [reflexivity | assumption]|].
  split; [first [reflexivity | assumption]|].
  split; [first [reflexivity | assumption]|].
  split; [reflexivity|].
  cbn [Economic.pv_bess_capex Economic.pv_only_capex
       Economic.total_investment].
  destruct (pv_only_inversion _ _ _ _ _ _ H1) as [Hc1 _].
  destruct (pv_bess_inversion _ _ _ _ _ _ _ _ H2) as [Hc2 _].
  split; [rewrite Hc1, Hc2; reflexivity | reflexivity].
Qed.

Lemma analysis_with_battery_composes_witness :
  exists r,
    Economic.calculate_complete_economic_analysis 228.7 164830
      Sample.pv_monthly 200000 Sample.consumption_monthly (Some 1600) None
      (Some 130987) None = Ok r /\
    Economic.total_investment r = Economic.pv_bess_capex r.
Proof.
  destruct (battery_branch_returns 228.7 164830 Sample.pv_monthly 200000
              Sample.consumption_monthly None 1600 130987 None)
    as [s1 [s2 [inc [l [_ [_ [_ Hr]]]]]]].
  { discriminate. }
  { simpl; lia. }
  { simpl; lia. }
  { intro H; vm_compute in H; discriminate H. }
  { intro H; vm_compute in H; discriminate H. }
  { intro H; vm_compute in H; discriminate H. }
  { intro H; vm_compute in H; discriminate H. }
  eexists. split; [exact Hr|].
  destruct (analysis_with_battery_composes 228.7 164830 Sample.pv_monthly
              200000 Sample.consumption_monthly 1600 130987 None None _
              ltac:(discriminate) ltac:(discriminate) Hr)
    as [t1 [t2 [tinc [tl [_ [_ [_ [_ [_ [_ Ht]]]]]]]]]].
  exact Ht.
Defined.

(** X10.  The PV-only figures and the LCOE of the complete analysis do not
    depend on the battery arguments: two calls that differ in
    [bess_capacity_kwh], [bess_annual_throughput] and
    [bess_self_consumption_increase] alone, when both return, agree on the
    PV-only NPV, IRR, payback, capex, savings and cash flows and on the
    LCOE. *)
Theorem pv_only_figures_ignore_battery
        (kwp annual : Q) (pv : list Q) (consumption_annual : Q)
        (consumption : list Q)
        (capacity throughput increase : option Q)
        (capacity' throughput' increase' : option Q)
        (params : option Economic.EconomicParameters)
        (r r' : Economic.EconomicResults) :
  Economic.calculate_complete_economic_analysis kwp annual pv
    consumption_annual consumption capacity throughput increase params
  = Ok r ->
  Economic.calculate_complete_economic_analysis kwp annual pv
    consumption_annual consumption capacity' throughput' increase' params
  = Ok r' ->
  Economic.pv_only_npv r = Economic.pv_only_npv r' /\
  Economic.pv_only_irr r = Economic.pv_only_irr r' /\
  Economic.pv_only_payback r = Economic.pv_only_payback r' /\
  Economic.pv_only_capex r = Economic.pv_only_capex r' /\
  Economic.pv_only_annual_savings r = Economic.pv_only_annual_savings r' /\
  Economic.annual_cash_flows_pv r = Economic.annual_cash_flows_pv r' /\
  Economic.lcoe r = Economic.lcoe r'.
Proof.
  intros H H'.
  apply analysis_inversion in H. apply analysis_inversion in H'.
  destruct H as [s [l [Hs [Hl [E1 [E2 [E3 [E4 [E5 [E6 [_ E7]]]]]]]]]]].
  destruct H' as [s' [l' [Hs' [Hl' [F1 [F2 [F3 [F4 [F5 [F6 [_ F7]]]]]]]]]]].
  rewrite Hs in Hs'. injection Hs' as <-.
  rewrite Hl in Hl'. injection Hl' as <-.
  rewrite E1, E2, E3, E4, E5, E6, E7, F1, F2, F3, F4, F5, F6, F7.
  repeat split.
Qed.

Lemma pv_only_figures_ignore_battery_witness :
  exists r r',
    Economic.calculate_complete_economic_analysis 228.7 164830
      Sample.pv_monthly 200000 Sample.consumption_monthly (Some 1600) None
      (Some 130987) None = Ok r /\
    Economic.calculate_complete_economic_analysis 228.7 164830
      Sample.pv_monthly 200000 Sample.consumption_monthly None None None None
    = Ok r' /\
    Economic.pv_only_npv r = Economic.pv_only_npv r' /\
    Economic.lcoe r = Economic.lcoe r'.
Proof.
  destruct (battery_branch_returns 228.7 164830 Sample.pv_monthly 200000
              Sample.consumption_monthly None 1600 130987 None)
    as [s1 [s2 [inc [l [_ [_ [_ Hr]]]]]]].
  { discriminate. }
  { simpl; lia. }
  { simpl; lia. }
  { intro H; vm_compute in H; discriminate H. }
  { intro H; vm_compute in H; discriminate H. }
  { intro H; vm_compute in H; discriminate H. }
  { intro H; vm_compute in H; discriminate H. }
  destruct (fallback_returns 228.7 164830 Sample.pv_monthly 200000
              Sample.consumption_monthly None None None None)
    as [r' [Hr' _]].
  { reflexivity. }
  { simpl; lia. }
  { simpl; lia. }
  { intro H; vm_compute in H; discriminate H. }
  { intro H; vm_compute in H; discriminate H. }
  eexists. exists r'. split; [exact Hr|]. split; [exact Hr'|].
  destruct (pv_only_figures_ignore_battery _ _ _ _ _ _ _ _ _ _ _ _ _ _
              Hr Hr') as [E1 [_ [_ [_ [_ [_ E7]]]]]].
  split; [exact E1 | exact E7].
Defined.

(** ** The capacity search on any input *)

(** X11.  On monthly vectors of at least twelve values whose first month is
    not in surplus, with a non-zero efficiency, a positive capital cost per
    kWh, a non-negative opex percentage and a total consumption between 1
    and 1e100 kWh (so that the candidates and the step are normal numbers),
    the capacity search ends within 192 iterations and returns its first
    candidate, 10% of the average monthly consumption: the production, the
    electricity price and the feed-in tariff have no influence on the
    result. *)
Theorem capacity_search_returns_first_candidate
        (pv : list Q) (profile : Bess.ConsumptionProfile)
        (params : Bess.BESSParameters) (price tariff : Q) (fuel : nat) :
  ~ Bess.efficiency params == 0 ->
  (12 <= List.length pv)%nat ->
  (12 <= List.length (Bess.monthly_kwh profile))%nat ->
  nth 0 pv 0 <= nth 0 (Bess.monthly_kwh profile) 0 ->
  0 < Bess.capex_per_kwh params ->
  0 <= Bess.opex_annual_percent params ->
  1 <= sum (Bess.monthly_kwh profile) ->
  sum (Bess.monthly_kwh profile) <= 1e100 ->
  (192 <= fuel)%nat ->
  Bess._optimize_bess_capacity fuel pv profile params price tariff
  = Some (Ok (sum (Bess.monthly_kwh profile) / 12 * 0.1)).
Proof.
  intros He Hp Hc Hjan Hcap Hopex Hlo _ Hfuel.
  assert (Hsum : 0 < sum (Bess.monthly_kwh profile)) by lra.
  exact (search_returns_minimum pv profile params price tariff
           He Hp Hc Hjan Hcap Hopex Hsum fuel Hfuel).
Qed.

Lemma capacity_search_returns_first_candidate_witness :
  Bess._optimize_bess_capacity 200 Sample.pv_monthly Sample.profile
    Bess.default_parameters 0.25 0.05
  = Some (Ok (sum (Bess.monthly_kwh Sample.profile) / 12 * 0.1)).
Proof.
  apply capacity_search_returns_first_candidate.
  - intro H; vm_compute in H; discriminate H.
  - simpl; lia.
  - simpl; lia.
  - vm_compute; discriminate.
  - reflexivity.
  - discriminate.
  - vm_compute; discriminate.
  - vm_compute; discriminate.
  - lia.
Defined.

(** X12.  On monthly vectors of at least twelve values whose first month is
    not in surplus and with a non-zero efficiency, a monthly consumption
    that sums to zero makes the first candidate, the upper bound and the
    step of the capacity search all zero: the loop tests the same candidate
    again and again and never returns, whatever the number of iterations
    allowed.  (With a first month in surplus the first candidate raises
    instead, see X13.) *)
Theorem capacity_search_never_ends_without_consumption
        (pv : list Q) (profile : Bess.ConsumptionProfile)
        (params : Bess.BESSParameters) (price tariff : Q) :
  (12 <= List.length pv)%nat ->
  (12 <= List.length (Bess.monthly_kwh profile))%nat ->
  ~ Bess.efficiency params == 0 ->
  nth 0 pv 0 <= nth 0 (Bess.monthly_kwh profile) 0 ->
  sum (Bess.monthly_kwh profile) == 0 ->
  forall fuel,
    Bess._optimize_bess_capacity fuel pv profile params price tariff = None.
Proof.
  intros Hp Hc He Hjan Hsum fuel.
  exact (search_never_returns pv profile params price tariff
           Hp Hc He Hjan Hsum fuel).
Qed.

Lemma capacity_search_never_ends_without_consumption_witness :
  Bess._optimize_bess_capacity 1000 Sample.no_production Sample.idle
    Bess.default_parameters 0.25 0.05 = None.
Proof.
  apply capacity_search_never_ends_without_consumption.
  - simpl; lia.
  - simpl; lia.
  - intro H; vm_compute in H; discriminate H.
  - vm_compute; discriminate.
  - reflexivity.
Defined.

(** X13.  When the first month is a month of surplus the battery scenario
    reads the local [battery_discharge] before any month has assigned it
    and raises UnboundLocalError; with a non-negative total consumption the
    capacity search raises it on its first candidate. *)
Theorem surplus_january_raises_unbound_local
        (pv : list Q) (profile : Bess.ConsumptionProfile)
        (params : Bess.BESSParameters) (price tariff : Q) :
  (12 <= List.length pv)%nat ->
  (12 <= List.length (Bess.monthly_kwh profile))%nat ->
  ~ Bess.efficiency params == 0 ->
  nth 0 (Bess.monthly_kwh profile) 0 < nth 0 pv 0 ->
  (forall capacity,
      Bess._calculate_bess_scenario pv (Bess.monthly_kwh profile) capacity
        params price tariff = Raise UnboundLocalError) /\
  (0 <= sum (Bess.monthly_kwh profile) ->
   forall fuel,
     Bess._optimize_bess_capacity (S fuel) pv profile params price tariff
     = Some (Raise UnboundLocalError)).
Proof.
  intros Hp Hc He Hjan.
  assert (Hscenario : forall capacity,
             Bess._calculate_bess_scenario pv (Bess.monthly_kwh profile)
               capacity params price tariff = Raise UnboundLocalError).
  { intro capacity.
    exact (january_surplus_unbound pv profile params price tariff
             Hp Hc He capacity Hjan). }
  split; [exact Hscenario|].
  intros Hsum fuel. unfold Bess._optimize_bess_capacity.
  cbn [Bess.search_loop Bess.current_capacity].
  assert (E : leb (sum (Bess.monthly_kwh profile) / 12 * 0.1)
                  (sum (Bess.monthly_kwh profile) / 12 * 2) = true).
  { apply leb_le. set (t := sum (Bess.monthly_kwh profile)) in *.
    assert (0 <= t / 12).
    { unfold Qdiv. apply Qmult_le_0_compat; [exact Hsum | discriminate]. }
    set (a := t / 12) in *. lra. }
  rewrite E. unfold Bess.candidate_npv. rewrite Hscenario. reflexivity.
Qed.

Lemma surplus_january_raises_unbound_local_witness :
  Bess._calculate_bess_scenario Sample.pv_monthly
    (Bess.monthly_kwh Sample.light_january) 1000 Bess.default_parameters
    0.25 0.05 = Raise UnboundLocalError /\
  Bess._optimize_bess_capacity 1 Sample.pv_monthly Sample.light_january
    Bess.default_parameters 0.25 0.05 = Some (Raise UnboundLocalError).
Proof.
  destruct (surplus_january_raises_unbound_local Sample.pv_monthly
              Sample.light_january Bess.default_parameters 0.25 0.05)
    as [Hscenario Hsearch].
  - simpl; lia.
  - simpl; lia.
  - intro H; vm_compute in H; discriminate H.
  - reflexivity.
  - split; [apply Hscenario|]. apply Hsearch. vm_compute. discriminate.
Defined.

(** ** The months of the battery scenario *)

Section DispatchMonths.

Variables (pv consumption : list Q) (usable : Q) (params : Bess.BESSParameters).

Lemma getitem_inv {A} (l : list A) (i : nat) (d x : A) :
  getitem l i = Ok x -> (i < List.length l)%nat /\ x = nth i l d.
Proof.
  intro H. destruct (Nat.lt_ge_cases i (List.length l)) as [Hi|Hi].
  - split; [exact Hi|]. rewrite (getitem_ok l i d Hi) in H. congruence.
  - rewrite (getitem_out l i Hi) in H. discriminate H.
Qed.

Lemma truediv_inv (a b q : Q) :
  truediv a b = Ok q -> ~ b == 0 /\ q = a / b.
Proof.
  intro H. destruct (Qeq_dec b 0) as [E|E].
  - rewrite (truediv_zero a b E) in H. discriminate H.
  - split; [exact E|]. rewrite (truediv_ok a b E) in H. congruence.
Qed.

(** one month of the loop: the entry it appends and the state it leaves *)
Lemma dispatch_step (i : nat) (months : list nat)
      (st st' : Bess.DispatchState) :
  Bess.dispatch_loop (i :: months) pv consumption usable params st = Ok st' ->
  exists m d,
    Reference.dispatched pv consumption usable (Bess.efficiency params) i m /\
    Bess.dispatch_loop months pv consumption usable params
      {| Bess.battery_discharge := d;
         Bess.total_energy_throughput :=
           Bess.total_energy_throughput st + Bess.Month.throughput m;
         Bess.monthly_results := Bess.monthly_results st ++ [m] |} = Ok st'.
Proof.
  intro H. cbn [Bess.dispatch_loop] in H.
  destruct (getitem pv i) as [p|e] eqn:Hp; cbn [bind] in H;
    [|discriminate H].
  destruct (getitem consumption i) as [c|e] eqn:Hc; cbn [bind] in H;
    [|discriminate H].
  destruct (getitem Bess.days_in_month i) as [days|e] eqn:Hd;
    cbn [bind] in H; [|discriminate H].
  destruct (getitem_inv pv i 0 p Hp) as [Hip ->].
  destruct (getitem_inv consumption i 0 c Hc) as [Hic ->].
  pose proof (days_positive i days Hd) as Hpos.
  assert (Hnz : ~ days == 0) by lra.
  rewrite (truediv_ok (nth i pv 0) days Hnz) in H. cbn [bind] in H.
  rewrite (truediv_ok (nth i consumption 0) days Hnz) in H. cbn [bind] in H.
  destruct (gtb (nth i pv 0 / days) (nth i consumption 0 / days)) eqn:E.
  - destruct (truediv usable (Bess.efficiency params)) as [loss|e] eqn:Hl;
      cbn [bind] in H; [|discriminate H].
    destruct (truediv_inv _ _ _ Hl) as [He ->].
    destruct (Bess.battery_discharge st) as [prior|] eqn:Hprior;
      cbn [Bess.load_local bind] in H; [|discriminate H].
    exists (Reference.surplus_month (nth i pv 0) (nth i consumption 0) days
              usable (Bess.efficiency params) prior), (Some prior).
    split; [|exact H].
    exists days. split; [exact Hd|]. split; [exact Hip|].
    split; [exact Hic|]. left.
    split; [exact (daily_surplus _ _ _ Hpos E)|]. split; [exact He|].
    exists prior. reflexivity.
  - cbn [bind Bess.load_local] in H.
    exists (Reference.deficit_month (nth i pv 0) (nth i consumption 0) days
              usable).
    eexists. split; [|exact H].
    exists days. split; [exact Hd|]. split; [exact Hip|].
    split; [exact Hic|]. right. split; [|reflexivity].
    apply gtb_le in E. unfold Qdiv in E.
    apply Qmult_le_r in E; [exact E|]. now apply Qinv_lt_0_compat.
Qed.

(** the months of a run that ends: one entry for each month, appended in
    order, and a throughput that is the sum over the entries *)
Lemma dispatch_loop_entries (months : list nat) :
  forall st st',
    Bess.dispatch_loop months pv consumption usable params st = Ok st' ->
    exists entries,
      Bess.monthly_results st' = Bess.monthly_results st ++ entries /\
      Bess.total_energy_throughput st'
      == Bess.total_energy_throughput st
         + sum (map Bess.Month.throughput entries) /\
      Forall2 (Reference.dispatched pv consumption usable
                 (Bess.efficiency params)) months entries.
Proof.
  induction months as [|i months IH]; intros st st' H.
  - cbn [Bess.dispatch_loop] in H. injection H as <-.
    exists []. rewrite app_nil_r. split; [reflexivity|].
    split; [change (sum (map Bess.Month.throughput [])) with 0; ring|].
    constructor.
  - destruct (dispatch_step i months st st' H) as [m [d [Hm Hrest]]].
    destruct (IH _ _ Hrest) as [entries [Hres [Hthr Hall]]].
    cbn [Bess.monthly_results Bess.total_energy_throughput] in Hres, Hthr.
    exists (m :: entries). split; [|split].
    + rewrite Hres, <- app_assoc. reflexivity.
    + rewrite Hthr. cbn [map]. rewrite sum_cons. ring.
    + now constructor.
Qed.

End DispatchMonths.

(** the same for the scenario as a whole *)
Lemma scenario_entries (pv consumption : list Q) (capacity : Q)
      (params : Bess.BESSParameters) (price tariff : Q)
      (sc : Bess.Scenario.t) :
  Bess._calculate_bess_scenario pv consumption capacity params price tariff
  = Ok sc ->
  Forall2 (Reference.dispatched pv consumption (capacity * Bess.dod params)
             (Bess.efficiency params))
          (range 12) (Bess.Scenario.monthly_results sc) /\
  Bess.Scenario.annual_self_consumption sc
  = sum (map Bess.Month.self_consumption (Bess.Scenario.monthly_results sc)) /\
  Bess.Scenario.annual_grid_import sc
  = sum (map Bess.Month.grid_import (Bess.Scenario.monthly_results sc)) /\
  Bess.Scenario.annual_grid_export sc
  = sum (map Bess.Month.grid_export (Bess.Scenario.monthly_results sc)) /\
  Bess.Scenario.daily_energy_throughput sc
  == sum (map Bess.Month.throughput (Bess.Scenario.monthly_results sc)) / 365.
Proof.
  unfold Bess._calculate_bess_scenario.
  destruct (Bess.dispatch_loop _ _ _ _ _ _) as [st|e] eqn:Hst;
    cbn [bind]; [|intro H; discriminate H].
  rewrite truediv_ok by discriminate. cbn [bind].
  intro H. injection H as <-.
  cbn [Bess.Scenario.monthly_results Bess.Scenario.annual_self_consumption
       Bess.Scenario.annual_grid_import Bess.Scenario.annual_grid_export
       Bess.Scenario.daily_energy_throughput].
  destruct (dispatch_loop_entries _ _ _ _ _ _ _ Hst) as [entries [Hres [Hthr Hall]]].
  cbn [Bess.monthly_results Bess.total_energy_throughput app] in Hres, Hthr.
  rewrite Hres. split; [exact Hall|]. repeat split.
  rewrite Hthr. field.
Qed.


Section MonthProperties.

Variables (pv consumption : list Q) (usable efficiency : Q).

Lemma times_days (x days : Q) : 0 < days -> 0 <= x -> 0 <= x * days.
Proof. intros Hd Hx. apply Qmult_le_0_compat; lra. Qed.

Lemma max2_nonneg (x : Q) : 0 <= max2 0 x.
Proof. destruct (max2_cases 0 x) as [[H ->]|[H ->]]; lra. Qed.

(** every dispatched month imports or exports, never both *)
Lemma dispatched_sound (i : nat) (m : Bess.Month.t) :
  Reference.dispatched pv consumption usable efficiency i m ->
  Reference.month_sound m.
Proof.
  intros [days [Hd [_ [_ H]]]].
  pose proof (days_positive i days Hd) as Hpos.
  destruct H as [[Hs [He [prior ->]]]|[Hs ->]];
    unfold Reference.month_sound, Reference.surplus_month,
      Reference.deficit_month;
    cbn [Bess.Month.grid_import Bess.Month.grid_export].
  - split; [rewrite Qmult_0_l; apply Qle_refl|].
    split; [apply times_days; [exact Hpos | apply max2_nonneg]|].
    left. ring.
  - split; [apply times_days; [exact Hpos | apply max2_nonneg]|].
    split; [rewrite Qmult_0_l; apply Qle_refl|].
    right. ring.
Qed.

End MonthProperties.

Section MonthSums.

Lemma sum_Forall2_eq {A B} (f : A -> Q) (g : B -> Q) (l1 : list A)
      (l2 : list B) :
  Forall2 (fun a b => g b == f a) l1 l2 ->
  sum (map g l2) == sum (map f l1).
Proof.
  induction 1 as [|a b l1 l2 H _ IH]; [reflexivity|].
  cbn [map]. rewrite !sum_cons, H, IH. reflexivity.
Qed.

Lemma sum_Forall2_lt {A B} (f : A -> Q) (g : B -> Q) (l1 : list A)
      (l2 : list B) :
  Forall2 (fun a b => f a < g b) l1 l2 ->
  l1 <> [] ->
  sum (map f l1) < sum (map g l2).
Proof.
  induction 1 as [|a b l1 l2 H Hall IH]; intro Hne; [congruence|].
  cbn [map]. rewrite !sum_cons.
  destruct l1 as [|a' l1].
  - inversion Hall; subst. change (sum (map f [])) with 0.
    change (sum (map g [])) with 0. lra.
  - assert (sum (map f (a' :: l1)) < sum (map g l2)) by (apply IH; congruence).
    lra.
Qed.

Lemma Forall2_nonneg {A B} (R : A -> B -> Prop) (g : B -> Q) (l1 : list A)
      (l2 : list B) :
  (forall a b, R a b -> 0 <= g b) ->
  Forall2 R l1 l2 -> 0 <= sum (map g l2).
Proof.
  intros Himp. induction 1 as [|a b l1 l2 H _ IH]; [apply Qle_refl|].
  cbn [map]. rewrite sum_cons. pose proof (Himp a b H). lra.
Qed.

End MonthSums.

Section DeficitYear.

Variables (pv consumption : list Q) (usable : Q) (params : Bess.BESSParameters).

(** months of deficit run whatever the efficiency is: the division by the
    efficiency belongs to the branch of surplus *)
Lemma deficit_loop_runs (months : list nat) :
  forall st,
    (forall i, In i months ->
               (i < 12)%nat /\ (i < List.length pv)%nat /\
               (i < List.length consumption)%nat /\
               nth i pv 0 <= nth i consumption 0) ->
    exists st',
      Bess.dispatch_loop months pv consumption usable params st = Ok st'.
Proof.
  induction months as [|i months IH]; intros st Hin.
  - now exists st.
  - cbn [Bess.dispatch_loop].
    destruct (Hin i (or_introl eq_refl)) as [Hi [Hp [Hc Hdef]]].
    rewrite (getitem_ok pv i 0 Hp). cbn [bind].
    rewrite (getitem_ok consumption i 0 Hc). cbn [bind].
    destruct (days_total i Hi) as [days Hdays]. rewrite Hdays. cbn [bind].
    pose proof (days_positive i days Hdays) as Hpos.
    assert (Hnz : ~ days == 0) by lra.
    rewrite (truediv_ok (nth i pv 0) days Hnz). cbn [bind].
    rewrite (truediv_ok (nth i consumption 0) days Hnz). cbn [bind].
    destruct (gtb (nth i pv 0 / days) (nth i consumption 0 / days)) eqn:E.
    + exfalso. pose proof (daily_surplus _ _ _ Hpos E). lra.
    + cbn [bind Bess.load_local]. apply IH.
      intros j Hj. apply Hin. now right.
Qed.

(** a month of strict deficit served by a battery of positive usable
    capacity: more energy is self-consumed than the month produces, and
    nothing is exported *)
Lemma deficit_month_overdrawn (efficiency : Q) (i : nat) (m : Bess.Month.t) :
  0 < usable ->
  nth i pv 0 < nth i consumption 0 ->
  Reference.dispatched pv consumption usable efficiency i m ->
  nth i pv 0 < Bess.Month.self_consumption m /\
  Bess.Month.grid_export m == 0.
Proof.
  intros Hu Hdef [days [Hd [_ [_ H]]]].
  pose proof (days_positive i days Hd) as Hpos.
  destruct H as [[Hs _]|[_ ->]]; [lra|].
  unfold Reference.deficit_month.
  cbn [Bess.Month.self_consumption Bess.Month.grid_export].
  split; [|ring].
  set (p := nth i pv 0) in *. set (c := nth i consumption 0) in *.
  assert (Hdaily : 0 < c / days - p / days).
  { setoid_replace (c / days - p / days) with ((c - p) / days)
      by (field; lra).
    apply Qlt_shift_div_l; [exact Hpos | lra]. }
  assert (Hmin : 0 < min2 (c / days - p / days) usable).
  { destruct (min2_cases (c / days - p / days) usable) as [[_ ->]|[_ ->]];
      assumption. }
  set (x := min2 (c / days - p / days) usable) in *.
  setoid_replace ((p / days + x) * days) with (p + x * days)
    by (field; lra).
  assert (0 < x * days) by (apply Qmult_lt_0_compat; assumption).
  lra.
Qed.

End DeficitYear.

(** X14.  A battery scenario that returns holds twelve months, and in each
    of them the grid import and the grid export are not negative and one
    of the two is zero: no month both imports and exports.  The annual
    import and export are not negative either. *)
Theorem battery_months_never_import_and_export
        (pv consumption : list Q) (capacity : Q)
        (params : Bess.BESSParameters) (price tariff : Q)
        (sc : Bess.Scenario.t) :
  Bess._calculate_bess_scenario pv consumption capacity params price tariff
  = Ok sc ->
  Forall Reference.month_sound (Bess.Scenario.monthly_results sc) /\
  List.length (Bess.Scenario.monthly_results sc) = 12%nat /\
  0 <= Bess.Scenario.annual_grid_import sc /\
  0 <= Bess.Scenario.annual_grid_export sc.
Proof.
  intro H.
  destruct (scenario_entries _ _ _ _ _ _ _ H) as [Hall [_ [Hi [He _]]]].
  assert (Hsound : Forall2 (fun (_ : nat) m => Reference.month_sound m)
                     (range 12) (Bess.Scenario.monthly_results sc)).
  { revert Hall. apply Forall2_impl. intros i m.
    apply dispatched_sound. }
  split; [|split; [|split]].
  - clear -Hsound. induction Hsound; constructor; assumption.
  - rewrite <- (Forall2_length Hsound). reflexivity.
  - rewrite Hi. revert Hsound. apply Forall2_nonneg.
    intros i m Hm. apply Hm.
  - rewrite He. revert Hsound. apply Forall2_nonneg.
    intros i m Hm. apply Hm.
Qed.

Lemma battery_months_never_import_and_export_witness :
  exists sc,
    Bess._calculate_bess_scenario Sample.pv_monthly
      (Bess.monthly_kwh Sample.heavy_january) 1600 Bess.default_parameters
      0.25 0.05 = Ok sc /\
    Forall Reference.month_sound (Bess.Scenario.monthly_results sc).
Proof.
  destruct (scenario_total Sample.pv_monthly Sample.heavy_january
              Bess.default_parameters 0.25 0.05) with (capacity := 1600)
    as [sc [Hsc _]].
  - intro H; vm_compute in H; discriminate H.
  - simpl; lia.
  - simpl; lia.
  - vm_compute; discriminate.
  - exists sc. split; [exact Hsc|].
    exact (proj1 (battery_months_never_import_and_export _ _ _ _ _ _ _ Hsc)).
Defined.

(** X15.  The monthly dispatch keeps no state of charge.  When every one of
    the twelve months produces less than it consumes, so that the battery
    is never charged, a battery of positive usable capacity still
    discharges every day: the scenario returns, exports nothing, and its
    annual self-consumption exceeds the production of the twelve months. *)
Theorem deficit_year_self_consumption_exceeds_production
        (pv consumption : list Q) (capacity : Q)
        (params : Bess.BESSParameters) (price tariff : Q) :
  (12 <= List.length pv)%nat ->
  (12 <= List.length consumption)%nat ->
  (forall i, (i < 12)%nat -> nth i pv 0 < nth i consumption 0) ->
  0 < capacity * Bess.dod params ->
  exists sc,
    Bess._calculate_bess_scenario pv consumption capacity params price tariff
    = Ok sc /\
    sum (firstn 12 pv) < Bess.Scenario.annual_self_consumption sc /\
    Bess.Scenario.annual_grid_export sc == 0.
Proof.
  intros Hp Hc Hdef Hu.
  assert (Hmonths : forall i, In i (range 12) -> (i < 12)%nat).
  { intros i Hi. unfold range in Hi. apply in_seq in Hi.
    change (Z.to_nat 12) with 12%nat in Hi. lia. }
  destruct (deficit_loop_runs pv consumption (capacity * Bess.dod params)
              params (range 12)
              {| Bess.battery_discharge := None;
                 Bess.total_energy_throughput := 0;
                 Bess.monthly_results := [] |}) as [st Hst].
  { intros i Hi. pose proof (Hmonths i Hi) as H12.
    pose proof (Hdef i H12). repeat split; try lia. lra. }
  assert (Hsc : exists sc,
             Bess._calculate_bess_scenario pv consumption capacity params
               price tariff = Ok sc).
  { unfold Bess._calculate_bess_scenario. rewrite Hst. cbn [bind].
    rewrite truediv_ok by discriminate. cbn [bind]. eexists. reflexivity. }
  destruct Hsc as [sc Hsc]. exists sc. split; [exact Hsc|].
  destruct (scenario_entries _ _ _ _ _ _ _ Hsc) as [Hall [Hs [_ [He _]]]].
  assert (Hover : forall l entries,
             (forall i, In i l -> (i < 12)%nat) ->
             Forall2 (Reference.dispatched pv consumption
                        (capacity * Bess.dod params) (Bess.efficiency params))
                     l entries ->
             Forall2 (fun i m =>
                        nth i pv 0 < Bess.Month.self_consumption m /\
                        Bess.Month.grid_export m == 0) l entries).
  { intros l entries Hl. induction 1 as [|i m l entries Hm _ IH];
      constructor.
    - apply (deficit_month_overdrawn pv consumption _
               (Bess.efficiency params) i m Hu);
        [apply Hdef, Hl; now left | exact Hm].
    - apply IH. intros j Hj. apply Hl. now right. }
  specialize (Hover _ _ Hmonths Hall).
  split.
  - rewrite Hs, <- (map_nth_seq 0 pv 12 Hp).
    apply (sum_Forall2_lt (fun i => nth i pv 0) Bess.Month.self_consumption).
    + revert Hover. apply Forall2_impl. intros i m Hm. apply Hm.
    + discriminate.
  - rewrite He.
    rewrite (sum_Forall2_eq (fun _ : nat => 0) Bess.Month.grid_export
               (range 12)).
    + clear. unfold range. change (Z.to_nat 12) with 12%nat.
      generalize (seq 0 12). intro l. induction l as [|x l IH];
        [reflexivity|]. cbn [map]. rewrite sum_cons, IH. ring.
    + revert Hover. apply Forall2_impl. intros i m Hm. apply Hm.
Qed.

Lemma deficit_year_self_consumption_exceeds_production_witness :
  exists sc,
    Bess._calculate_bess_scenario Sample.no_production
      (Bess.monthly_kwh Sample.heavy_january) 1600 Bess.default_parameters
      0.25 0.05 = Ok sc /\
    sum (firstn 12 Sample.no_production)
    < Bess.Scenario.annual_self_consumption sc.
Proof.
  destruct (deficit_year_self_consumption_exceeds_production
              Sample.no_production (Bess.monthly_kwh Sample.heavy_january)
              1600 Bess.default_parameters 0.25 0.05)
    as [sc [Hsc [Hover _]]].
  - simpl; lia.
  - simpl; lia.
  - intros i Hi.
    do 12 (destruct i as [|i]; [reflexivity|]). lia.
  - reflexivity.
  - exists sc. split; [exact Hsc | exact Hover].
Defined.

(** ** The approximate IRR and the technical metrics of the battery *)

Section Clamp.

Lemma clamp_bounds (lo hi x : Q) :
  lo <= hi -> lo <= max2 lo (min2 hi x) /\ max2 lo (min2 hi x) <= hi.
Proof.
  intro H.
  destruct (min2_cases hi x) as [[H1 ->]|[H1 ->]];
    match goal with
    | |- context [max2 lo ?y] =>
        destruct (max2_cases lo y) as [[H2 ->]|[H2 ->]]
    end; lra.
Qed.

Lemma inject_Z_zero (n : Z) : inject_Z n == 0 <-> n = 0%Z.
Proof.
  split; intro H.
  - apply (inject_Z_injective n 0). exact H.
  - subst. reflexivity.
Qed.

End Clamp.

(** X17.  The approximate IRR is 0 for a cash flow that is not positive,
    whatever the investment and the number of years are; a value it
    returns lies between 0 and 100; and it raises exactly when the cash
    flow is positive and the investment or the number of years is zero,
    the error being ZeroDivisionError. *)
Theorem irr_approximation_clamped_or_zero_division
        (investment cashflow : Q) (years : Z) :
  (cashflow <= 0 ->
   Bess._calculate_irr_approximation investment cashflow years = Ok 0) /\
  (forall r,
      Bess._calculate_irr_approximation investment cashflow years = Ok r ->
      0 <= r /\ r <= 100) /\
  (forall e,
      Bess._calculate_irr_approximation investment cashflow years = Raise e
      <-> e = ZeroDivisionError /\ 0 < cashflow /\
          (investment == 0 \/ years = 0%Z)).
Proof.
  unfold Bess._calculate_irr_approximation.
  destruct (leb cashflow 0) eqn:E.
  - apply leb_le in E. split; [reflexivity|]. split.
    + intros r H. injection H as <-. split; [apply Qle_refl | discriminate].
    + intro e. split; [intro H; discriminate H|]. intros [_ [H _]]. lra.
  - apply leb_gt in E. split; [intro H; lra|].
    destruct (Qeq_dec investment 0) as [Hi|Hi].
    { rewrite (truediv_zero cashflow investment Hi). cbn [bind]. split.
      - intros r H. discriminate H.
      - intro e. split.
        + intro H. injection H as <-. split; [reflexivity|].
          split; [exact E | now left].
        + intros [-> _]. reflexivity. }
    rewrite (truediv_ok cashflow investment Hi). cbn [bind].
    destruct (Z.eq_dec years 0) as [Hy|Hy].
    { assert (Hq : inject_Z years == 0) by now apply inject_Z_zero.
      rewrite (truediv_zero 1 (inject_Z years) Hq). cbn [bind]. split.
      - intros r H. discriminate H.
      - intro e. split.
        + intro H. injection H as <-. split; [reflexivity|].
          split; [exact E | now right].
        + intros [-> _]. reflexivity. }
    assert (Hq : ~ inject_Z years == 0).
    { intro H. apply Hy. now apply inject_Z_zero. }
    rewrite (truediv_ok 1 (inject_Z years) Hq). cbn [bind]. split.
    + intros r H. injection H as <-. apply clamp_bounds. discriminate.
    + intro e. split; [intro H; discriminate H|].
      intros [_ [_ [H|H]]]; contradiction.
Qed.

Lemma irr_approximation_clamped_or_zero_division_witness :
  Bess._calculate_irr_approximation 0 (-5) 0 = Ok 0 /\
  Bess._calculate_irr_approximation 0 5 20 = Raise ZeroDivisionError.
Proof.
  split.
  - apply (proj1 (irr_approximation_clamped_or_zero_division 0 (-5) 0)).
    discriminate.
  - apply (proj2 (proj2 (irr_approximation_clamped_or_zero_division 0 5 20))
             ZeroDivisionError).
    split; [reflexivity|]. split; [reflexivity|]. left. reflexivity.
Defined.

(** X18.  The technical metrics are always returned.  The capacity
    retention after twenty years is never below [1 - 0.8], the complement
    of the 80% cap on the degradation, and not above 1 when the annual
    degradation is not negative; the total cycles are the daily cycles
    times 365 times 20; with a positive usable capacity the daily cycles
    are the daily throughput over twice the usable capacity, and otherwise
    they are 0. *)
Theorem technical_metrics_are_bounded
        (capacity throughput : Q) (params : Bess.BESSParameters) :
  exists m,
    Bess._calculate_technical_metrics capacity throughput params = Ok m /\
    1 - 0.8 <= Bess.Metrics.capacity_retention_20_years m /\
    (0 <= Bess.degradation_annual params ->
     Bess.Metrics.capacity_retention_20_years m <= 1) /\
    Bess.Metrics.total_cycles_20_years m
    = Bess.Metrics.daily_cycles m * 365 * 20 /\
    (0 < capacity * Bess.dod params ->
     Bess.Metrics.daily_cycles m
     = throughput / (2 * (capacity * Bess.dod params))) /\
    (capacity * Bess.dod params <= 0 -> Bess.Metrics.daily_cycles m = 0).
Proof.
  unfold Bess._calculate_technical_metrics.
  assert (Hret : 1 - 0.8
                 <= 1 - min2 0.8 (Bess.degradation_annual params * 20) /\
                 (0 <= Bess.degradation_annual params ->
                  1 - min2 0.8 (Bess.degradation_annual params * 20) <= 1)).
  { destruct (min2_cases 0.8 (Bess.degradation_annual params * 20))
      as [[H ->]|[H ->]]; split; intros; lra. }
  destruct Hret as [Hlo Hhi].
  set (usable := capacity * Bess.dod params).
  destruct (gtb usable 0) eqn:E.
  - apply gtb_gt in E. rewrite truediv_ok by lra. cbn [bind].
    eexists. split; [reflexivity|].
    cbn [Bess.Metrics.capacity_retention_20_years
         Bess.Metrics.total_cycles_20_years Bess.Metrics.daily_cycles].
    split; [exact Hlo|]. split; [exact Hhi|]. split; [reflexivity|].
    split; [intros _; reflexivity | intro H; lra].
  - apply gtb_le in E. cbn [bind]. eexists. split; [reflexivity|].
    cbn [Bess.Metrics.capacity_retention_20_years
         Bess.Metrics.total_cycles_20_years Bess.Metrics.daily_cycles].
    split; [exact Hlo|]. split; [exact Hhi|]. split; [reflexivity|].
    split; [intro H; lra | reflexivity].
Qed.

Lemma technical_metrics_are_bounded_witness :
  exists m,
    Bess._calculate_technical_metrics 1600 1000 Bess.default_parameters
    = Ok m /\
    1 - 0.8 <= Bess.Metrics.capacity_retention_20_years m /\
    Bess.Metrics.capacity_retention_20_years m <= 1.
Proof.
  destruct (technical_metrics_are_bounded 1600 1000 Bess.default_parameters)
    as [m [Hm [Hlo [Hhi _]]]].
  exists m. split; [exact Hm|]. split; [exact Hlo|].
  apply Hhi. discriminate.
Defined.

(** ** The default consumption profile *)

(** X19.  The default consumption profile does not distribute the whole
    annual consumption it is built from: for an annual consumption between
    1 and 1e100 kWh its twelve monthly values, none of them negative, sum
    to between 95% and 97% of it (the twelve shares add up to 0.96). *)
Theorem default_profile_falls_short_of_annual (annual : Q) :
  1 <= annual ->
  annual <= 1e100 ->
  List.length (Bess.monthly_kwh
                 (Bess.create_default_consumption_profile annual)) = 12%nat /\
  Forall (fun x => 0 <= x)
         (Bess.monthly_kwh (Bess.create_default_consumption_profile annual)) /\
  0.95 * annual
  <= sum (Bess.monthly_kwh (Bess.create_default_consumption_profile annual)) /\
  sum (Bess.monthly_kwh (Bess.create_default_consumption_profile annual))
  <= 0.97 * annual.
Proof.
  intros Hlo _.
  unfold Bess.create_default_consumption_profile.
  cbn [Bess.monthly_kwh].
  split; [reflexivity|]. split.
  - apply Forall_forall. intros x Hx.
    apply in_map_iff in Hx. destruct Hx as [d [<- Hd]].
    apply Qmult_le_0_compat; [lra|].
    unfold Bess.monthly_distribution in Hd.
    repeat (destruct Hd as [<-|Hd]; [discriminate|]). contradiction.
  - rewrite (sum_map_scale annual (fun d => d)), map_id.
    assert (H : sum Bess.monthly_distribution == 0.96) by reflexivity.
    rewrite H. split; lra.
Qed.

Lemma default_profile_falls_short_of_annual_witness :
  0.95 * 200000 <= sum (Bess.monthly_kwh Sample.profile) /\
  sum (Bess.monthly_kwh Sample.profile) <= 0.97 * 200000.
Proof.
  destruct (default_profile_falls_short_of_annual 200000)
    as [_ [_ [Hlo Hhi]]].
  - discriminate.
  - vm_compute; discriminate.
  - split; [exact Hlo | exact Hhi].
Defined.

(** X20.  On a default consumption profile built from an annual
    consumption between 1 and 1e100 kWh the capacity search returns about
    0.8% of that annual consumption, between 0.79% and 0.81% of it,
    provided the production has at least twelve values, the first of them
    not above the January consumption of the profile, the efficiency is
    not zero, the capital cost per kWh is positive and the opex percentage
    is not negative. *)
Theorem default_profile_search_result
        (annual : Q) (pv : list Q) (params : Bess.BESSParameters)
        (price tariff : Q) (fuel : nat) :
  1 <= annual ->
  annual <= 1e100 ->
  (12 <= List.length pv)%nat ->
  nth 0 pv 0 <= annual * 0.09 ->
  ~ Bess.efficiency params == 0 ->
  0 < Bess.capex_per_kwh params ->
  0 <= Bess.opex_annual_percent params ->
  (192 <= fuel)%nat ->
  exists capacity,
    Bess._optimize_bess_capacity fuel pv
      (Bess.create_default_consumption_profile annual) params price tariff
    = Some (Ok capacity) /\
    0.0079 * annual <= capacity /\ capacity <= 0.0081 * annual.
Proof.
  intros Ha _ Hp Hjan He Hcap Hopex Hfuel.
  assert (Hsum : sum (Bess.monthly_kwh
                        (Bess.create_default_consumption_profile annual))
                 == 0.96 * annual).
  { unfold Bess.create_default_consumption_profile. cbn [Bess.monthly_kwh].
    rewrite (sum_map_scale annual (fun d => d)), map_id.
    assert (H : sum Bess.monthly_distribution == 0.96) by reflexivity.
    rewrite H. ring. }
  eexists. split.
  - apply (search_returns_minimum pv
             (Bess.create_default_consumption_profile annual) params price
             tariff He Hp).
    + simpl. lia.
    + exact Hjan.
    + exact Hcap.
    + exact Hopex.
    + rewrite Hsum. lra.
    + exact Hfuel.
  - unfold Reference.min_capacity. rewrite Hsum.
    setoid_replace (0.96 * annual / 12 * 0.1) with (0.008 * annual)
      by field.
    split; lra.
Qed.

Lemma default_profile_search_result_witness :
  exists capacity,
    Bess._optimize_bess_capacity 192 Sample.pv_monthly
      (Bess.create_default_consumption_profile 200000)
      Bess.default_parameters 0.25 0.05 = Some (Ok capacity) /\
    0.0079 * 200000 <= capacity /\ capacity <= 0.0081 * 200000.
Proof.
  apply default_profile_search_result.
  - discriminate.
  - vm_compute; discriminate.
  - simpl; lia.
  - vm_compute; discriminate.
  - intro H; vm_compute in H; discriminate H.
  - reflexivity.
  - discriminate.
  - lia.
Defined.

(** ** The economics of the battery *)

Section BatteryEconomics.

Lemma truediv_raises (a b : Q) (e : exn) :
  truediv a b = Raise e -> e = ZeroDivisionError.
Proof.
  unfold truediv. destruct (Qeq_bool b 0); intro H;
    [injection H as <-; reflexivity | discriminate H].
Qed.

Lemma npv_simple_loop_raises (cf rate : Q) (years : list nat) :
  forall acc e,
    Bess.npv_simple_loop cf rate years acc = Raise e ->
    e = ZeroDivisionError.
Proof.
  induction years as [|y years IH]; intros acc e H;
    cbn [Bess.npv_simple_loop] in H; [discriminate H|].
  destruct (truediv cf (pow (1 + rate) y)) as [t|e'] eqn:Ht;
    cbn [bind] in H.
  - exact (IH _ _ H).
  - injection H as <-. exact (truediv_raises _ _ _ Ht).
Qed.

Lemma irr_approximation_raises (investment cashflow : Q) (years : Z)
      (e : exn) :
  Bess._calculate_irr_approximation investment cashflow years = Raise e ->
  e = ZeroDivisionError.
Proof.
  unfold Bess._calculate_irr_approximation.
  destruct (leb cashflow 0); [intro H; discriminate H|].
  destruct (truediv cashflow investment) as [q|e1] eqn:H1; cbn [bind].
  - destruct (truediv 1 (inject_Z years)) as [q2|e2] eqn:H2; cbn [bind];
      intro H; [discriminate H|].
    injection H as <-. exact (truediv_raises _ _ _ H2).
  - intro H. injection H as <-. exact (truediv_raises _ _ _ H1).
Qed.

Lemma irr_approximation_returns (investment cashflow : Q) :
  ~ investment == 0 ->
  exists r, Bess._calculate_irr_approximation investment cashflow 20 = Ok r.
Proof.
  intro Hi. unfold Bess._calculate_irr_approximation.
  destruct (leb cashflow 0); [eexists; reflexivity|].
  rewrite (truediv_ok cashflow investment Hi). cbn [bind].
  rewrite truediv_ok by discriminate. cbn [bind]. eexists. reflexivity.
Qed.

Lemma sum_singleton (x : Q) : sum [x] == x.
Proof. rewrite sum_cons. change (sum []) with 0. ring. Qed.

(** the net cost of a baseline and of a battery scenario *)
Lemma baseline_net_cost (pv consumption : list Q) (price tariff : Q)
      (b : Bess.Baseline.t) :
  Bess._calculate_baseline_scenario pv consumption price tariff = Ok b ->
  Bess.Baseline.annual_net_cost b
  = Bess.Baseline.annual_grid_import b * price
    - Bess.Baseline.annual_grid_export b * tariff /\
  Bess.Baseline.annual_pv_production b = sum pv.
Proof.
  unfold Bess._calculate_baseline_scenario.
  destruct (Bess.baseline_monthly pv consumption) as [m|e]; cbn [bind];
    [|intro H; discriminate H].
  match goal with
  | |- (x <- ?r ;; _) = _ -> _ =>
      destruct r as [rate|e]; cbn [bind]; [|intro H; discriminate H]
  end.
  intro H. injection H as <-. split; reflexivity.
Qed.

Lemma scenario_net_cost (pv consumption : list Q) (capacity : Q)
      (params : Bess.BESSParameters) (price tariff : Q)
      (sc : Bess.Scenario.t) :
  Bess._calculate_bess_scenario pv consumption capacity params price tariff
  = Ok sc ->
  Bess.Scenario.annual_net_cost sc
  = Bess.Scenario.annual_grid_import sc * price
    - Bess.Scenario.annual_grid_export sc * tariff.
Proof.
  unfold Bess._calculate_bess_scenario.
  destruct (Bess.dispatch_loop _ _ _ _ _ _) as [st|e]; cbn [bind];
    [|intro H; discriminate H].
  rewrite truediv_ok by discriminate. cbn [bind].
  intro H. injection H as <-. reflexivity.
Qed.

(** the economics return when the baseline produces, the discount rate
    is above -1 and the capital cost is not zero *)
Lemma economics_return (b : Bess.Baseline.t) (sc : Bess.Scenario.t)
      (capacity : Q) (params : Bess.BESSParameters) (wacc : Q) :
  ~ Bess.Baseline.annual_pv_production b == 0 ->
  -1 < wacc ->
  ~ capacity * Bess.capex_per_kwh params == 0 ->
  exists d updated,
    Bess._calculate_economics (Bess.baseline_dict b) (Bess.scenario_dict sc)
      capacity params wacc = Ok (d, updated).
Proof.
  intros Hprod Hwacc Hcapex.
  unfold Bess._calculate_economics.
  cbn [Bess.field Bess.subscript Bess.baseline_dict Bess.scenario_dict
       Bess.lookup String.eqb Ascii.eqb Bool.eqb bind Bess.as_num
       Bess.setitem].
  set (capex := capacity * Bess.capex_per_kwh params) in *.
  set (net := Bess.Baseline.annual_net_cost b
              - Bess.Scenario.annual_net_cost sc
              - capex * Bess.opex_annual_percent params / 100).
  assert (Hpay : exists v,
             (if gtb net 0
              then q <- truediv capex net ;; Ok (Bess.VNum q)
              else Ok Bess.VInf) = Ok v).
  { destruct (gtb net 0) eqn:E; [|eexists; reflexivity].
    apply gtb_gt in E. rewrite truediv_ok by lra. eexists. reflexivity. }
  destruct Hpay as [v ->]. cbn [bind].
  unfold Bess._calculate_npv_simple.
  destruct (npv_simple_loop_value net wacc (range2 1 (20 + 1)) Hwacc
              (- capex)) as [n [-> _]].
  cbn [bind].
  destruct (irr_approximation_returns capex net Hcapex) as [r ->].
  cbn [bind].
  rewrite truediv_ok by (rewrite sum_singleton; exact Hprod).
  cbn [bind]. eexists. eexists. reflexivity.
Qed.

End BatteryEconomics.

(** X21.  The LCOE reduction divides the savings by the annual production
    of the baseline without the guard that the baseline itself applies to
    its self-consumption rate: with a baseline whose annual production is
    zero the economics of the battery raise ZeroDivisionError, whatever the
    scenario, the capacity, the parameters and the discount rate are. *)
Theorem economics_raise_without_production
        (b : Bess.Baseline.t) (sc : Bess.Scenario.t) (capacity : Q)
        (params : Bess.BESSParameters) (wacc : Q) :
  Bess.Baseline.annual_pv_production b == 0 ->
  Bess._calculate_economics (Bess.baseline_dict b) (Bess.scenario_dict sc)
    capacity params wacc = Raise ZeroDivisionError.
Proof.
  intro Hzero. unfold Bess._calculate_economics.
  cbn [Bess.field Bess.subscript Bess.baseline_dict Bess.scenario_dict
       Bess.lookup String.eqb Ascii.eqb Bool.eqb bind Bess.as_num
       Bess.setitem].
  set (capex := capacity * Bess.capex_per_kwh params).
  set (net := Bess.Baseline.annual_net_cost b
              - Bess.Scenario.annual_net_cost sc
              - capex * Bess.opex_annual_percent params / 100).
  assert (Hpay : exists v,
             (if gtb net 0
              then q <- truediv capex net ;; Ok (Bess.VNum q)
              else Ok Bess.VInf) = Ok v).
  { destruct (gtb net 0) eqn:E; [|eexists; reflexivity].
    apply gtb_gt in E. rewrite truediv_ok by lra. eexists. reflexivity. }
  destruct Hpay as [v ->]. cbn [bind].
  destruct (Bess._calculate_npv_simple net capex wacc 20) as [n|e] eqn:Hn;
    cbn [bind].
  - destruct (Bess._calculate_irr_approximation capex net 20) as [r|e]
      eqn:Hr; cbn [bind].
    + rewrite truediv_zero by (rewrite sum_singleton; exact Hzero).
      reflexivity.
    + f_equal. exact (irr_approximation_raises _ _ _ _ Hr).
  - f_equal. exact (npv_simple_loop_raises _ _ _ _ _ Hn).
Qed.

Lemma economics_raise_without_production_witness :
  exists b sc,
    Bess._calculate_baseline_scenario Sample.no_production
      (Bess.monthly_kwh Sample.heavy_january) 0.25 0.05 = Ok b /\
    Bess._calculate_bess_scenario Sample.no_production
      (Bess.monthly_kwh Sample.heavy_january) 1600 Bess.default_parameters
      0.25 0.05 = Ok sc /\
    Bess._calculate_economics (Bess.baseline_dict b) (Bess.scenario_dict sc)
      1600 Bess.default_parameters 0.05 = Raise ZeroDivisionError.
Proof.
  destruct (Bess._calculate_baseline_scenario Sample.no_production
              (Bess.monthly_kwh Sample.heavy_january) 0.25 0.05)
    as [b|e] eqn:Hb.
  - destruct (scenario_total Sample.no_production Sample.heavy_january
                Bess.default_parameters 0.25 0.05) with (capacity := 1600)
      as [sc [Hsc _]].
    + intro H; vm_compute in H; discriminate H.
    + simpl; lia.
    + simpl; lia.
    + vm_compute; discriminate.
    + exists b, sc. split; [reflexivity|]. split; [exact Hsc|].
      apply economics_raise_without_production.
      rewrite (proj2 (baseline_net_cost _ _ _ _ _ Hb)). reflexivity.
  - exfalso. vm_compute in Hb. discriminate Hb.
Defined.

(** X22.  For a baseline and a battery scenario computed from the same
    inputs, the economics of the battery, when they return, report as
    [savings_annual] the net cost of the baseline minus the net cost of the
    scenario, both at the electricity price and the feed-in tariff of the
    call, and write this value into the scenario dictionary in place of
    its placeholder.  The two parts of the breakdown are not priced at
    this price and tariff: [avoided_grid_cost] is the import difference
    times the constant 0.25 and [incentives_annual] the export difference
    times the constant 0.05. *)
Theorem economics_breakdown_uses_fixed_prices
        (pv consumption : list Q) (capacity : Q)
        (params : Bess.BESSParameters) (price tariff wacc : Q)
        (b : Bess.Baseline.t) (sc : Bess.Scenario.t)
        (d updated : Bess.value) :
  Bess._calculate_baseline_scenario pv consumption price tariff = Ok b ->
  Bess._calculate_bess_scenario pv consumption capacity params price tariff
  = Ok sc ->
  Bess._calculate_economics (Bess.baseline_dict b) (Bess.scenario_dict sc)
    capacity params wacc = Ok (d, updated) ->
  Bess.field d "savings_annual"
  = Ok (Bess.Baseline.annual_net_cost b - Bess.Scenario.annual_net_cost sc) /\
  Bess.field updated "annual_savings"
  = Ok (Bess.Baseline.annual_net_cost b - Bess.Scenario.annual_net_cost sc) /\
  Bess.Baseline.annual_net_cost b
  = Bess.Baseline.annual_grid_import b * price
    - Bess.Baseline.annual_grid_export b * tariff /\
  Bess.Scenario.annual_net_cost sc
  = Bess.Scenario.annual_grid_import sc * price
    - Bess.Scenario.annual_grid_export sc * tariff /\
  Bess.field d "avoided_grid_cost"
  = Ok ((Bess.Baseline.annual_grid_import b
         - Bess.Scenario.annual_grid_import sc) * 0.25) /\
  Bess.field d "incentives_annual"
  = Ok ((Bess.Scenario.annual_grid_export sc
         - Bess.Baseline.annual_grid_export b) * 0.05).
Proof.
  intros Hb Hsc.
  destruct (baseline_net_cost _ _ _ _ _ Hb) as [Hbc _].
  pose proof (scenario_net_cost _ _ _ _ _ _ _ Hsc) as Hsn.
  unfold Bess._calculate_economics.
  cbn [Bess.field Bess.subscript Bess.baseline_dict Bess.scenario_dict
       Bess.lookup String.eqb Ascii.eqb Bool.eqb bind Bess.as_num
       Bess.setitem].
  do 4 (match goal with
        | |- bind ?m _ = _ -> _ =>
            destruct m; cbn [bind]; [|intro H; discriminate H]
        end).
  intro H. injection H as <- <-.
  cbn [Bess.field Bess.subscript Bess.lookup String.eqb Ascii.eqb Bool.eqb
       bind Bess.as_num].
  split; [reflexivity|]. split; [reflexivity|].
  split; [exact Hbc|]. split; [exact Hsn|].
  split; reflexivity.
Qed.

Lemma economics_breakdown_uses_fixed_prices_witness :
  exists b sc d updated,
    Bess._calculate_baseline_scenario Sample.pv_monthly
      (Bess.monthly_kwh Sample.heavy_january) 0.30 0.04 = Ok b /\
    Bess._calculate_bess_scenario Sample.pv_monthly
      (Bess.monthly_kwh Sample.heavy_january) 1600 Bess.default_parameters
      0.30 0.04 = Ok sc /\
    Bess._calculate_economics (Bess.baseline_dict b) (Bess.scenario_dict sc)
      1600 Bess.default_parameters 0.05 = Ok (d, updated) /\
    Bess.field d "avoided_grid_cost"
    = Ok ((Bess.Baseline.annual_grid_import b
           - Bess.Scenario.annual_grid_import sc) * 0.25).
Proof.
  destruct (Bess._calculate_baseline_scenario Sample.pv_monthly
              (Bess.monthly_kwh Sample.heavy_january) 0.30 0.04)
    as [b|e] eqn:Hb.
  - destruct (scenario_total Sample.pv_monthly Sample.heavy_january
                Bess.default_parameters 0.30 0.04) with (capacity := 1600)
      as [sc [Hsc _]].
    + intro H; vm_compute in H; discriminate H.
    + simpl; lia.
    + simpl; lia.
    + vm_compute; discriminate.
    + destruct (economics_return b sc 1600 Bess.default_parameters 0.05)
        as [d [updated He]].
      * rewrite (proj2 (baseline_net_cost _ _ _ _ _ Hb)).
        intro H; vm_compute in H; discriminate H.
      * reflexivity.
      * intro H; vm_compute in H; discriminate H.
      * exists b, sc, d, updated.
        split; [reflexivity|]. split; [exact Hsc|]. split; [exact He|].
        exact (proj1 (proj2 (proj2 (proj2 (proj2
                 (economics_breakdown_uses_fixed_prices Sample.pv_monthly
                    (Bess.monthly_kwh Sample.heavy_january) 1600
                    Bess.default_parameters 0.30 0.04 0.05 b sc d updated
                    Hb Hsc He)))))).
  - exfalso. vm_compute in Hb. discriminate Hb.
Defined.

(** ** Monthly and annual netting in the two economic scenarios *)

Section Netting.

Lemma sum_positive (l : list Q) (x : Q) :
  Forall (fun y => 0 <= y) l -> In x l -> 0 < x -> 0 < sum l.
Proof.
  induction 1 as [|y l Hy Hl IH]; intros Hin Hx; [contradiction|].
  rewrite sum_cons. pose proof (sum_nonneg l Hl).
  destruct Hin as [->|Hin]; [lra|].
  pose proof (IH Hin Hx). lra.
Qed.

Variables pv consumption : list Q.

Lemma month_in_range (j : nat) : (j < 12)%nat -> In j (range 12).
Proof.
  intro H. unfold range. apply in_seq.
  change (Z.to_nat 12) with 12%nat. lia.
Qed.

(** a month of surplus leaves an annual export, a month of deficit an
    annual import *)
Lemma surplus_exports (j : nat) :
  (j < 12)%nat -> nth j consumption 0 < nth j pv 0 ->
  0 < sum (map (Reference.month_export pv consumption) (range 12)).
Proof.
  intros Hj Hs.
  apply (sum_positive _ (Reference.month_export pv consumption j)).
  - apply Forall_forall. intros x Hx. apply in_map_iff in Hx.
    destruct Hx as [i [<- _]]. apply max2_nonneg.
  - apply in_map. now apply month_in_range.
  - unfold Reference.month_export.
    destruct (max2_cases 0 (nth j pv 0 - nth j consumption 0))
      as [[H ->]|[H ->]]; lra.
Qed.

Lemma deficit_imports (k : nat) :
  (k < 12)%nat -> nth k pv 0 < nth k consumption 0 ->
  0 < sum (map (Reference.month_import pv consumption) (range 12)).
Proof.
  intros Hk Hs.
  apply (sum_positive _ (Reference.month_import pv consumption k)).
  - apply Forall_forall. intros x Hx. apply in_map_iff in Hx.
    destruct Hx as [i [<- _]]. apply max2_nonneg.
  - apply in_map. now apply month_in_range.
  - unfold Reference.month_import.
    destruct (max2_cases 0 (nth k consumption 0 - nth k pv 0))
      as [[H ->]|[H ->]]; lra.
Qed.

End Netting.

(** X23.  The PV-only scenario nets production against consumption month by
    month, the PV+BESS scenario nets the annual totals and then adds the
    increase.  With twelve monthly values whose sum is the annual
    production, one month in surplus and another in deficit, the
    self-consumption of the PV+BESS scenario exceeds that of the PV-only
    scenario by more than the increase attributed to the battery. *)
Theorem battery_scenario_nets_annually
        (kwp annual : Q) (pv consumption : list Q) (capacity increase : Q)
        (p : Economic.EconomicParameters) (s1 s2 : Economic.Scenario)
        (j k : nat) :
  (12 <= List.length pv)%nat ->
  List.length consumption = 12%nat ->
  annual == sum (firstn 12 pv) ->
  (j < 12)%nat -> nth j consumption 0 < nth j pv 0 ->
  (k < 12)%nat -> nth k pv 0 < nth k consumption 0 ->
  Economic._calculate_pv_only_scenario kwp annual pv consumption p = Ok s1 ->
  Economic._calculate_pv_bess_scenario kwp annual pv consumption capacity
    increase p = Ok s2 ->
  Economic.annual_self_consumption s1 + increase
  < Economic.annual_self_consumption s2.
Proof.
  intros Hp Hc Hannual Hj Hsur Hk Hdef H1 H2.
  assert (Hc12 : (12 <= List.length consumption)%nat) by lia.
  assert (Hs1 : Economic.annual_self_consumption s1
                = sum (map (Reference.month_self pv consumption) (range 12))).
  { revert H1. unfold Economic._calculate_pv_only_scenario.
    rewrite economic_monthly_flows_spec by assumption. cbn [bind].
    destruct (Economic._calculate_npv _ _); cbn [bind];
      [|intro H; discriminate H].
    destruct (Economic._calculate_payback _ _); cbn [bind];
      [|intro H; discriminate H].
    intro H. injection H as <-. reflexivity. }
  assert (Hs2 : Economic.annual_self_consumption s2
                = min2 annual (sum consumption) + increase).
  { revert H2. unfold Economic._calculate_pv_bess_scenario.
    destruct (Economic._calculate_npv _ _); cbn [bind];
      [|intro H; discriminate H].
    destruct (Economic._calculate_payback _ _); cbn [bind];
      [|intro H; discriminate H].
    intro H. injection H as <-. reflexivity. }
  rewrite Hs1, Hs2.
  pose proof (annual_self_export pv consumption Hp) as He.
  pose proof (annual_self_import pv consumption Hc12) as Hi.
  pose proof (surplus_exports pv consumption j Hj Hsur) as Hexp.
  pose proof (deficit_imports pv consumption k Hk Hdef) as Himp.
  rewrite <- Hc, firstn_all in Hi.
  destruct (min2_cases annual (sum consumption)) as [[_ ->]|[_ ->]]; lra.
Qed.

Lemma battery_scenario_nets_annually_witness :
  exists s1 s2,
    Economic._calculate_pv_only_scenario 228.7 164829 Sample.pv_monthly
      Sample.consumption_monthly Economic.default_parameters = Ok s1 /\
    Economic._calculate_pv_bess_scenario 228.7 164829 Sample.pv_monthly
      Sample.consumption_monthly 1600 1000 Economic.default_parameters
    = Ok s2 /\
    Economic.annual_self_consumption s1 + 1000
    < Economic.annual_self_consumption s2.
Proof.
  destruct (pv_only_total 228.7 164829 Sample.pv_monthly
              Sample.consumption_monthly Economic.default_parameters)
    as [s1 H1].
  { simpl; lia. }
  { simpl; lia. }
  { intro H; vm_compute in H; discriminate H. }
  { intro H; vm_compute in H; discriminate H. }
  destruct (pv_bess_total 228.7 164829 Sample.pv_monthly
              Sample.consumption_monthly 1600 1000
              Economic.default_parameters) as [s2 H2].
  { intro H; vm_compute in H; discriminate H. }
  { intro H; vm_compute in H; discriminate H. }
  exists s1, s2. split; [exact H1|]. split; [exact H2|].
  apply (battery_scenario_nets_annually 228.7 164829 Sample.pv_monthly
           Sample.consumption_monthly 1600 1000 Economic.default_parameters
           s1 s2 3 0).
  - simpl; lia.
  - reflexivity.
  - reflexivity.
  - lia.
  - reflexivity.
  - lia.
  - reflexivity.
  - exact H1.
  - exact H2.
Defined.

(** ** The levelized cost of energy *)

Section Lcoe.

Variable rate : Q.
Hypothesis rate_ok : -1 < rate.

Lemma production_terms_value (production : Q) (years : list nat) :
  exists ps,
    comprehension
      (fun year => truediv production (pow (1 + rate) year)) years = Ok ps /\
    sum ps == production * Reference.annuity rate years.
Proof.
  induction years as [|y years [ps [Hps Hsum]]]; cbn [comprehension].
  - exists []. split; [reflexivity|]. cbn [Reference.annuity].
    change (sum []) with 0. ring.
  - assert (Hp : 0 < pow (1 + rate) y) by (apply pow_pos; lra).
    rewrite truediv_ok by lra. cbn [bind]. rewrite Hps. cbn [bind].
    eexists. split; [reflexivity|].
    rewrite sum_cons, Hsum. cbn [Reference.annuity]. field. lra.
Qed.

Lemma cost_terms_value (costs : list Q) :
  forall i,
  exists cs,
    comprehension
      (fun '(year, cost) => truediv cost (pow (1 + rate) year))
      (combine (seq i (List.length costs)) costs) = Ok cs /\
    sum cs == Reference.discounted rate i costs.
Proof.
  induction costs as [|c costs IH]; intro i;
    cbn [List.length seq combine comprehension].
  - exists []. split; reflexivity.
  - assert (Hp : 0 < pow (1 + rate) i) by (apply pow_pos; lra).
    rewrite truediv_ok by lra. cbn [bind].
    destruct (IH (S i)) as [cs [Hcs Hsum]]. rewrite Hcs. cbn [bind].
    eexists. split; [reflexivity|].
    rewrite sum_cons, Hsum. cbn [Reference.discounted]. reflexivity.
Qed.

Lemma discounted_nonneg (cfs : list Q) :
  Forall (fun x => 0 <= x) cfs ->
  forall i, 0 <= Reference.discounted rate i cfs.
Proof.
  induction 1 as [|c cfs Hc _ IH]; intro i; cbn [Reference.discounted].
  - apply Qle_refl.
  - assert (Hp : 0 < pow (1 + rate) i) by (apply pow_pos; lra).
    assert (0 <= c / pow (1 + rate) i).
    { apply Qle_shift_div_l; [exact Hp | lra]. }
    pose proof (IH (S i)). lra.
Qed.

End Lcoe.

(** X24.  For a discount rate and an opex escalation between 0 and 1, at
    most 100 years of analysis, a capital cost and an annual opex between
    0 and 1e100 and an annual production between 1 and 1e100, the LCOE is
    returned, it is not negative, and it does not grow with the
    production: a larger production gives an LCOE that is not above the
    one of the smaller production.  For a production that is zero or
    negative the LCOE is reported as 0. *)
Theorem lcoe_falls_as_production_grows
        (capex annual_opex production production' : Q)
        (p : Economic.EconomicParameters) :
  0 <= Economic.wacc p -> Economic.wacc p <= 1 ->
  0 <= Economic.opex_escalation p -> Economic.opex_escalation p <= 1 ->
  (Economic.analysis_years p <= 100)%Z ->
  0 <= capex -> capex <= 1e100 ->
  0 <= annual_opex -> annual_opex <= 1e100 ->
  1 <= production -> production <= production' -> production' <= 1e100 ->
  (exists l l',
      Economic._calculate_lcoe capex annual_opex production p = Ok l /\
      Economic._calculate_lcoe capex annual_opex production' p = Ok l' /\
      0 <= l' /\ l' <= l) /\
  (forall idle,
      -1e100 <= idle -> idle <= 0 ->
      Economic._calculate_lcoe capex annual_opex idle p = Ok 0).
Proof.
  intros Hw0 _ He0 _ _ Hc _ Ho _ Hp Hpp _.
  assert (Hw : -1 < Economic.wacc p) by lra.
  unfold Economic._calculate_lcoe.
  set (years := range2 1 (Economic.analysis_years p + 1)).
  set (costs := [capex] ++
                map (fun year =>
                       annual_opex
                       * pow (1 + Economic.opex_escalation p) year)
                    (range (Economic.analysis_years p))).
  pose proof (annuity_nonneg (Economic.wacc p) years Hw) as HA.
  destruct (cost_terms_value (Economic.wacc p) Hw costs 0)
    as [cs [Hcs Hcsum]].
  assert (Hcost : 0 <= sum cs).
  { rewrite Hcsum. apply discounted_nonneg; [exact Hw|].
    unfold costs. constructor; [exact Hc|].
    apply Forall_forall. intros x Hx. apply in_map_iff in Hx.
    destruct Hx as [year [<- _]].
    apply Qmult_le_0_compat; [exact Ho|].
    apply Qlt_le_weak, pow_pos. lra. }
  split.
  - destruct (production_terms_value (Economic.wacc p) Hw production years)
      as [ps [-> Hps]].
    destruct (production_terms_value (Economic.wacc p) Hw production' years)
      as [ps' [-> Hps']].
    cbn [bind]. rewrite Hcs. cbn [bind].
    set (A := Reference.annuity (Economic.wacc p) years) in *.
    assert (Hgrow : sum ps <= sum ps').
    { rewrite Hps, Hps'.
      assert (0 <= (production' - production) * A)
        by (apply Qmult_le_0_compat; lra).
      lra. }
    assert (Hpos : 0 <= sum ps).
    { rewrite Hps. apply Qmult_le_0_compat; lra. }
    destruct (gtb (sum ps) 0) eqn:E.
    + apply gtb_gt in E.
      assert (E' : gtb (sum ps') 0 = true) by (apply gtb_gt; lra).
      rewrite E'. rewrite !truediv_ok by lra.
      eexists. eexists. split; [reflexivity|]. split; [reflexivity|].
      assert (E'' : 0 < sum ps') by lra.
      assert (Hx : 0 <= sum cs / sum ps).
      { apply Qle_shift_div_l; [exact E | lra]. }
      split.
      * apply Qle_shift_div_l; [exact E'' | lra].
      * apply Qle_shift_div_r; [exact E''|].
        assert (Hm : 0 <= sum cs / sum ps * (sum ps' - sum ps))
          by (apply Qmult_le_0_compat; lra).
        assert (Hid : sum cs / sum ps * sum ps == sum cs) by (field; lra).
        set (x := sum cs / sum ps) in *.
        setoid_replace (x * sum ps') with (x * sum ps + x * (sum ps' - sum ps))
          by ring.
        lra.
    + apply gtb_le in E.
      assert (Hzero : A == 0).
      { assert (Hs : sum ps == 0) by lra. rewrite Hps in Hs.
        apply Qmult_integral in Hs. destruct Hs as [Hs|Hs]; [lra | exact Hs]. }
      assert (E' : gtb (sum ps') 0 = false).
      { apply gtb_le. rewrite Hps', Hzero. lra. }
      rewrite E'. eexists. eexists.
      split; [reflexivity|]. split; [reflexivity|].
      split; apply Qle_refl.
  - intros idle _ Hidle.
    destruct (production_terms_value (Economic.wacc p) Hw idle years)
      as [ps [-> Hps]].
    cbn [bind]. rewrite Hcs. cbn [bind].
    assert (E : gtb (sum ps) 0 = false).
    { apply gtb_le. rewrite Hps.
      assert (0 <= - idle * Reference.annuity (Economic.wacc p) years)
        by (apply Qmult_le_0_compat; lra).
      lra. }
    rewrite E. reflexivity.
Qed.

Lemma lcoe_falls_as_production_grows_witness :
  exists l l',
    Economic._calculate_lcoe 274440 5488.8 164830
      Economic.default_parameters = Ok l /\
    Economic._calculate_lcoe 274440 5488.8 (2 * 164830)
      Economic.default_parameters = Ok l' /\
    0 <= l' /\ l' <= l.
Proof.
  destruct (lcoe_falls_as_production_grows 274440 5488.8 164830 (2 * 164830)
              Economic.default_parameters) as [H _].
  - vm_compute; discriminate.
  - vm_compute; discriminate.
  - vm_compute; discriminate.
  - vm_compute; discriminate.
  - vm_compute; discriminate.
  - discriminate.
  - vm_compute; discriminate.
  - discriminate.
  - vm_compute; discriminate.
  - discriminate.
  - vm_compute; discriminate.
  - vm_compute; discriminate.
  - exact H.
Defined.

(** ** The sensitivity table *)

Section Sensitivity.

Variables (kwp annual capacity : Q) (p : Economic.EconomicParameters).

(** the NPV of an entry, from the capital cost, the price and the discount
    rate of the modified parameters *)
Lemma sensitivity_npv_value (a : Economic.param_attr) (variation : Z) :
  let p' :=
    Economic.setattr p a
      (Economic.getattr p a * (1 + inject_Z variation / 100)) in
  let total :=
    kwp * Economic.pv_capex_per_kwp p'
    + capacity * Economic.bess_capex_per_kwh p' in
  -1 < Economic.wacc p' ->
  Economic.sensitivity_npv kwp annual capacity p a variation
  == - total
     + (annual * Economic.electricity_price_f2 p' * 0.7 - total * 0.015)
       * Reference.annuity (Economic.wacc p')
           (seq 1 (Z.to_nat (Economic.analysis_years p'))).
Proof.
  intros p' total Hw. unfold Economic.sensitivity_npv.
  fold p'. fold total. unfold Economic._calculate_npv.
  match goal with
  | |- context [Economic.npv_loop ?r ?i ?l ?acc] =>
      destruct (npv_loop_value r l Hw i acc) as [v [Hv Hval]]
  end.
  rewrite Hv. cbn [try_except]. rewrite Hval.
  cbn [app Reference.discounted]. rewrite discounted_repeat, pow_O.
  field.
Qed.

End Sensitivity.

(** X25.  Without a battery the row [bess_capex] of the sensitivity table
    is flat: with a capacity of zero and a discount rate above -1 its five
    entries, labelled -20%, -10%, +0%, +10% and +20%, all carry the NPV of
    the unchanged parameters. *)
Theorem sensitivity_bess_capex_row_is_flat_without_battery
        (kwp annual consumption_annual : Q)
        (p : Economic.EconomicParameters) :
  -1 < Economic.wacc p ->
  exists row,
    Bess.lookup "bess_capex"
      (Economic._calculate_sensitivity_analysis kwp annual consumption_annual
         0 p) = Some row /\
    map fst row = ["-20%"; "-10%"; "+0%"; "+10%"; "+20%"]%string /\
    forall label v,
      In (label, v) row ->
      v == Economic.sensitivity_npv kwp annual 0 p
             Economic.attr_pv_capex_per_kwp 0.
Proof.
  intro Hw. eexists. split; [reflexivity|]. split; [reflexivity|].
  intros label v Hin.
  assert (Hrow : forall variation,
             Economic.sensitivity_npv kwp annual 0 p
               Economic.attr_bess_capex_per_kwh variation
             == Economic.sensitivity_npv kwp annual 0 p
                  Economic.attr_pv_capex_per_kwp 0).
  { intro variation.
    rewrite (sensitivity_npv_value kwp annual 0 p
               Economic.attr_bess_capex_per_kwh variation) by exact Hw.
    rewrite (sensitivity_npv_value kwp annual 0 p
               Economic.attr_pv_capex_per_kwp 0) by exact Hw.
    cbn [Economic.setattr Economic.getattr Economic.pv_capex_per_kwp
         Economic.bess_capex_per_kwh Economic.electricity_price_f2
         Economic.wacc Economic.analysis_years].
    change (inject_Z 0 / 100) with (0 / 100).
    set (A := Reference.annuity _ _). field. }
  cbn [map Economic.variations] in Hin.
  repeat (destruct Hin as [Hin|Hin];
          [injection Hin as _ <-; apply Hrow|]).
  contradiction.
Qed.

Lemma sensitivity_bess_capex_row_is_flat_without_battery_witness :
  exists row,
    Bess.lookup "bess_capex"
      (Economic._calculate_sensitivity_analysis 228.7 164830 200000 0
         Economic.default_parameters) = Some row /\
    map fst row = ["-20%"; "-10%"; "+0%"; "+10%"; "+20%"]%string.
Proof.
  destruct (sensitivity_bess_capex_row_is_flat_without_battery 228.7 164830
              200000 Economic.default_parameters) as [row [Hrow [Hl _]]].
  - reflexivity.
  - exists row. split; [exact Hrow | exact Hl].
Defined.
